(** * Contrastive sensor fusion: the unsupervised training module

    A shallow embedding of [csf/train.py]: hyperparameter schedules, the
    layer-loss-weight parser, view creation, the contrastive loss, the
    training step and the training loop.

    TensorFlow's float tensors are idealised as tensors of real numbers
    ([R]); integers ([step], flag values) are [Z], with the 64-bit
    wrap-around of the step variable written out. *)

From Stdlib Require Import String Ascii.
From Stdlib Require Import Reals Lra Lia ZArith Bool Arith List Sorted.
Import ListNotations.

Local Open Scope R_scope.

(** ** Flags *)

(** The absl flags the module reads.  Optional flags that default to
    [None] in Python are [option]s.  [batch_size], [data_tilesize],
    [random_seed], [bands] and [n_bands] come from [csf.global_flags]. *)
Record Flags := {
  batch_size : nat;
  data_tilesize : nat;
  n_bands : nat;
  random_seed : Z;
  model_tilesize : nat;
  learning_rate : R;
  band_dropout_rate : R;
  layer_loss_weights_flag : list string;
  learning_rate_warmup_batches : option Z;
  band_dropout_rate_warmup_batches : option Z;
  random_brightness_delta : option R;
  random_contrast_delta : option R;
  softmax_temperature : R;
  gradient_clipnorm : R;
  train_batches : Z;
  summary_frequency : Z;
  checkpoint_frequency : Z;
  bands : list string;
  visualize_bands : option (list string)
}.

(** Python truthiness of an optional integer flag: [None] and [0] are
    false. *)
Definition truthy_int (v : option Z) : bool :=
  match v with
  | None => false
  | Some z => negb (z =? 0)%Z
  end.

(** Python truthiness of an optional float flag: [None] and [0.0] are
    false. *)
Definition truthy_float (v : option R) : bool :=
  match v with
  | None => false
  | Some x => if Req_dec_T x 0 then false else true
  end.

(** Python truthiness of an optional list flag: [None] and the empty
    list are false. *)
Definition truthy_list {A : Type} (v : option (list A)) : bool :=
  match v with
  | None | Some [] => false
  | Some (_ :: _) => true
  end.

(** ** Exceptions *)

(** The Python exceptions the modelled code can raise. *)
Inductive exception :=
| NameError
| ValueError
| AssertionError
| KeyError
| ZeroDivisionError
| InvalidArgumentError
| IllegalFlagValueError.

Inductive result (A : Type) :=
| Ok (a : A)
| Raise (e : exception).

Arguments Ok {A} a.
Arguments Raise {A} e.

Definition bind {A B : Type} (m : result A) (k : A -> result B) : result B :=
  match m with
  | Ok a => k a
  | Raise e => Raise e
  end.

Notation "x <- m ;; k" := (bind m (fun x => k))
  (at level 61, m at next level, right associativity).
Notation "' p <- m ;; k" := (bind m (fun x => match x with p => k end))
  (at level 61, p pattern, m at next level, right associativity).

Definition is_ok {A : Type} (m : result A) : bool :=
  match m with Ok _ => true | Raise _ => false end.

Definition result_map {A B : Type} (f : A -> B) (m : result A) : result B :=
  match m with
  | Ok a => Ok (f a)
  | Raise e => Raise e
  end.

(** ** Dictionaries *)

(** A Python [dict] with string keys, as the list of its items in
    insertion order; assigning to a key that is present keeps its
    position. *)
Definition dict (V : Type) := list (string * V).

Fixpoint dict_set {V : Type} (d : dict V) (k : string) (v : V) : dict V :=
  match d with
  | [] => [(k, v)]
  | (k', v') :: rest =>
      if String.eqb k' k then (k', v) :: rest
      else (k', v') :: dict_set rest k v
  end.

Fixpoint dict_get {V : Type} (d : dict V) (k : string) : option V :=
  match d with
  | [] => None
  | (k', v') :: rest => if String.eqb k' k then Some v' else dict_get rest k
  end.

(** [d[k]], raising [KeyError] on a missing key. *)
Definition getitem {V : Type} (d : dict V) (k : string) : result V :=
  match dict_get d k with
  | Some v => Ok v
  | None => Raise KeyError
  end.

(** Reading a local variable of an enclosing function: [None] is a name
    that was never assigned. *)
Definition read_name {A : Type} (v : option A) : result A :=
  match v with
  | Some a => Ok a
  | None => Raise NameError
  end.

(** [str.split(sep)] for a one-character separator. *)
Fixpoint split (sep : ascii) (s : string) : list string :=
  match s with
  | EmptyString => [EmptyString]
  | String c rest =>
      if Ascii.eqb c sep then EmptyString :: split sep rest
      else match split sep rest with
           | [] => [String c EmptyString]
           | part :: parts => String c part :: parts
           end
  end.

(** ** Tensors *)

(** A rank-2 float tensor is a list of rows, a rank-4 one (imagery
    [batch, height, width, band], convolutional activations) four nested
    lists, in row-major order. *)
Definition matrix := list (list R).
Definition tensor4 := list (list (list (list R))).

(** Diagnostic records handed to the summary writer. *)
Inductive summary :=
| SummaryScalar (name : string) (value : R)
| SummaryHistogram (name : string) (values : list R)
| SummaryImage (name : string) (image : tensor4).

Fixpoint mapi_from {A B : Type} (i : nat) (f : nat -> A -> B) (l : list A)
    : list B :=
  match l with
  | [] => []
  | x :: t => f i x :: mapi_from (S i) f t
  end.

(** [mapi f [x0; x1; ...] = [f 0 x0; f 1 x1; ...]]. *)
Definition mapi {A B : Type} (f : nat -> A -> B) (l : list A) : list B :=
  mapi_from 0 f l.

Definition Rsum (l : list R) : R := fold_right Rplus 0 l.

Definition dot (u v : list R) : R := Rsum (map (fun p => fst p * snd p) (combine u v)).

Definition bool_to_float (b : bool) : R := if b then 1 else 0.

(** The unit-interval and integer draws the random ops of one view
    consume: one raw integer per dimension for the crop offset, one
    uniform draw for brightness, one for contrast, and one per (batch
    element, band) for the dropout noise of shape
    [(batch_size, 1, 1, n_bands)]. *)
Record ViewNoise := {
  crop_uniform : nat * nat * nat * nat;
  brightness_uniform : R;
  contrast_uniform : R;
  dropout_uniform : nat -> nat -> R
}.

(** ** TensorFlow operations *)

Module tf.

(** Row-major list of all the elements. *)
Definition flatten3 (x : list (list (list R))) : list R :=
  concat (map (fun row => concat row) x).

Definition flatten4 (x : tensor4) : list R :=
  concat (map flatten3 x).

(** [n] consecutive slices of length [d]. *)
Fixpoint chunks (n d : nat) (data : list R) : matrix :=
  match n with
  | O => []
  | S n' => firstn d data :: chunks n' d (skipn d data)
  end.

(** [tf.reshape(x, (n, -1))]: the elements in row-major order, cut into
    [n] rows; raises when the element count is not a multiple of [n]
    (and for [n = 0]). *)
Definition reshape (x : tensor4) (n : nat) : result matrix :=
  let data := flatten4 x in
  match n with
  | O => Raise InvalidArgumentError
  | S _ =>
      if (length data mod n =? 0)%nat
      then Ok (chunks n (length data / n) data)
      else Raise InvalidArgumentError
  end.

Definition n_cols (m : matrix) : nat := length (hd [] m).

(** [tf.linalg.matmul(a, b, transpose_b=True)]: entry [i, j] is the dot
    product of row [i] of [a] and row [j] of [b]; raises when the inner
    dimensions differ. *)
Definition matmul_transpose_b (a b : matrix) : result matrix :=
  if (n_cols a =? n_cols b)%nat
  then Ok (map (fun u => map (fun v => dot u v) b) a)
  else Raise InvalidArgumentError.

Definition divide (m : matrix) (c : R) : matrix :=
  map (map (fun x => x / c)) m.

Definition Rmax_list (l : list R) : R :=
  match l with
  | [] => 0
  | x :: t => fold_left Rmax t x
  end.

Definition reduce_max (m : matrix) : R := Rmax_list (concat m).

Definition column (j : nat) (m : matrix) : list R :=
  map (fun row => nth j row 0) m.

Definition logsumexp (l : list R) : R := ln (Rsum (map exp l)).

(** [tf.nn.log_softmax(logits, axis)] on a matrix:
    [logits - log(reduce_sum(exp(logits), axis, keepdims=True))]. *)
Definition log_softmax (logits : matrix) (axis : nat) : matrix :=
  match axis with
  | O => map (mapi (fun j x => x - logsumexp (column j logits))) logits
  | _ => map (fun row => map (fun x => x - logsumexp row) row) logits
  end.

Fixpoint diag_part_from (k : nat) (m : matrix) : list R :=
  match m with
  | [] => []
  | row :: rest =>
      match nth_error row k with
      | Some x => x :: diag_part_from (S k) rest
      | None => []
      end
  end.

(** [tf.linalg.diag_part]: the main diagonal. *)
Definition diag_part (m : matrix) : list R := diag_part_from 0 m.

Definition reduce_mean (l : list R) : R := Rsum l / INR (length l).

Definition reduce_sum (l : list R) : R := Rsum l.

Definition negative (x : R) : R := - x.

Fixpoint argmax_from (l : list R) (i best_i : nat) (best : R) : nat :=
  match l with
  | [] => best_i
  | x :: t =>
      if Rlt_dec best x then argmax_from t (S i) i x
      else argmax_from t (S i) best_i best
  end.

(** Index of the largest element, the smallest such index on ties. *)
Definition argmax_list (l : list R) : nat :=
  match l with
  | [] => O
  | x :: t => argmax_from t 1 0 x
  end.

(** [tf.argmax(input)] with the default [axis=0]: for every column, the
    row index of its largest entry. *)
Definition argmax (m : matrix) : list nat :=
  map (fun j => argmax_list (column j m)) (seq 0 (n_cols m)).

(** [tf.equal] on two integer vectors, cast to float; raises when the
    lengths differ. *)
Definition equal_as_float (u v : list nat) : result (list R) :=
  if (length u =? length v)%nat
  then Ok (map (fun p => bool_to_float (fst p =? snd p)%nat) (combine u v))
  else Raise InvalidArgumentError.

Definition slice {A : Type} (offset size : nat) (l : list A) : list A :=
  firstn size (skipn offset l).

Definition shape4 (x : tensor4) : nat * nat * nat * nat :=
  (length x, length (hd [] x), length (hd [] (hd [] x)),
   length (hd [] (hd [] (hd [] x)))).

(** [tf.image.random_crop(value, size, seed)]: requires
    [value.shape >= size] in every dimension; the offset is the raw
    integer draw modulo [shape - size + 1]; the result is
    [tf.slice(value, offset, size)]. *)
Definition image_random_crop (value : tensor4) (size : nat * nat * nat * nat)
    (u : nat * nat * nat * nat) : result tensor4 :=
  let '(s0, s1, s2, s3) := shape4 value in
  let '(n0, n1, n2, n3) := size in
  let '(u0, u1, u2, u3) := u in
  if ((n0 <=? s0) && (n1 <=? s1) && (n2 <=? s2) && (n3 <=? s3))%nat
  then
    let o0 := (u0 mod (s0 - n0 + 1))%nat in
    let o1 := (u1 mod (s1 - n1 + 1))%nat in
    let o2 := (u2 mod (s2 - n2 + 1))%nat in
    let o3 := (u3 mod (s3 - n3 + 1))%nat in
    Ok (map (fun img =>
          map (fun row => map (fun px => slice o3 n3 px) (slice o2 n2 row))
            (slice o1 n1 img))
        (slice o0 n0 value))
  else Raise InvalidArgumentError.

Definition map4 (f : R -> R) (x : tensor4) : tensor4 :=
  map (map (map (map f))) x.

(** [tf.image.random_brightness(image, max_delta, seed)]: adds one
    offset drawn uniformly from [[-max_delta, max_delta)] to every
    value. *)
Definition image_random_brightness (image : tensor4) (max_delta : R)
    (u : R) : result tensor4 :=
  if Rlt_dec max_delta 0 then Raise ValueError
  else
    let delta := - max_delta + u * (max_delta - - max_delta) in
    Ok (map4 (fun x => x + delta) image).

Definition channel_mean (img : list (list (list R))) (c : nat) : R :=
  Rsum (map (fun px => nth c px 0) (concat img)) / INR (length (concat img)).

(** [tf.image.random_contrast(image, lower, upper, seed)]: one factor
    drawn uniformly from [[lower, upper)]; every channel of every image is
    rescaled around its own mean, [(x - mean) * factor + mean]. *)
Definition image_random_contrast (image : tensor4) (lower upper : R)
    (u : R) : result tensor4 :=
  if Rle_dec upper lower then Raise ValueError
  else if Rlt_dec lower 0 then Raise ValueError
  else
    let factor := lower + u * (upper - lower) in
    Ok (map (fun img =>
          map (map (mapi (fun c x =>
            (x - channel_mean img c) * factor + channel_mean img c))) img)
        image).

(** [tf.nn.dropout(x, rate, noise_shape=(nb, 1, 1, nc), seed)] for a
    tensor-valued [rate]: [x * (1 / (1 - rate))] times the keep mask
    [uniform >= rate], the mask of shape [(nb, 1, 1, nc)] shared by all
    spatial positions.  The model covers inputs whose batch and band
    dimensions equal those of the noise shape (no dimension of size one
    is stretched); any other input raises. *)
Definition nn_dropout (x : tensor4) (rate : R) (nb nc : nat)
    (u : nat -> nat -> R) : result tensor4 :=
  if ((length x =? nb)
      && forallb (forallb (forallb (fun px => length px =? nc))) x)%nat
  then
    let scale := 1 / (1 - rate) in
    Ok (mapi (fun b img =>
          map (map (mapi (fun c v =>
            v * scale * bool_to_float (if Rge_dec (u b c) rate then true else false))))
            img)
        x)
  else Raise InvalidArgumentError.

End tf.

(** ** Sample collaborators and configurations *)

(** Small concrete stand-ins for the collaborators, used to exercise the
    model on concrete inputs. *)
Module Sample.

Definition layers : list string :=
  ["conv4_block5_out"; "conv5_block3_out"]%string.

Definition digit (c : ascii) : option Z :=
  let n := nat_of_ascii c in
  if ((48 <=? n) && (n <=? 57))%nat then Some (Z.of_nat (n - 48)) else None.

Fixpoint digits (acc : Z) (s : string) : option Z :=
  match s with
  | EmptyString => Some acc
  | String c rest =>
      match digit c with
      | Some d => digits (10 * acc + d)%Z rest
      | None => None
      end
  end.

(** The unsigned decimal literals [digits] and [digits.digits] of Python's
    [float]. *)
Definition float (s : string) : option R :=
  match split "." s with
  | [i] =>
      match i, digits 0 i with
      | String _ _, Some n => Some (IZR n)
      | _, _ => None
      end
  | [i; f] =>
      match i, f, digits 0 i, digits 0 f with
      | String _ _, String _ _, Some n, Some m =>
          Some (IZR n + IZR m / IZR (10 ^ Z.of_nat (String.length f)))
      | _, _, _, _ => None
      end
  | _ => None
  end.

(** An encoder with one scalar weight: both layers return the view
    scaled by the weight. *)
Definition encoder (w : R) (view : tensor4) : result (dict tensor4) :=
  Ok [("conv4_block5_out"%string, tf.map4 (fun x => w * x) view);
      ("conv5_block3_out"%string, tf.map4 (fun x => w * x) view)].

Definition tape_gradient (loss : R -> result R) (w : R) : R := 1.

(** Plain gradient descent, keeping a count of updates as its state. *)
Definition apply_gradients (clipnorm : R) (count : nat) (lr : R) (g : R) (w : R)
    : nat * R :=
  (S count, w - lr * g).

Definition partition_imagery (batch : tensor4) (bands vis : list string)
    : result (list string * list tensor4) :=
  Ok ([], []).

Definition random_ops (step seed : Z) : ViewNoise :=
  {| crop_uniform := (5, 3, 2, 9)%nat;
     brightness_uniform := 0;
     contrast_uniform := 0;
     dropout_uniform := fun _ _ => 1 / 2 |}.

(** Batches of [n] images of one pixel and one band. *)
Definition flags_of (n : nat) (summaries : Z) (batches : Z)
    (weights : list string) : Flags :=
  {| batch_size := n;
     data_tilesize := 1;
     n_bands := 1;
     random_seed := 7;
     model_tilesize := 1;
     learning_rate := 1 / 100;
     band_dropout_rate := 0;
     layer_loss_weights_flag := weights;
     learning_rate_warmup_batches := None;
     band_dropout_rate_warmup_batches := None;
     random_brightness_delta := None;
     random_contrast_delta := None;
     softmax_temperature := 1 / 10;
     gradient_clipnorm := 1;
     train_batches := batches;
     summary_frequency := summaries;
     checkpoint_frequency := 500;
     bands := [];
     visualize_bands := None |}.

Definition flags : Z -> Z -> list string -> Flags := flags_of 1.

(** Data tiles of 2 by 2 pixels, cropped to model tiles of one pixel. *)
Definition crop_flags : Flags :=
  {| batch_size := 1;
     data_tilesize := 2;
     n_bands := 1;
     random_seed := 7;
     model_tilesize := 1;
     learning_rate := 1 / 100;
     band_dropout_rate := 0;
     layer_loss_weights_flag := [];
     learning_rate_warmup_batches := None;
     band_dropout_rate_warmup_batches := None;
     random_brightness_delta := None;
     random_contrast_delta := Some 0;
     softmax_temperature := 1 / 10;
     gradient_clipnorm := 1;
     train_batches := 3;
     summary_frequency := 100;
     checkpoint_frequency := 500;
     bands := [];
     visualize_bands := None |}.

Definition tile : tensor4 := [[[[1]; [2]]; [[3]; [4]]]].

Definition weights_flag : list string :=
  ["conv4_block5_out:0.5"; "conv5_block3_out:1.0"]%string.

Definition batch : tensor4 := [[[[1]]]].

(** Two representations of a batch of two, two values per element; their
    matrix of similarities is [[1, 0], [2, 3]]. *)
Definition repr_a : tensor4 := [[[[1; 0]]]; [[[0; 1]]]].
Definition repr_b : tensor4 := [[[[1; 2]]]; [[[0; 3]]]].

(** The parsed form of [weights_flag]. *)
Definition weights : dict R :=
  [("conv4_block5_out"%string, 1 / 2); ("conv5_block3_out"%string, 1)].

(** A model tile of 2 by 2 pixels for data tiles of one pixel. *)
Definition big_model_flags : Flags :=
  {| batch_size := 1;
     data_tilesize := 1;
     n_bands := 1;
     random_seed := 7;
     model_tilesize := 2;
     learning_rate := 1 / 100;
     band_dropout_rate := 0;
     layer_loss_weights_flag := [];
     learning_rate_warmup_batches := None;
     band_dropout_rate_warmup_batches := None;
     random_brightness_delta := None;
     random_contrast_delta := None;
     softmax_temperature := 1 / 10;
     gradient_clipnorm := 1;
     train_batches := 3;
     summary_frequency := 100;
     checkpoint_frequency := 500;
     bands := [];
     visualize_bands := None |}.

(** The sample configuration with [checkpoint_frequency = 0]. *)
Definition unsaved_flags : Flags :=
  {| batch_size := 1;
     data_tilesize := 1;
     n_bands := 1;
     random_seed := 7;
     model_tilesize := 1;
     learning_rate := 1 / 100;
     band_dropout_rate := 0;
     layer_loss_weights_flag := weights_flag;
     learning_rate_warmup_batches := None;
     band_dropout_rate_warmup_batches := None;
     random_brightness_delta := None;
     random_contrast_delta := None;
     softmax_temperature := 1 / 10;
     gradient_clipnorm := 1;
     train_batches := 3;
     summary_frequency := 100;
     checkpoint_frequency := 0;
     bands := [];
     visualize_bands := None |}.




(** Data tiles of 2 by 2 pixels cropped to one pixel, with brightness and
    contrast jitter. *)
Definition augmented_flags : Flags :=
  {| batch_size := 1;
     data_tilesize := 2;
     n_bands := 1;
     random_seed := 7;
     model_tilesize := 1;
     learning_rate := 1 / 100;
     band_dropout_rate := 1 / 4;
     layer_loss_weights_flag := [];
     learning_rate_warmup_batches := None;
     band_dropout_rate_warmup_batches := None;
     random_brightness_delta := Some (1 / 10);
     random_contrast_delta := Some (1 / 10);
     softmax_temperature := 1 / 10;
     gradient_clipnorm := 1;
     train_batches := 3;
     summary_frequency := 100;
     checkpoint_frequency := 500;
     bands := [];
     visualize_bands := None |}.

(** The sample configuration with both schedules warming up over two
    batches. *)
Definition warmup_flags : Flags :=
  {| batch_size := 1;
     data_tilesize := 1;
     n_bands := 1;
     random_seed := 7;
     model_tilesize := 1;
     learning_rate := 1 / 100;
     band_dropout_rate := 1 / 4;
     layer_loss_weights_flag := weights_flag;
     learning_rate_warmup_batches := Some 2%Z;
     band_dropout_rate_warmup_batches := Some 2%Z;
     random_brightness_delta := None;
     random_contrast_delta := None;
     softmax_temperature := 1 / 10;
     gradient_clipnorm := 1;
     train_batches := 1;
     summary_frequency := 100;
     checkpoint_frequency := 500;
     bands := [];
     visualize_bands := None |}.

End Sample.
(** ** Metrics, the training state and the run log *)

(** [tf.metrics.Mean]: a running total and a count. *)
Record Mean := { total : R; count : R }.

Definition new_mean : Mean := {| total := 0; count := 0 |}.

Definition update_state (m : Mean) (values : list R) : Mean :=
  {| total := total m + Rsum values; count := count m + INR (length values) |}.

(** [Mean.result()] divides with [div_no_nan]. *)
Definition mean_result (m : Mean) : R :=
  if Req_dec_T (count m) 0 then 0 else total m / count m.

Definition reset_states (m : Mean) : Mean := new_mean.

(** The 64-bit wrap-around of an [int64] variable. *)
Definition wrap_int64 (z : Z) : Z :=
  ((z + 2 ^ 63) mod 2 ^ 64 - 2 ^ 63)%Z.

(** What a run does to the outside world, in order. *)
Inductive event :=
| EvAssignAdd (new_step : Z)
| EvTraceOn
| EvTrainStep (step : Z) (show_summaries : bool)
| EvTraceExport
| EvSummary (s : summary)
| EvCheckpoint (step : Z)
| EvLogFinished (step : Z).

(** Computations of the training loop: the events emitted so far, and a
    value or the exception that ended the run. *)
Definition M (A : Type) : Type := list event * result A.

Definition ret {A : Type} (a : A) : M A := ([], Ok a).

Definition lift {A : Type} (r : result A) : M A := ([], r).

Definition emit (e : event) : M unit := ([e], Ok tt).

Definition emit_all (es : list event) : M unit := (es, Ok tt).

Definition bindM {A B : Type} (m : M A) (k : A -> M B) : M B :=
  match snd m with
  | Ok a => (fst m ++ fst (k a), snd (k a))
  | Raise e => (fst m, Raise e)
  end.

Notation "x <~ m ;; k" := (bindM m (fun x => k))
  (at level 61, m at next level, right associativity).
Notation "' p <~ m ;; k" := (bindM m (fun x => match x with p => k end))
  (at level 61, p pattern, m at next level, right associativity).

(** Summary ops write only while [tf.summary.record_if] holds. *)
Definition record (recording : bool) (l : list summary) : list summary :=
  if recording then l else [].

Section Train.

(** The collaborators that live outside this module: the names of the
    encoder's representation layers, Python's [float], the encoder, the
    gradient tape and the Adam optimizer, [csf.utils.partition_imagery],
    the draws of the random ops at a given step for a given op seed, and
    the freshly initialised weights and optimizer state. *)
Variable RESNET_REPRESENTATION_LAYERS : list string.
Variable float : string -> option R.
Variables Weights OptState Gradients : Type.
Variable encoder : Weights -> tensor4 -> result (dict tensor4).
Variable tape_gradient : (Weights -> result R) -> Weights -> Gradients.
Variable apply_gradients :
  R -> OptState -> R -> Gradients -> Weights -> OptState * Weights.
Variable partition_imagery :
  tensor4 -> list string -> list string -> result (list string * list tensor4).
Variable random_ops : Z -> Z -> ViewNoise.
Variable initial_weights : Weights.
Variable initial_opt_state : OptState.

(** The variables of [train_unsupervised] that the loop, [train_step] and
    [write_metrics] share.  The two metric names are bound only when
    [summary_frequency] is non-zero. *)
Record TrainingState := {
  step : Z;
  learning_rate_var : R;
  dropout_rate_var : R;
  weights : Weights;
  opt_state : OptState;
  total_loss_metric : option Mean;
  layer_metrics : option (list (Mean * Mean))
}.

(** ** Layer loss weights *)

Fixpoint _parse_layer_loss_weights_from (acc : dict R) (values : list string)
    : result (dict R) :=
  match values with
  | [] => Ok acc
  | value :: rest =>
      match split ":" value with
      | [name; weight] =>
          if existsb (String.eqb name) RESNET_REPRESENTATION_LAYERS then
            match float weight with
            | Some w => _parse_layer_loss_weights_from (dict_set acc name w) rest
            | None => Raise ValueError
            end
          else Raise AssertionError
      | _ => Raise ValueError
      end
  end.

Definition _parse_layer_loss_weights (values : list string) : result (dict R) :=
  _parse_layer_loss_weights_from [] values.

Definition _check_layer_loss_weights (values : list string) : bool :=
  match _parse_layer_loss_weights values with
  | Ok _ => true
  | Raise _ => false
  end.

Definition layer_loss_weights (FLAGS : Flags) : result (dict R) :=
  _parse_layer_loss_weights (layer_loss_weights_flag FLAGS).

Definition input_shape (FLAGS : Flags) : nat * nat * nat * nat :=
  (batch_size FLAGS, model_tilesize FLAGS, model_tilesize FLAGS, n_bands FLAGS).

(** ** Schedules *)

(** Modelled from the spec: [csf.utils.optional_warmup] is not part of the
    sources at hand.  Section 4.1: an unset or zero warmup length gives
    the final value; otherwise a step below the warmup length gives the
    linear interpolation [final_value * step / warmup_length] and a later
    step gives the final value. *)
Definition optional_warmup (step : Z) (final_value : R)
    (warmup_length : option Z) : R :=
  match warmup_length with
  | None => final_value
  | Some w =>
      if (w =? 0)%Z then final_value
      else if (step <? w)%Z then final_value * IZR step / IZR w
      else final_value
  end.

Definition _dropout_rate (FLAGS : Flags) (step : Z) : R :=
  optional_warmup step (band_dropout_rate FLAGS)
    (band_dropout_rate_warmup_batches FLAGS).

Definition _learning_rate (FLAGS : Flags) (step : Z) : R :=
  optional_warmup step (learning_rate FLAGS)
    (learning_rate_warmup_batches FLAGS).

(** ** Views *)

(** [seed or FLAGS.random_seed]. *)
Definition effective_seed (FLAGS : Flags) (seed : option Z) : Z :=
  match seed with
  | Some s => if (s =? 0)%Z then random_seed FLAGS else s
  | None => random_seed FLAGS
  end.

(** [rng] gives, for an op seed, the draws of the random ops during this
    call.  [step] is accepted and not used, as in the source. *)
Definition _create_view (FLAGS : Flags) (rng : Z -> ViewNoise)
    (scene : tensor4) (step : Z) (dropout_rate : R) (seed : option Z)
    : result tensor4 :=
  let seed := effective_seed FLAGS seed in
  let noise := rng seed in
  scene <-
    (if (model_tilesize FLAGS =? data_tilesize FLAGS)%nat then Ok scene
     else tf.image_random_crop scene (input_shape FLAGS) (crop_uniform noise)) ;;
  scene <-
    (if truthy_float (random_brightness_delta FLAGS) then
       match random_brightness_delta FLAGS with
       | Some delta =>
           tf.image_random_brightness scene delta (brightness_uniform noise)
       | None => Ok scene
       end
     else Ok scene) ;;
  scene <-
    (if truthy_float (random_contrast_delta FLAGS) then
       match random_contrast_delta FLAGS with
       | Some delta =>
           tf.image_random_contrast scene (1 - delta) (1 + delta)
             (contrast_uniform noise)
       | None => Ok scene
       end
     else Ok scene) ;;
  tf.nn_dropout scene dropout_rate (batch_size FLAGS) (n_bands FLAGS)
    (dropout_uniform noise).

(** ** The contrastive loss *)

(** The two flattened representations' matrix of dot products, with the
    first flattened representation (it is plotted in the summaries). *)
Definition similarities (FLAGS : Flags)
    (representation_1 representation_2 : tensor4) : result (matrix * matrix) :=
  flat_1 <- tf.reshape representation_1 (batch_size FLAGS) ;;
  flat_2 <- tf.reshape representation_2 (batch_size FLAGS) ;;
  sims <- tf.matmul_transpose_b flat_1 flat_2 ;;
  Ok (flat_1, sims).

(** The similarities after the division by the softmax temperature. *)
Definition sharpened_similarities (FLAGS : Flags)
    (representation_1 representation_2 : tensor4) : result matrix :=
  '(_, sims) <- similarities FLAGS representation_1 representation_2 ;;
  Ok (tf.divide sims (softmax_temperature FLAGS)).

Definition nce_loss_forward (sims : matrix) : R :=
  tf.negative (tf.reduce_mean (tf.diag_part (tf.log_softmax sims 1))).

Definition nce_loss_backward (sims : matrix) : R :=
  tf.negative (tf.reduce_mean (tf.diag_part (tf.log_softmax sims 0))).

Definition batch_accuracy (FLAGS : Flags) (sims : matrix) : result R :=
  let ideal_predictions := seq 0 (batch_size FLAGS) in
  let predictions := tf.argmax sims in
  correct_predictions <- tf.equal_as_float predictions ideal_predictions ;;
  Ok (tf.reduce_mean correct_predictions).

(** Returns the total loss, the accuracy and the summaries it plots. *)
Definition _contrastive_loss (FLAGS : Flags)
    (representation_1 representation_2 : tensor4) (show_summaries : bool)
    : result (R * R * list summary) :=
  '(flat_1, sims) <- similarities FLAGS representation_1 representation_2 ;;
  let similarities_normalized : tensor4 :=
    [map (map (fun x => [x])) (tf.divide sims (tf.reduce_max sims))] in
  let sims := tf.divide sims (softmax_temperature FLAGS) in
  let nce_loss_total := nce_loss_forward sims + nce_loss_backward sims in
  accuracy <- batch_accuracy FLAGS sims ;;
  Ok (nce_loss_total, accuracy,
      if show_summaries then
        [SummaryHistogram "representation_histogram" (concat flat_1);
         SummaryHistogram "similarities_histogram" (concat sims);
         SummaryImage "similarities_matrix" similarities_normalized]
      else []).

Definition _visualize_batch (FLAGS : Flags) (batch : tensor4)
    : result (list summary) :=
  if truthy_list (visualize_bands FLAGS) then
    match visualize_bands FLAGS with
    | Some vis =>
        '(names, triples) <-
          partition_imagery (tf.map4 (fun x => x / 2 + 1 / 2) batch)
            (bands FLAGS) vis ;;
        Ok (map (fun p => SummaryImage (fst p) (snd p)) (combine names triples))
    | None => Ok []
    end
  else Ok [].

(** ** The training step *)

(** The loop over [zip(layer_metrics, layers_and_weights)] inside the
    gradient tape: the weighted losses in order, the updated metric
    pairs, and the summaries plotted. *)
Fixpoint layer_losses (FLAGS : Flags) (show_summaries : bool)
    (representations_1 representations_2 : dict tensor4)
    (pairs : list ((Mean * Mean) * (string * R)))
    : result (list R * list (Mean * Mean) * list summary) :=
  match pairs with
  | [] => Ok ([], [], [])
  | ((loss_metric, accuracy_metric), (layer, weight)) :: rest =>
      r1 <- getitem representations_1 layer ;;
      r2 <- getitem representations_2 layer ;;
      '(loss, accuracy, plotted) <- _contrastive_loss FLAGS r1 r2 show_summaries ;;
      let metrics :=
        if negb (summary_frequency FLAGS =? 0)%Z
        then (update_state loss_metric [loss],
              update_state accuracy_metric [accuracy])
        else (loss_metric, accuracy_metric) in
      '(losses, metrics_rest, plotted_rest) <-
        layer_losses FLAGS show_summaries representations_1 representations_2
          rest ;;
      Ok (weight * loss :: losses, metrics :: metrics_rest,
          plotted ++ plotted_rest)
  end.

(** [loss_total] as the tape sees it: a function of the encoder weights,
    for fixed views. *)
Definition taped_loss (FLAGS : Flags) (pairs : list ((Mean * Mean) * (string * R)))
    (view_1 view_2 : tensor4) (w : Weights) : result R :=
  representations_1 <- encoder w view_1 ;;
  representations_2 <- encoder w view_2 ;;
  '(losses, _, _) <-
    layer_losses FLAGS false representations_1 representations_2 pairs ;;
  Ok (tf.reduce_sum losses).

(** Metric pairs beyond the configured layers are left as they are
    ([zip] stops at the shorter list). *)
Definition merge_metrics (updated old : list (Mean * Mean)) : list (Mean * Mean) :=
  updated ++ skipn (length updated) old.

(** [train_step(batch, dropout_rate, show_summaries)], called while
    [tf.summary.record_if(recording)] holds.  Returns [loss_total], the
    state with the encoder weights, optimizer and metrics updated, and the
    summaries written. *)
Definition train_step (FLAGS : Flags) (layers_and_weights : dict R)
    (st : TrainingState) (batch : tensor4) (dropout_rate : R)
    (show_summaries recording : bool)
    : result (R * TrainingState * list summary) :=
  let rng := random_ops (step st) in
  view_1 <- _create_view FLAGS rng batch (step st) dropout_rate (Some 1%Z) ;;
  shown_1 <- _visualize_batch FLAGS view_1 ;;
  view_2 <- _create_view FLAGS rng batch (step st) dropout_rate (Some 2%Z) ;;
  shown_2 <- _visualize_batch FLAGS view_2 ;;
  representations_1 <- encoder (weights st) view_1 ;;
  representations_2 <- encoder (weights st) view_2 ;;
  metrics <- read_name (layer_metrics st) ;;
  let pairs := combine metrics layers_and_weights in
  '(losses, metrics', plotted) <-
    layer_losses FLAGS show_summaries representations_1 representations_2
      pairs ;;
  let loss_total := tf.reduce_sum losses in
  total_metric' <-
    (if negb (summary_frequency FLAGS =? 0)%Z then
       m <- read_name (total_loss_metric st) ;;
       Ok (Some (update_state m [loss_total]))
     else Ok (total_loss_metric st)) ;;
  let gradients :=
    tape_gradient (taped_loss FLAGS pairs view_1 view_2) (weights st) in
  let '(opt', weights') :=
    apply_gradients (gradient_clipnorm FLAGS) (opt_state st)
      (learning_rate_var st) gradients (weights st) in
  Ok (loss_total,
      {| step := step st;
         learning_rate_var := learning_rate_var st;
         dropout_rate_var := dropout_rate_var st;
         weights := weights';
         opt_state := opt';
         total_loss_metric := total_metric';
         layer_metrics := Some (merge_metrics metrics' metrics) |},
      record recording (shown_1 ++ shown_2 ++ plotted)).

(** ** The training loop *)

Definition with_step (st : TrainingState) (s : Z) : TrainingState :=
  {| step := s;
     learning_rate_var := learning_rate_var st;
     dropout_rate_var := dropout_rate_var st;
     weights := weights st;
     opt_state := opt_state st;
     total_loss_metric := total_loss_metric st;
     layer_metrics := layer_metrics st |}.

Definition with_learning_rate (st : TrainingState) (x : R) : TrainingState :=
  {| step := step st;
     learning_rate_var := x;
     dropout_rate_var := dropout_rate_var st;
     weights := weights st;
     opt_state := opt_state st;
     total_loss_metric := total_loss_metric st;
     layer_metrics := layer_metrics st |}.

Definition with_dropout_rate (st : TrainingState) (x : R) : TrainingState :=
  {| step := step st;
     learning_rate_var := learning_rate_var st;
     dropout_rate_var := x;
     weights := weights st;
     opt_state := opt_state st;
     total_loss_metric := total_loss_metric st;
     layer_metrics := layer_metrics st |}.

Definition with_metrics (st : TrainingState) (t : option Mean)
    (l : option (list (Mean * Mean))) : TrainingState :=
  {| step := step st;
     learning_rate_var := learning_rate_var st;
     dropout_rate_var := dropout_rate_var st;
     weights := weights st;
     opt_state := opt_state st;
     total_loss_metric := t;
     layer_metrics := l |}.

Definition layer_scalars (p : (Mean * Mean) * (string * R)) : list summary :=
  let '((loss_metric, accuracy_metric), (name, _)) := p in
  [SummaryScalar (name ++ "/loss") (mean_result loss_metric);
   SummaryScalar (name ++ "/accuracy") (mean_result accuracy_metric)].

(** [write_metrics()]: the averaged loss and the per-layer averaged loss
    and accuracy are written and every metric it went through is reset. *)
Definition write_metrics (layers_and_weights : dict R) (recording : bool)
    (st : TrainingState) : M TrainingState :=
  total <~ lift (read_name (total_loss_metric st)) ;;
  _ <~ emit_all (map EvSummary
         (record recording [SummaryScalar "loss" (mean_result total)])) ;;
  metrics <~ lift (read_name (layer_metrics st)) ;;
  let pairs := combine metrics layers_and_weights in
  _ <~ emit_all (map EvSummary
         (record recording (concat (map layer_scalars pairs)))) ;;
  ret (with_metrics st (Some (reset_states total))
         (Some (merge_metrics
                  (map (fun p => (reset_states (fst (fst p)),
                                  reset_states (snd (fst p)))) pairs)
                  metrics))).

(** One pass through the body of [for batch in ds]: the state after it
    and whether the loop breaks. *)
Definition iteration (FLAGS : Flags) (layers_and_weights : dict R)
    (st : TrainingState) (batch : tensor4) : M (TrainingState * bool) :=
  let st := with_step st (wrap_int64 (step st + 1)) in
  let current_step := step st in
  _ <~ emit (EvAssignAdd current_step) ;;
  let show_summaries :=
    negb (summary_frequency FLAGS =? 0)%Z
    && (current_step mod summary_frequency FLAGS =? 0)%Z in
  shown <~ lift (_visualize_batch FLAGS batch) ;;
  _ <~ emit_all (map EvSummary (record show_summaries shown)) ;;
  st <~ (if truthy_int (learning_rate_warmup_batches FLAGS) then
           let st := with_learning_rate st (_learning_rate FLAGS (step st)) in
           _ <~ emit_all (map EvSummary (record show_summaries
                  [SummaryScalar "learning_rate" (learning_rate_var st)])) ;;
           ret st
         else ret st) ;;
  st <~ (if truthy_int (band_dropout_rate_warmup_batches FLAGS) then
           let st := with_dropout_rate st (_dropout_rate FLAGS (step st)) in
           _ <~ emit_all (map EvSummary (record show_summaries
                  [SummaryScalar "dropout_rate" (dropout_rate_var st)])) ;;
           ret st
         else ret st) ;;
  _ <~ (if (current_step =? 0)%Z then emit EvTraceOn else ret tt) ;;
  _ <~ emit (EvTrainStep (step st) show_summaries) ;;
  '(_, st, written) <~
    lift (train_step FLAGS layers_and_weights st batch (dropout_rate_var st)
            show_summaries show_summaries) ;;
  _ <~ emit_all (map EvSummary written) ;;
  _ <~ (if (current_step =? 0)%Z then emit EvTraceExport else ret tt) ;;
  save <~ lift (if (checkpoint_frequency FLAGS =? 0)%Z
                then Raise ZeroDivisionError
                else Ok (current_step mod checkpoint_frequency FLAGS =? 0)%Z) ;;
  _ <~ (if save then emit (EvCheckpoint (step st)) else ret tt) ;;
  st <~ (if show_summaries
         then write_metrics layers_and_weights show_summaries st
         else ret st) ;;
  if (train_batches FLAGS <=? current_step)%Z
  then (_ <~ emit (EvLogFinished current_step) ;; ret (st, true))
  else ret (st, false).

(** [for batch in ds: ...], on the batches the stream yields. *)
Fixpoint train_loop (FLAGS : Flags) (layers_and_weights : dict R)
    (ds : list tensor4) (st : TrainingState) : M TrainingState :=
  match ds with
  | [] => ret st
  | batch :: rest =>
      '(st, stop) <~ iteration FLAGS layers_and_weights st batch ;;
      if stop then ret st
      else train_loop FLAGS layers_and_weights rest st
  end.

(** The state [train_unsupervised] builds before the loop. *)
Definition initial_state (FLAGS : Flags) (layers_and_weights : dict R)
    : TrainingState :=
  let bound := negb (summary_frequency FLAGS =? 0)%Z in
  {| step := -1;
     learning_rate_var := _learning_rate FLAGS (-1);
     dropout_rate_var := _dropout_rate FLAGS (-1);
     weights := initial_weights;
     opt_state := initial_opt_state;
     total_loss_metric := if bound then Some new_mean else None;
     layer_metrics :=
       if bound
       then Some (map (fun _ => (new_mean, new_mean)) layers_and_weights)
       else None |}.

Definition train_unsupervised (FLAGS : Flags) (ds : list tensor4)
    : M TrainingState :=
  layers_and_weights <~ lift (layer_loss_weights FLAGS) ;;
  st <~ train_loop FLAGS layers_and_weights ds
          (initial_state FLAGS layers_and_weights) ;;
  _ <~ emit (EvCheckpoint (step st)) ;;
  ret st.

(** The entry point: parsing the flags runs the registered validator,
    and only then does training start. *)
Definition main (FLAGS : Flags) (ds : list tensor4) : M TrainingState :=
  if _check_layer_loss_weights (layer_loss_weights_flag FLAGS)
  then train_unsupervised FLAGS ds
  else lift (Raise IllegalFlagValueError).


(** ** Vocabulary of the specification *)

Fixpoint occurrences (c : ascii) (s : string) : nat :=
  match s with
  | EmptyString => O
  | String c' rest =>
      if Ascii.eqb c' c then S (occurrences c rest) else occurrences c rest
  end.

(** The text of a [name:weight] entry. *)
Definition render_entry (name weight : string) : string :=
  (name ++ String ":" weight)%string.

(** A flag entry is well formed when it reads [name:weight] with exactly
    one colon, [name] is a representation layer of the encoder and
    [weight] is a float literal. *)
Definition well_formed_entry (value : string) : Prop :=
  exists name weight x,
    value = render_entry name weight /\
    occurrences ":" name = O /\ occurrences ":" weight = O /\
    In name RESNET_REPRESENTATION_LAYERS /\ float weight = Some x.

(** The weight a list of parsed entries gives to a layer: that of the
    last entry with this name. *)
Definition configured_weight (name : string)
    (entries : list (string * string * R)) : option R :=
  fold_left
    (fun found e =>
       let '(n, _, x) := e in if String.eqb n name then Some x else found)
    entries None.

(** A parsed entry [(name, weight text, weight)] is admissible when both
    texts are free of colons, the name is a representation layer and the
    weight text is the float literal of the weight. *)
Definition entry_ok (e : string * string * R) : Prop :=
  occurrences ":" (fst (fst e)) = O /\ occurrences ":" (snd (fst e)) = O /\
  In (fst (fst e)) RESNET_REPRESENTATION_LAYERS /\
  float (snd (fst e)) = Some (snd e).

(** Entry [i, j] of a matrix. *)
Definition entry (m : matrix) (i j : nat) : R := nth j (nth i m []) 0.

(** An [n] by [n] matrix. *)
Definition square (n : nat) (m : matrix) : Prop :=
  length m = n /\ Forall (fun row => length row = n) m.

(** [sum_below n f] is the sum of [f i] over [i < n]. *)
Definition sum_below (n : nat) (f : nat -> R) : R := Rsum (map f (seq 0 n)).

(** A representation tensor holds [n] batch elements of [d] values each. *)
Definition batch_of (n d : nat) (r : tensor4) : Prop :=
  length r = n /\ Forall (fun e => length (tf.flatten3 e) = d) r.

(** The flattened vector of batch element [i]. *)
Definition flat (r : tensor4) (i : nat) : list R := tf.flatten3 (nth i r []).

(** The similarity of element [i] of the first representation and
    element [j] of the second, divided by the temperature. *)
Definition scaled_similarity (FLAGS : Flags) (r1 r2 : tensor4) (i j : nat) : R :=
  dot (flat r1 i) (flat r2 j) / softmax_temperature FLAGS.

(** Diagonal of the row-wise log-softmax: entry [i] normalised over
    row [i]. *)
Definition row_log_softmax_diag (n : nat) (S : nat -> nat -> R) (i : nat) : R :=
  S i i - ln (sum_below n (fun k => exp (S i k))).

(** Diagonal of the column-wise log-softmax: entry [i] normalised over
    column [i]. *)
Definition column_log_softmax_diag (n : nat) (S : nat -> nat -> R) (i : nat) : R :=
  S i i - ln (sum_below n (fun k => exp (S k i))).

Definition forward_loss (n : nat) (S : nat -> nat -> R) : R :=
  - (sum_below n (row_log_softmax_diag n S) / INR n).

Definition backward_loss (n : nat) (S : nat -> nat -> R) : R :=
  - (sum_below n (column_log_softmax_diag n S) / INR n).

(** The loss as section 4.3 words it. *)
Definition specified_loss (FLAGS : Flags) (r1 r2 : tensor4) : R :=
  let n := batch_size FLAGS in
  let S := scaled_similarity FLAGS r1 r2 in
  forward_loss n S + backward_loss n S.

(** Entry [j] of a column is the first maximum of the column. *)
Definition first_maximum_of_column (n : nat) (S : nat -> nat -> R) (j : nat) : Prop :=
  (forall i, (i < n)%nat -> S i j <= S j j) /\
  (forall i, (i < j)%nat -> S i j < S j j).

(** The accuracy as section 4.3 words it: a row counts when the column
    index of its largest similarity is the row index. *)
Definition row_wise_accuracy (FLAGS : Flags) (r1 r2 : tensor4) : R :=
  let n := batch_size FLAGS in
  let S := scaled_similarity FLAGS r1 r2 in
  tf.reduce_mean
    (map (fun i =>
            bool_to_float
              (tf.argmax_list (map (fun j => S i j) (seq 0 n)) =? i)%nat)
       (seq 0 n)).

(** The matrix of dot products of the rows of [a] with the rows of [b]. *)
Definition gram (a b : matrix) : matrix :=
  map (fun u => map (fun v => dot u v) b) a.

(** The total loss of a result of [_contrastive_loss]. *)
Definition loss_of (r : R * R * list summary) : R := fst (fst r).

(** The accuracy of a result of [_contrastive_loss]. *)
Definition accuracy_of (r : R * R * list summary) : R := snd (fst r).

(** Value of band [c] at position [(h, w)] of batch element [b]. *)
Definition pixel (x : tensor4) (b h w c : nat) : R :=
  nth c (nth w (nth h (nth b x []) []) []) 0.

(** A rectangular rank-4 tensor of the given shape. *)
Definition has_shape (s : nat * nat * nat * nat) (x : tensor4) : Prop :=
  let '(s0, s1, s2, s3) := s in
  length x = s0 /\
  Forall (fun img =>
    length img = s1 /\
    Forall (fun row =>
      length row = s2 /\ Forall (fun px => length px = s3) row) img) x.

(** The events that concern the step counter: its increments and the
    calls of the training step. *)
Definition is_step_event (e : event) : bool :=
  match e with
  | EvAssignAdd _ | EvTrainStep _ _ => true
  | _ => false
  end.

Definition step_events (log : list event) : list event :=
  filter is_step_event log.

(** The values the step counter takes, one per increment. *)
Definition assigned_steps (log : list event) : list Z :=
  flat_map (fun e => match e with EvAssignAdd s => [s] | _ => [] end) log.

(** The step indices of the training steps run. *)
Definition trained_steps (log : list event) : list Z :=
  flat_map (fun e => match e with EvTrainStep s _ => [s] | _ => [] end) log.

(** Whether summaries are shown at a step. *)
Definition summary_step (FLAGS : Flags) (i : Z) : bool :=
  negb (summary_frequency FLAGS =? 0)%Z
  && (i mod summary_frequency FLAGS =? 0)%Z.

(** One iteration: the counter is incremented to [i], then the training
    step runs at step [i]. *)
Definition iteration_trace (FLAGS : Flags) (i : Z) : list event :=
  [EvAssignAdd i; EvTrainStep i (summary_step FLAGS i)].

(** [k] consecutive iterations, the first at step [from]. *)
Definition steps_trace (FLAGS : Flags) (from : Z) (k : nat) : list event :=
  concat (map (fun j => iteration_trace FLAGS (from + Z.of_nat j)) (seq 0 k)).

(** The integers [from], [from + 1], ..., [k] of them. *)
Definition count_from (from : Z) (k : nat) : list Z :=
  map (fun j => (from + Z.of_nat j)%Z) (seq 0 k).

(** What a training step computes, without the summaries it writes. *)
Definition numeric_result (r : R * TrainingState * list summary)
    : R * TrainingState :=
  fst r.

(** What is known of an unfinished iteration at step [i], [seen] being
    the step events emitted before the computation [r] runs: when [r]
    returns, the iteration has emitted exactly its increment and its
    training step, the counter is [i] and the loop breaks exactly when
    [train_batches <= i]; when [r] raises, the increment was emitted and
    possibly the training step. *)
Definition iteration_post (FLAGS : Flags) (i : Z) (seen : list event)
    (r : M (TrainingState * bool)) : Prop :=
  match snd r with
  | Ok (st', stop) =>
      seen ++ step_events (fst r) = iteration_trace FLAGS i /\
      step st' = i /\ stop = (train_batches FLAGS <=? i)%Z
  | Raise _ =>
      seen ++ step_events (fst r) = [EvAssignAdd i] \/
      seen ++ step_events (fst r) = iteration_trace FLAGS i
  end.

(** A returning iteration that breaks the loop ends by logging that
    training finished. *)
Definition logs_finish (i : Z) (r : M (TrainingState * bool)) : Prop :=
  forall st', snd r = Ok (st', true) ->
    exists l, fst r = l ++ [EvLogFinished i].

(** How a run of the loop from a state at step [s] over [n] batches
    ended, [k] being the number of training steps started and [r] its
    result: it returned after using up the stream without reaching
    [train_batches], or it returned by breaking at the first step that
    reached it, having logged so, or it raised, possibly between an
    increment and its training step. *)
Definition loop_post (FLAGS : Flags) (s : Z) (n k : nat)
    (r : M TrainingState) : Prop :=
  match snd r with
  | Ok st' =>
      step_events (fst r) = steps_trace FLAGS (s + 1) k /\
      step st' = (s + Z.of_nat k)%Z /\
      ((k = n /\ (k = O \/ (step st' < train_batches FLAGS)%Z)) \/
       ((0 < k)%nat /\ (train_batches FLAGS <= step st')%Z /\
        (k = 1%nat \/ (step st' - 1 < train_batches FLAGS)%Z) /\
        exists l, fst r = l ++ [EvLogFinished (step st')]))
  | Raise _ =>
      step_events (fst r) = steps_trace FLAGS (s + 1) k \/
      step_events (fst r)
      = steps_trace FLAGS (s + 1) k ++ [EvAssignAdd (s + 1 + Z.of_nat k)]
  end.

(** A computation that does not return. *)
Definition fails {A : Type} (r : M A) : Prop := is_ok (snd r) = false.

(** The loss and the accuracy of one configured layer, from the two
    views' representations. *)
Definition layer_result (FLAGS : Flags) (reps1 reps2 : dict tensor4)
    (layer : string) : result (R * R) :=
  r1 <- getitem reps1 layer ;;
  r2 <- getitem reps2 layer ;;
  result_map fst (_contrastive_loss FLAGS r1 r2 false).

(** A layer's loss times its configured weight. *)
Definition weighted_loss (p : (Mean * Mean) * (string * R)) (r : R * R) : R :=
  snd (snd p) * fst r.

(** A layer's metric pair after one more loss and accuracy. *)
Definition updated_metrics (p : (Mean * Mean) * (string * R)) (r : R * R)
    : Mean * Mean :=
  (update_state (fst (fst p)) [fst r], update_state (snd (fst p)) [snd r]).

Definition is_summary_event (e : event) : bool :=
  match e with
  | EvSummary _ => true
  | _ => false
  end.

(** What a run wrote to the summary writer. *)
Definition summary_events (log : list event) : list event :=
  filter is_summary_event log.

(** Everything else a run did. *)
Definition control_events (log : list event) : list event :=
  filter (fun e => negb (is_summary_event e)) log.

(** The steps at which a checkpoint was saved, in order. *)
Definition checkpoint_steps (log : list event) : list Z :=
  flat_map (fun e => match e with EvCheckpoint s => [s] | _ => [] end) log.

(** The control events of an iteration at step [i] that runs to its end:
    the increment, the trace switched on at step 0, the training step,
    the trace exported at step 0, a checkpoint when [i] is a multiple of
    the checkpoint frequency, and the finishing log line when [i] has
    reached [train_batches]. *)
Definition iteration_control (FLAGS : Flags) (i : Z) : list event :=
  [EvAssignAdd i]
  ++ (if (i =? 0)%Z then [EvTraceOn] else [])
  ++ [EvTrainStep i (summary_step FLAGS i)]
  ++ (if (i =? 0)%Z then [EvTraceExport] else [])
  ++ (if (i mod checkpoint_frequency FLAGS =? 0)%Z then [EvCheckpoint i] else [])
  ++ (if (train_batches FLAGS <=? i)%Z then [EvLogFinished i] else []).

(** What is known of an unfinished iteration at step [i] when it
    returns, [seen] being the control events emitted so far. *)
Definition control_post (FLAGS : Flags) (i : Z) (seen : list event)
    (r : M (TrainingState * bool)) : Prop :=
  forall st' stop,
    snd r = Ok (st', stop) ->
    seen ++ control_events (fst r) = iteration_control FLAGS i.

(** The state an iteration returns satisfies [Q]. *)
Definition returns_in (Q : TrainingState -> Prop)
    (r : M (TrainingState * bool)) : Prop :=
  forall st' stop, snd r = Ok (st', stop) -> Q st'.

(** The schedule variables agree with the step counter: a variable with
    a warmup holds its schedule's value at the current step, one without
    holds the value it was created with. *)
Definition schedules_in_step (FLAGS : Flags) (st : TrainingState) : Prop :=
  learning_rate_var st
  = _learning_rate FLAGS
      (if truthy_int (learning_rate_warmup_batches FLAGS) then step st
       else (-1)%Z) /\
  dropout_rate_var st
  = _dropout_rate FLAGS
      (if truthy_int (band_dropout_rate_warmup_batches FLAGS) then step st
       else (-1)%Z).

(** A computation that writes nothing to the summary writer. *)
Definition silent {A : Type} (r : M A) : Prop := summary_events (fst r) = [].

(** A computation that saves no checkpoint and does not return. *)
Definition dies_unsaved {A : Type} (r : M A) : Prop :=
  checkpoint_steps (fst r) = [] /\ fails r.
(* ================================================================== *)
(** * Properties *)

(** ** Schedules *)

Lemma optional_warmup_no_warmup (step : Z) (X : R) (W : option Z) :
  truthy_int W = false -> optional_warmup step X W = X.
Proof.
  destruct W as [w|]; simpl; [|reflexivity].
  destruct (w =? 0)%Z; [reflexivity|discriminate].
Qed.

Lemma optional_warmup_ramp (step w : Z) (X : R) :
  (0 < w)%Z -> (step < w)%Z ->
  optional_warmup step X (Some w) = X * IZR step / IZR w.
Proof.
  intros Hw Hs. unfold optional_warmup.
  destruct (Z.eqb_spec w 0); [lia|].
  destruct (Z.ltb_spec step w); [reflexivity|lia].
Qed.

Lemma optional_warmup_plateau (step w : Z) (X : R) :
  (w <= step)%Z -> optional_warmup step X (Some w) = X.
Proof.
  intros Hs. unfold optional_warmup.
  destruct (w =? 0)%Z; [reflexivity|].
  destruct (Z.ltb_spec step w); [lia|reflexivity].
Qed.

Lemma ramp_le_final (step w : Z) (X : R) :
  (0 <= step)%Z -> (step < w)%Z -> 0 <= X ->
  0 <= X * IZR step / IZR w <= X.
Proof.
  intros H0 Hlt HX.
  assert (Hw : 0 < IZR w) by (apply IZR_lt; lia).
  assert (Hs : 0 <= IZR step) by (apply IZR_le; lia).
  assert (Hsw : IZR step <= IZR w) by (apply IZR_le; lia).
  split.
  - apply Rmult_le_pos; [nra|]. left. now apply Rinv_0_lt_compat.
  - apply Rmult_le_reg_r with (IZR w); [exact Hw|].
    unfold Rdiv. rewrite Rmult_assoc, Rinv_l by lra. nra.
Qed.

Lemma ramp_monotone (s1 s2 w : Z) (X : R) :
  (0 < w)%Z -> (s1 <= s2)%Z -> 0 <= X ->
  X * IZR s1 / IZR w <= X * IZR s2 / IZR w.
Proof.
  intros Hw Hle HX.
  assert (Hw' : 0 < / IZR w) by (apply Rinv_0_lt_compat, IZR_lt; lia).
  assert (Hs : IZR s1 <= IZR s2) by (apply IZR_le; lia).
  unfold Rdiv. apply Rmult_le_compat_r; nra.
Qed.

Lemma optional_warmup_monotone (s1 s2 : Z) (X : R) (W : option Z) :
  (0 <= s1)%Z -> (s1 <= s2)%Z -> 0 <= X ->
  optional_warmup s1 X W <= optional_warmup s2 X W.
Proof.
  intros H0 Hle HX. destruct W as [w|]; simpl; [|lra].
  destruct (Z.eqb_spec w 0); [lra|].
  destruct (Z.ltb_spec s1 w), (Z.ltb_spec s2 w); try lia; try lra.
  - apply ramp_monotone; [lia|assumption|assumption].
  - apply ramp_le_final; assumption.
Qed.

(** C6, as the claim states it, fails for a negative final value: with
    final value [-1] and warmup length [2] the schedule goes from [0] at
    step 0 down to [-1/2] at step 1. *)
Lemma schedule_not_monotone_for_negative_final :
  ~ (forall (X : R) (W : option Z) (s1 s2 : Z),
        (0 <= s1)%Z -> (s1 <= s2)%Z ->
        optional_warmup s1 X W <= optional_warmup s2 X W).
Proof.
  intros H. specialize (H (-1) (Some 2%Z) 0%Z 1%Z).
  unfold optional_warmup in H. simpl in H.
  assert (Hc : -1 * 0 / 2 <= -1 * 1 / 2) by (apply H; lia).
  lra.
Qed.

(** C6 (amended): for every step >= 0 and final value [X], the schedule
    returns [X] when the warmup length is unset or zero; with a warmup
    length [w > 0] it returns [X * step / w] below [w] (so [0] at step 0)
    and [X] from [w] on; for a fixed non-negative [X] it is monotonically
    non-decreasing in the step; the learning-rate and dropout-rate
    schedules are this function of the step and the flags alone. *)
Theorem schedule_value (step : Z) (X : R) (W : option Z) :
  (0 <= step)%Z ->
  (truthy_int W = false -> optional_warmup step X W = X) /\
  (forall w, W = Some w -> (0 < w)%Z ->
     ((step < w)%Z -> optional_warmup step X W = X * IZR step / IZR w) /\
     ((w <= step)%Z -> optional_warmup step X W = X) /\
     optional_warmup 0 X W = 0) /\
  (0 <= X -> forall step', (step <= step')%Z ->
     optional_warmup step X W <= optional_warmup step' X W) /\
  (forall FLAGS,
     _learning_rate FLAGS step =
       optional_warmup step (learning_rate FLAGS)
         (learning_rate_warmup_batches FLAGS) /\
     _dropout_rate FLAGS step =
       optional_warmup step (band_dropout_rate FLAGS)
         (band_dropout_rate_warmup_batches FLAGS)).
Proof.
  intros H0. repeat split.
  - apply optional_warmup_no_warmup.
  - subst W. now apply optional_warmup_ramp.
  - subst W. now apply optional_warmup_plateau.
  - subst W. rewrite optional_warmup_ramp by lia. simpl. lra.
  - intros. now apply optional_warmup_monotone.
Qed.


(** ** Layer loss weights *)

Lemma split_length (sep : ascii) (s : string) :
  length (split sep s) = S (occurrences sep s).
Proof.
  induction s as [|c rest IH]; simpl; [reflexivity|].
  destruct (Ascii.eqb c sep); simpl; [now rewrite IH|].
  destruct (split sep rest) as [|part parts]; simpl in *; [discriminate|].
  exact IH.
Qed.

Lemma split_no_separator (sep : ascii) (s : string) :
  occurrences sep s = O -> split sep s = [s].
Proof.
  induction s as [|c rest IH]; simpl; [reflexivity|].
  destruct (Ascii.eqb c sep); [discriminate|].
  intros H. now rewrite (IH H).
Qed.

Lemma split_render (name weight : string) :
  occurrences ":" name = O -> occurrences ":" weight = O ->
  split ":" (render_entry name weight) = [name; weight].
Proof.
  intros Hn Hw. unfold render_entry.
  induction name as [|c rest IH]; simpl in *.
  - now rewrite (split_no_separator _ _ Hw).
  - destruct (Ascii.eqb c ":"); [discriminate|].
    now rewrite (IH Hn).
Qed.

Lemma split_two (s name weight : string) :
  split ":" s = [name; weight] ->
  s = render_entry name weight /\
  occurrences ":" name = O /\ occurrences ":" weight = O.
Proof.
  revert name. induction s as [|c rest IH]; simpl; intros name H.
  - discriminate.
  - destruct (Ascii.eqb_spec c ":") as [->|Hc].
    + injection H as <- Hrest.
      assert (Hl := split_length ":" rest). rewrite Hrest in Hl.
      injection Hl as Hl. symmetry in Hl.
      rewrite (split_no_separator _ _ Hl) in Hrest.
      injection Hrest as ->. repeat split; try reflexivity. exact Hl.
    + destruct (split ":" rest) as [|part parts] eqn:Hs; [discriminate|].
      injection H as <- ->.
      destruct (IH part eq_refl) as (-> & Hn & Hw).
      repeat split; simpl; try reflexivity; [|exact Hw].
      destruct (Ascii.eqb_spec c ":"); [contradiction|exact Hn].
Qed.

Lemma known_layer (name : string) :
  existsb (String.eqb name) RESNET_REPRESENTATION_LAYERS = true <->
  In name RESNET_REPRESENTATION_LAYERS.
Proof.
  rewrite existsb_exists. split.
  - intros (x & Hin & Heq). apply String.eqb_eq in Heq. now subst.
  - intros Hin. exists name. split; [exact Hin|apply String.eqb_refl].
Qed.

Lemma parse_ok_well_formed (values : list string) :
  forall acc d,
    _parse_layer_loss_weights_from acc values = Ok d ->
    forall v, In v values -> well_formed_entry v.
Proof.
  induction values as [|value rest IH]; intros acc d H v Hin; [destruct Hin|].
  simpl in H.
  destruct (split ":" value) as [|name [|weight [|]]] eqn:Hs; try discriminate.
  destruct (existsb _ _) eqn:Hk; [|discriminate].
  destruct (float weight) as [x|] eqn:Hf; [|discriminate].
  destruct Hin as [<-|Hin]; [|exact (IH _ _ H v Hin)].
  destruct (split_two _ _ _ Hs) as (Hv & Hn & Hw).
  exists name, weight, x. rewrite <- known_layer. auto.
Qed.

Lemma parse_entries (entries : list (string * string * R)) :
  Forall entry_ok entries ->
  forall acc,
    _parse_layer_loss_weights_from acc
      (map (fun e => render_entry (fst (fst e)) (snd (fst e))) entries) =
    Ok (fold_left (fun d e => dict_set d (fst (fst e)) (snd e)) entries acc).
Proof.
  induction 1 as [|[[n t] x] rest (Hn & Ht & Hk & Hf) _ IH]; intros acc;
    [reflexivity|].
  simpl in *. rewrite (split_render _ _ Hn Ht).
  apply known_layer in Hk. rewrite Hk, Hf. apply IH.
Qed.

Lemma dict_get_set {V : Type} (d : dict V) (k k' : string) (v : V) :
  dict_get (dict_set d k v) k' =
  if String.eqb k k' then Some v else dict_get d k'.
Proof.
  induction d as [|[k0 v0] rest IH]; simpl.
  - reflexivity.
  - destruct (String.eqb_spec k0 k) as [->|Hk]; simpl.
    + destruct (String.eqb k k'); reflexivity.
    + rewrite IH. destruct (String.eqb_spec k0 k') as [->|Hk'];
        [|reflexivity].
      destruct (String.eqb_spec k k'); [congruence|reflexivity].
Qed.

Lemma dict_get_entries (entries : list (string * string * R)) (name : string) :
  forall (acc : dict R) (found : option R),
    dict_get acc name = found ->
    dict_get (fold_left (fun d e => dict_set d (fst (fst e)) (snd e))
                entries acc) name =
    fold_left
      (fun found e =>
         let '(n, _, x) := e in if String.eqb n name then Some x else found)
      entries found.
Proof.
  induction entries as [|[[n t] x] rest IH]; intros acc found H; simpl;
    [exact H|].
  apply IH. rewrite dict_get_set. simpl. now rewrite H.
Qed.

Lemma render_entry_injective (n w n' w' : string) :
  occurrences ":" n = O -> occurrences ":" w = O ->
  occurrences ":" n' = O -> occurrences ":" w' = O ->
  render_entry n w = render_entry n' w' -> n = n' /\ w = w'.
Proof.
  intros Hn Hw Hn' Hw' Heq.
  assert (H := split_render n w Hn Hw). rewrite Heq in H.
  rewrite (split_render n' w' Hn' Hw') in H. now injection H.
Qed.

Lemma missing_colon_malformed (v : string) :
  occurrences ":" v = O -> ~ well_formed_entry v.
Proof.
  intros H0 (n & w & x & Hv & Hn & Hw & _).
  assert (Hl := split_length ":" v). rewrite H0 in Hl.
  rewrite Hv, (split_render n w Hn Hw) in Hl. discriminate.
Qed.

Lemma bad_float_malformed (name weight : string) :
  occurrences ":" name = O -> occurrences ":" weight = O ->
  float weight = None -> ~ well_formed_entry (render_entry name weight).
Proof.
  intros Hn Hw Hf (n & w & x & Hv & Hn' & Hw' & _ & Hx).
  destruct (render_entry_injective _ _ _ _ Hn Hw Hn' Hw' Hv) as (_ & ->).
  congruence.
Qed.

Lemma unknown_layer_malformed (name weight : string) :
  occurrences ":" name = O -> occurrences ":" weight = O ->
  ~ In name RESNET_REPRESENTATION_LAYERS ->
  ~ well_formed_entry (render_entry name weight).
Proof.
  intros Hn Hw Hk (n & w & x & Hv & Hn' & Hw' & Hin & _).
  destruct (render_entry_injective _ _ _ _ Hn Hw Hn' Hw' Hv) as (-> & _).
  contradiction.
Qed.

Lemma check_false_of_malformed (values : list string) (v : string) :
  In v values -> ~ well_formed_entry v ->
  _check_layer_loss_weights values = false.
Proof.
  intros Hin Hbad. unfold _check_layer_loss_weights, _parse_layer_loss_weights.
  destruct (_parse_layer_loss_weights_from [] values) as [d|e] eqn:Hp;
    [|reflexivity].
  exfalso. exact (Hbad (parse_ok_well_formed _ _ _ Hp v Hin)).
Qed.

(** C8: a list of well-formed [name:float] entries parses to the mapping
    that gives every layer the weight of its (last) entry, as in
    [conv4_block5_out:0.5,conv5_block3_out:1.0]; when any entry is
    malformed (no colon, no float) or names a layer the encoder does not
    have, the validator rejects the flag and the program stops with a
    flag error before any training step or any other event. *)
Theorem layer_loss_weights_validated (FLAGS : Flags) (ds : list tensor4) :
  (forall entries,
     Forall entry_ok entries ->
     exists d,
       _parse_layer_loss_weights
         (map (fun e => render_entry (fst (fst e)) (snd (fst e))) entries)
         = Ok d /\
       (forall name, dict_get d name = configured_weight name entries) /\
       _check_layer_loss_weights
         (map (fun e => render_entry (fst (fst e)) (snd (fst e))) entries)
         = true) /\
  (forall w1 w2,
     In "conv4_block5_out"%string RESNET_REPRESENTATION_LAYERS ->
     In "conv5_block3_out"%string RESNET_REPRESENTATION_LAYERS ->
     float "0.5" = Some w1 -> float "1.0" = Some w2 ->
     _parse_layer_loss_weights
       ["conv4_block5_out:0.5"; "conv5_block3_out:1.0"]%string
     = Ok [("conv4_block5_out"%string, w1); ("conv5_block3_out"%string, w2)]) /\
  (forall v,
     In v (layer_loss_weights_flag FLAGS) -> ~ well_formed_entry v ->
     _check_layer_loss_weights (layer_loss_weights_flag FLAGS) = false /\
     main FLAGS ds = ([], Raise IllegalFlagValueError)) /\
  (forall v, occurrences ":" v = O -> ~ well_formed_entry v) /\
  (forall name weight,
     occurrences ":" name = O -> occurrences ":" weight = O ->
     float weight = None \/ ~ In name RESNET_REPRESENTATION_LAYERS ->
     ~ well_formed_entry (render_entry name weight)).
Proof.
  repeat apply conj.
  - intros entries Hok. unfold _check_layer_loss_weights, _parse_layer_loss_weights.
    rewrite (parse_entries entries Hok []).
    eexists. split; [reflexivity|]. split; [|reflexivity].
    intros name. now apply dict_get_entries.
  - intros w1 w2 H1 H2 Hf1 Hf2.
    apply (parse_entries
             [("conv4_block5_out"%string, "0.5"%string, w1);
              ("conv5_block3_out"%string, "1.0"%string, w2)]).
    repeat constructor; assumption.
  - intros v Hin Hbad.
    assert (Hc := check_false_of_malformed _ v Hin Hbad).
    split; [exact Hc|]. unfold main. now rewrite Hc.
  - exact missing_colon_malformed.
  - intros name weight Hn Hw [Hf|Hk].
    + now apply bad_float_malformed.
    + now apply unknown_layer_malformed.
Qed.

(** ** Lists and matrices *)

Lemma list_as_seq {A : Type} (d : A) (l : list A) :
  l = map (fun k => nth k l d) (seq 0 (length l)).
Proof.
  induction l as [|x t IH]; simpl; [reflexivity|].
  f_equal. rewrite <- seq_shift, map_map. exact IH.
Qed.

Lemma mapi_from_length {A B : Type} (f : nat -> A -> B) (l : list A) :
  forall k, length (mapi_from k f l) = length l.
Proof. induction l; intros k; simpl; [reflexivity|now rewrite IHl]. Qed.

Lemma mapi_from_nth {A B : Type} (f : nat -> A -> B) (d : A) (d' : B)
    (l : list A) :
  forall k i, (i < length l)%nat ->
    nth i (mapi_from k f l) d' = f (k + i)%nat (nth i l d).
Proof.
  induction l as [|x t IH]; intros k i Hi; simpl in *; [lia|].
  destruct i as [|i].
  - now rewrite Nat.add_0_r.
  - rewrite IH by lia. f_equal. lia.
Qed.

Lemma mapi_nth {A B : Type} (f : nat -> A -> B) (d : A) (d' : B)
    (l : list A) (i : nat) :
  (i < length l)%nat -> nth i (mapi f l) d' = f i (nth i l d).
Proof. intros Hi. unfold mapi. now rewrite (mapi_from_nth f d d' l 0 i Hi). Qed.

Lemma map_nth_in {A B : Type} (f : A -> B) (d : A) (d' : B) (l : list A)
    (i : nat) :
  (i < length l)%nat -> nth i (map f l) d' = f (nth i l d).
Proof.
  intros Hi. rewrite (nth_indep _ d' (f d)) by now rewrite length_map.
  apply map_nth.
Qed.

Lemma square_row (n : nat) (m : matrix) (i : nat) :
  square n m -> (i < n)%nat -> length (nth i m []) = n.
Proof.
  intros (Hl & Hr) Hi. rewrite Forall_forall in Hr.
  apply Hr, nth_In. lia.
Qed.

Lemma diag_part_from_entries (m : matrix) :
  forall k,
    Forall (fun row => (k + length m <= length row)%nat) m ->
    tf.diag_part_from k m =
    map (fun i => nth (k + i) (nth i m []) 0) (seq 0 (length m)).
Proof.
  induction m as [|row rest IH]; intros k H; [reflexivity|].
  inversion H as [|? ? Hrow Hrest]; subst. simpl in *.
  destruct (nth_error row k) as [x|] eqn:Hx.
  - rewrite Nat.add_0_r. rewrite (nth_error_nth _ _ 0 Hx). f_equal.
    rewrite IH.
    + rewrite <- seq_shift, map_map. apply map_ext. intros i.
      now replace (S k + i)%nat with (k + S i)%nat by lia.
    + eapply Forall_impl; [|exact Hrest]. simpl. intros; lia.
  - apply nth_error_None in Hx. lia.
Qed.

Lemma diag_part_square (n : nat) (m : matrix) :
  square n m -> tf.diag_part m = map (fun i => entry m i i) (seq 0 n).
Proof.
  intros (Hl & Hr). unfold tf.diag_part. rewrite diag_part_from_entries.
  - now rewrite Hl.
  - eapply Forall_impl; [|exact Hr]. simpl. intros; lia.
Qed.

Lemma row_as_entries (n : nat) (m : matrix) (i : nat) :
  square n m -> (i < n)%nat ->
  nth i m [] = map (fun k => entry m i k) (seq 0 n).
Proof.
  intros Hsq Hi. rewrite (list_as_seq 0 (nth i m [])) at 1.
  now rewrite (square_row n m i Hsq Hi).
Qed.

Lemma column_as_entries (n : nat) (m : matrix) (j : nat) :
  square n m -> tf.column j m = map (fun k => entry m k j) (seq 0 n).
Proof.
  intros (Hl & _). unfold tf.column.
  rewrite (list_as_seq [] m) at 1. now rewrite map_map, Hl.
Qed.

Lemma sum_below_ext (n : nat) (f g : nat -> R) :
  (forall i, (i < n)%nat -> f i = g i) -> sum_below n f = sum_below n g.
Proof.
  intros H. unfold sum_below. f_equal. apply map_ext_in.
  intros i Hi. apply in_seq in Hi. apply H. lia.
Qed.

Lemma forward_of_square (n : nat) (m : matrix) :
  square n m -> nce_loss_forward m = forward_loss n (entry m).
Proof.
  intros Hsq. unfold nce_loss_forward, forward_loss, tf.negative, tf.reduce_mean.
  assert (Hsq' : square n (tf.log_softmax m 1)).
  { destruct Hsq as (Hl & Hr). split; simpl.
    - now rewrite length_map.
    - rewrite Forall_map. eapply Forall_impl; [|exact Hr].
      simpl. intros row Hrow. now rewrite length_map. }
  rewrite (diag_part_square n _ Hsq'), length_map, length_seq.
  f_equal. f_equal. apply sum_below_ext. intros i Hi.
  unfold row_log_softmax_diag, entry at 1. simpl.
  assert (Hi' : (i < length m)%nat) by (destruct Hsq; lia).
  rewrite (map_nth_in _ [] [] m i Hi').
  rewrite (map_nth_in _ 0 0) by now rewrite (square_row n m i Hsq Hi).
  unfold tf.logsumexp, sum_below.
  rewrite (row_as_entries n m i Hsq Hi) at 2. now rewrite map_map.
Qed.

Lemma backward_of_square (n : nat) (m : matrix) :
  square n m -> nce_loss_backward m = backward_loss n (entry m).
Proof.
  intros Hsq. unfold nce_loss_backward, backward_loss, tf.negative, tf.reduce_mean.
  assert (Hsq' : square n (tf.log_softmax m 0)).
  { destruct Hsq as (Hl & Hr). split; simpl.
    - now rewrite length_map.
    - rewrite Forall_map. eapply Forall_impl; [|exact Hr].
      simpl. intros row Hrow. unfold mapi. now rewrite mapi_from_length. }
  rewrite (diag_part_square n _ Hsq'), length_map, length_seq.
  f_equal. f_equal. apply sum_below_ext. intros i Hi.
  unfold column_log_softmax_diag, entry at 1. simpl.
  assert (Hi' : (i < length m)%nat) by (destruct Hsq; lia).
  rewrite (map_nth_in _ [] [] m i Hi').
  rewrite (mapi_nth _ 0 0) by now rewrite (square_row n m i Hsq Hi).
  unfold tf.logsumexp, sum_below.
  now rewrite (column_as_entries n m i Hsq), map_map.
Qed.

(** ** Reshaping and similarities *)

Lemma dot_comm (u : list R) : forall v, dot u v = dot v u.
Proof.
  unfold dot. induction u as [|x u IH]; intros [|y v]; simpl; try reflexivity.
  rewrite IH. lra.
Qed.

Lemma concat_length_uniform (d : nat) (rows : matrix) :
  Forall (fun r => length r = d) rows ->
  length (concat rows) = (length rows * d)%nat.
Proof.
  induction 1 as [|r rows Hr _ IH]; simpl; [reflexivity|].
  now rewrite length_app, IH, Hr.
Qed.

Lemma chunks_concat (d : nat) (rows : matrix) :
  Forall (fun r => length r = d) rows ->
  tf.chunks (length rows) d (concat rows) = rows.
Proof.
  induction 1 as [|r rows Hr _ IH]; simpl; [reflexivity|].
  subst d.
  rewrite firstn_app, firstn_all, Nat.sub_diag, firstn_O, app_nil_r.
  rewrite skipn_app, skipn_all, Nat.sub_diag. simpl.
  now rewrite IH.
Qed.

Lemma chunks_length (n d : nat) :
  forall data, length (tf.chunks n d data) = n.
Proof. induction n; intros data; simpl; [reflexivity|now rewrite IHn]. Qed.

Lemma chunks_rows (n d : nat) :
  forall data, (n * d <= length data)%nat ->
    Forall (fun r => length r = d) (tf.chunks n d data).
Proof.
  induction n as [|n IH]; intros data H; simpl; constructor.
  - rewrite length_firstn. simpl in H. lia.
  - apply IH. rewrite length_skipn. simpl in H. lia.
Qed.

Lemma reshape_batch (n d : nat) (r : tensor4) :
  batch_of n d r -> (0 < n)%nat -> tf.reshape r n = Ok (map tf.flatten3 r).
Proof.
  intros (Hl & Hd) Hn. unfold tf.reshape, tf.flatten4.
  assert (Hrows : Forall (fun row => length row = d) (map tf.flatten3 r))
    by now rewrite Forall_map.
  assert (Hlen := concat_length_uniform d _ Hrows).
  rewrite length_map, Hl in Hlen.
  destruct n as [|n']; [lia|]. rewrite Hlen.
  replace (S n' * d)%nat with (d * S n')%nat by lia.
  rewrite Nat.Div0.mod_mul, Nat.div_mul, Nat.eqb_refl by lia.
  f_equal. rewrite <- Hl, <- (length_map tf.flatten3 r).
  now apply chunks_concat.
Qed.

Lemma reshape_raises (x : tensor4) (n : nat) (e : exception) :
  tf.reshape x n = Raise e -> e = InvalidArgumentError.
Proof.
  unfold tf.reshape. destruct n; [congruence|].
  destruct (_ =? _)%nat; congruence.
Qed.

Lemma reshape_ok (x : tensor4) (n : nat) (m : matrix) :
  tf.reshape x n = Ok m ->
  (0 < n)%nat /\ length m = n /\
  exists d, Forall (fun r => length r = d) m.
Proof.
  unfold tf.reshape. destruct n as [|n']; [discriminate|].
  remember (S n') as k eqn:Hk.
  destruct (Nat.eqb_spec (length (tf.flatten4 x) mod k) 0) as [Hm|];
    [|discriminate].
  intros H. injection H as <-. split; [lia|]. split; [apply chunks_length|].
  exists (length (tf.flatten4 x) / k)%nat. apply chunks_rows.
  assert (Hd := Nat.div_mod_eq (length (tf.flatten4 x)) k).
  rewrite Hm in Hd. lia.
Qed.

Lemma n_cols_uniform (d : nat) (m : matrix) :
  (0 < length m)%nat -> Forall (fun r => length r = d) m -> tf.n_cols m = d.
Proof.
  intros Hl H. destruct m as [|row rest]; simpl in *; [lia|].
  now inversion H.
Qed.

Lemma gram_square (a b : matrix) (n : nat) :
  length a = n -> length b = n -> square n (gram a b).
Proof.
  intros Ha Hb. split; unfold gram.
  - now rewrite length_map.
  - rewrite Forall_map. apply Forall_forall. intros u _.
    now rewrite length_map.
Qed.

Lemma gram_entry (a b : matrix) (i j : nat) :
  (i < length a)%nat -> (j < length b)%nat ->
  entry (gram a b) i j = dot (nth i a []) (nth j b []).
Proof.
  intros Hi Hj. unfold entry, gram.
  rewrite (map_nth_in _ [] [] a i Hi). now rewrite (map_nth_in _ [] 0 b j Hj).
Qed.

Lemma divide_square (n : nat) (m : matrix) (c : R) :
  square n m -> square n (tf.divide m c).
Proof.
  intros (Hl & Hr). split; unfold tf.divide.
  - now rewrite length_map.
  - rewrite Forall_map. eapply Forall_impl; [|exact Hr].
    simpl. intros row Hrow. now rewrite length_map.
Qed.

Lemma divide_entry (n : nat) (m : matrix) (c : R) (i j : nat) :
  square n m -> (i < n)%nat -> (j < n)%nat ->
  entry (tf.divide m c) i j = entry m i j / c.
Proof.
  intros Hsq Hi Hj. unfold entry, tf.divide.
  assert (Hi' : (i < length m)%nat) by (destruct Hsq; lia).
  rewrite (map_nth_in _ [] [] m i Hi').
  now rewrite (map_nth_in _ 0 0) by now rewrite (square_row n m i Hsq Hi).
Qed.

Lemma similarities_batch (FLAGS : Flags) (d : nat) (r1 r2 : tensor4) :
  (0 < batch_size FLAGS)%nat ->
  batch_of (batch_size FLAGS) d r1 -> batch_of (batch_size FLAGS) d r2 ->
  similarities FLAGS r1 r2 =
  Ok (map tf.flatten3 r1, gram (map tf.flatten3 r1) (map tf.flatten3 r2)).
Proof.
  intros Hn H1 H2. unfold similarities.
  rewrite (reshape_batch _ d r1 H1 Hn), (reshape_batch _ d r2 H2 Hn). simpl.
  unfold tf.matmul_transpose_b.
  destruct H1 as (Hl1 & Hd1), H2 as (Hl2 & Hd2).
  rewrite (n_cols_uniform d (map tf.flatten3 r1)),
          (n_cols_uniform d (map tf.flatten3 r2));
    try (rewrite length_map; lia); try now rewrite Forall_map.
  now rewrite Nat.eqb_refl.
Qed.

Lemma scaled_similarity_entry (FLAGS : Flags) (r1 r2 : tensor4) (i j : nat) :
  (i < length r1)%nat -> (j < length r2)%nat ->
  entry (tf.divide (gram (map tf.flatten3 r1) (map tf.flatten3 r2))
           (softmax_temperature FLAGS)) i j
  = scaled_similarity FLAGS r1 r2 i j.
Proof.
  intros Hi Hj. unfold scaled_similarity, flat.
  unfold entry, tf.divide, gram. rewrite map_map.
  rewrite (map_nth_in _ [] [] _ i) by now rewrite length_map.
  rewrite map_map. rewrite (map_nth_in _ [] 0 _ j) by now rewrite length_map.
  rewrite (map_nth_in tf.flatten3 [] [] r1 i Hi).
  now rewrite (map_nth_in tf.flatten3 [] [] r2 j Hj).
Qed.

(** ** Accuracy *)

Lemma skipn_cons_nth {A : Type} (d : A) (l : list A) :
  forall i x t, skipn i l = x :: t ->
    (i < length l)%nat /\ nth i l d = x /\ skipn (S i) l = t.
Proof.
  induction l as [|y l IH]; intros i x t H.
  - destruct i; discriminate.
  - destruct i as [|i]; simpl in H.
    + injection H as -> ->. simpl. repeat split. lia.
    + destruct (IH i x t H) as (Hi & Hx & Ht). simpl. repeat split; auto. lia.
Qed.

Lemma argmax_from_spec (l : list R) :
  forall t i bi,
    skipn i l = t -> (bi < i)%nat -> (i <= length l)%nat ->
    (forall k, (k < i)%nat -> nth k l 0 <= nth bi l 0) ->
    (forall k, (k < bi)%nat -> nth k l 0 < nth bi l 0) ->
    let r := tf.argmax_from t i bi (nth bi l 0) in
    (r < length l)%nat /\
    (forall k, (k < length l)%nat -> nth k l 0 <= nth r l 0) /\
    (forall k, (k < r)%nat -> nth k l 0 < nth r l 0).
Proof.
  induction t as [|x t IH]; intros i bi Hs Hbi Hi Hmax Hfirst; simpl.
  - assert (length l <= i)%nat.
    { destruct (Nat.le_gt_cases (length l) i) as [|Hlt]; [assumption|].
      assert (Hlen := length_skipn i l). rewrite Hs in Hlen. simpl in Hlen. lia. }
    repeat split; [lia| |assumption].
    intros k Hk. apply Hmax. lia.
  - destruct (skipn_cons_nth 0 l i x t Hs) as (Hil & Hx & Ht).
    destruct (Rlt_dec (nth bi l 0) x) as [Hlt|Hge].
    + rewrite <- Hx. apply IH; try assumption; try lia.
      * intros k Hk. destruct (Nat.eq_dec k i) as [->|]; [lra|].
        assert (nth k l 0 <= nth bi l 0) by (apply Hmax; lia). lra.
      * intros k Hk.
        assert (nth k l 0 <= nth bi l 0) by (apply Hmax; lia). lra.
    + apply IH; try assumption; try lia.
      intros k Hk. destruct (Nat.eq_dec k i) as [->|]; [lra|].
      apply Hmax. lia.
Qed.

Lemma argmax_list_spec (l : list R) :
  (0 < length l)%nat ->
  let r := tf.argmax_list l in
  (r < length l)%nat /\
  (forall k, (k < length l)%nat -> nth k l 0 <= nth r l 0) /\
  (forall k, (k < r)%nat -> nth k l 0 < nth r l 0).
Proof.
  destruct l as [|x t]; simpl; [lia|]. intros _.
  apply (argmax_from_spec (x :: t) t 1 0); simpl; try lia; try reflexivity.
  - intros k Hk. assert (k = 0)%nat by lia. subst. lra.
Qed.

Lemma argmax_list_first_maximum (l : list R) (j : nat) :
  (j < length l)%nat ->
  tf.argmax_list l = j <->
  (forall k, (k < length l)%nat -> nth k l 0 <= nth j l 0) /\
  (forall k, (k < j)%nat -> nth k l 0 < nth j l 0).
Proof.
  intros Hj. destruct (argmax_list_spec l ltac:(lia)) as (Hr & Hmax & Hfirst).
  split.
  - intros <-. split; assumption.
  - intros (Hmax' & Hfirst').
    destruct (Nat.lt_trichotomy (tf.argmax_list l) j) as [Hlt|[Heq|Hgt]];
      [|exact Heq|].
    + specialize (Hfirst' _ Hlt). specialize (Hmax j Hj). lra.
    + specialize (Hfirst _ Hgt). specialize (Hmax' _ Hr). lra.
Qed.

Lemma combine_map_self {A B : Type} (f : A -> B) (l : list A) :
  combine (map f l) l = map (fun x => (f x, x)) l.
Proof. induction l; simpl; [reflexivity|now rewrite IHl]. Qed.

Lemma batch_accuracy_square (FLAGS : Flags) (m : matrix) :
  (0 < batch_size FLAGS)%nat -> square (batch_size FLAGS) m ->
  batch_accuracy FLAGS m =
  Ok (tf.reduce_mean
        (map (fun j => bool_to_float (tf.argmax_list (tf.column j m) =? j)%nat)
           (seq 0 (batch_size FLAGS)))).
Proof.
  intros Hn Hsq. unfold batch_accuracy, tf.argmax.
  rewrite (n_cols_uniform (batch_size FLAGS) m); [|destruct Hsq; lia|apply Hsq].
  unfold tf.equal_as_float. rewrite length_map, Nat.eqb_refl. simpl.
  now rewrite combine_map_self, map_map.
Qed.

Lemma column_correct (n : nat) (m : matrix) (j : nat) :
  square n m -> (j < n)%nat ->
  (tf.argmax_list (tf.column j m) =? j)%nat = true <->
  first_maximum_of_column n (entry m) j.
Proof.
  intros Hsq Hj. rewrite Nat.eqb_eq.
  assert (Hlen : length (tf.column j m) = n).
  { unfold tf.column. rewrite length_map. apply Hsq. }
  assert (Hnth : forall k, (k < n)%nat -> nth k (tf.column j m) 0 = entry m k j).
  { intros k Hk. unfold tf.column, entry.
    apply (map_nth_in (fun row => nth j row 0) [] 0). destruct Hsq; lia. }
  rewrite argmax_list_first_maximum by lia. rewrite Hlen.
  unfold first_maximum_of_column. split; intros (Hmax & Hfirst); split.
  - intros i Hi. rewrite <- !Hnth by lia. now apply Hmax.
  - intros i Hi. rewrite <- !Hnth by lia. now apply Hfirst.
  - intros i Hi. rewrite !Hnth by lia. now apply Hmax.
  - intros i Hi. rewrite !Hnth by lia. now apply Hfirst.
Qed.

(** What [_contrastive_loss] returns on two batches of the configured
    size. *)
Lemma contrastive_loss_value (FLAGS : Flags) (d : nat) (r1 r2 : tensor4)
    (show_summaries : bool) :
  (0 < batch_size FLAGS)%nat ->
  batch_of (batch_size FLAGS) d r1 -> batch_of (batch_size FLAGS) d r2 ->
  let m := tf.divide (gram (map tf.flatten3 r1) (map tf.flatten3 r2))
             (softmax_temperature FLAGS) in
  exists plotted,
    _contrastive_loss FLAGS r1 r2 show_summaries =
    Ok (specified_loss FLAGS r1 r2,
        tf.reduce_mean
          (map (fun j => bool_to_float (tf.argmax_list (tf.column j m) =? j)%nat)
             (seq 0 (batch_size FLAGS))),
        plotted) /\
    square (batch_size FLAGS) m /\
    (forall i j, (i < batch_size FLAGS)%nat -> (j < batch_size FLAGS)%nat ->
       entry m i j = scaled_similarity FLAGS r1 r2 i j).
Proof.
  intros Hn H1 H2 m.
  assert (Hsq : square (batch_size FLAGS) m).
  { apply divide_square, gram_square; rewrite length_map; [apply H1|apply H2]. }
  assert (Hentry : forall i j,
             (i < batch_size FLAGS)%nat -> (j < batch_size FLAGS)%nat ->
             entry m i j = scaled_similarity FLAGS r1 r2 i j).
  { intros i j Hi Hj. apply scaled_similarity_entry.
    - destruct H1 as (-> & _). exact Hi.
    - destruct H2 as (-> & _). exact Hj. }
  unfold _contrastive_loss. rewrite (similarities_batch FLAGS d r1 r2 Hn H1 H2).
  simpl. fold m. rewrite (batch_accuracy_square FLAGS m Hn Hsq). simpl.
  eexists. split; [|split; assumption].
  f_equal. f_equal. f_equal.
  rewrite (forward_of_square _ m Hsq), (backward_of_square _ m Hsq).
  unfold specified_loss, forward_loss, backward_loss.
  f_equal; f_equal; f_equal; apply sum_below_ext; intros i Hi;
    unfold row_log_softmax_diag, column_log_softmax_diag;
    rewrite (Hentry i i Hi Hi); f_equal; f_equal;
    apply sum_below_ext; intros k Hk; now rewrite Hentry.
Qed.

(** ** The contrastive loss *)

(** C2: on two representations of [batch_size] elements,
    [_contrastive_loss] reshapes each to one flattened vector per batch
    element, forms the square matrix of their dot products, divides it by
    the temperature, and returns as total loss the negative mean of the
    diagonal of the row-wise log-softmax plus the negative mean of the
    diagonal of the column-wise log-softmax. *)
Theorem contrastive_loss_as_specified (FLAGS : Flags) (d : nat)
    (r1 r2 : tensor4) (show_summaries : bool) :
  let n := batch_size FLAGS in
  (0 < n)%nat -> batch_of n d r1 -> batch_of n d r2 ->
  tf.reshape r1 n = Ok (map (flat r1) (seq 0 n)) /\
  tf.reshape r2 n = Ok (map (flat r2) (seq 0 n)) /\
  (exists flat_1 sims,
     similarities FLAGS r1 r2 = Ok (flat_1, sims) /\ square n sims /\
     forall i j, (i < n)%nat -> (j < n)%nat ->
       entry sims i j = dot (flat r1 i) (flat r2 j)) /\
  (exists m,
     sharpened_similarities FLAGS r1 r2 = Ok m /\ square n m /\
     (forall i j, (i < n)%nat -> (j < n)%nat ->
        entry m i j = dot (flat r1 i) (flat r2 j) / softmax_temperature FLAGS) /\
     nce_loss_forward m = - (sum_below n (fun i =>
         entry m i i - ln (sum_below n (fun k => exp (entry m i k)))) / INR n) /\
     nce_loss_backward m = - (sum_below n (fun i =>
         entry m i i - ln (sum_below n (fun k => exp (entry m k i)))) / INR n) /\
     result_map loss_of (_contrastive_loss FLAGS r1 r2 show_summaries)
     = Ok (nce_loss_forward m + nce_loss_backward m)) /\
  result_map loss_of (_contrastive_loss FLAGS r1 r2 show_summaries)
  = Ok (specified_loss FLAGS r1 r2).
Proof.
  intros n Hn H1 H2.
  assert (Hflat : forall r, batch_of n d r ->
            map tf.flatten3 r = map (flat r) (seq 0 n)).
  { intros r (Hl & _). unfold flat. rewrite (list_as_seq [] r) at 1.
    now rewrite map_map, Hl. }
  assert (Hg : square n (gram (map tf.flatten3 r1) (map tf.flatten3 r2))).
  { apply gram_square; rewrite length_map; [apply H1|apply H2]. }
  assert (Hge : forall i j, (i < n)%nat -> (j < n)%nat ->
            entry (gram (map tf.flatten3 r1) (map tf.flatten3 r2)) i j
            = dot (flat r1 i) (flat r2 j)).
  { intros i j Hi Hj. destruct H1 as (Hl1 & _), H2 as (Hl2 & _).
    rewrite gram_entry by (rewrite length_map; lia). unfold flat.
    rewrite (map_nth_in tf.flatten3 [] [] r1 i) by lia.
    now rewrite (map_nth_in tf.flatten3 [] [] r2 j) by lia. }
  destruct (contrastive_loss_value FLAGS d r1 r2 show_summaries Hn H1 H2)
    as (plotted & Hv & Hsq & Hentry).
  split; [rewrite <- (Hflat r1 H1); now apply (reshape_batch n d)|].
  split; [rewrite <- (Hflat r2 H2); now apply (reshape_batch n d)|].
  split; [|split].
  - do 2 eexists. split; [now apply (similarities_batch FLAGS d)|].
    split; assumption.
  - eexists. split.
    { unfold sharpened_similarities.
      rewrite (similarities_batch FLAGS d r1 r2 Hn H1 H2). reflexivity. }
    split; [exact Hsq|]. split; [exact Hentry|].
    split; [now apply forward_of_square|].
    split; [now apply backward_of_square|].
    unfold _contrastive_loss.
    rewrite (similarities_batch FLAGS d r1 r2 Hn H1 H2). simpl.
    rewrite (batch_accuracy_square FLAGS _ Hn Hsq). reflexivity.
  - rewrite Hv. reflexivity.
Qed.

Lemma similarities_swap (FLAGS : Flags) (a b : tensor4) :
  (exists e, similarities FLAGS a b = Raise e /\ similarities FLAGS b a = Raise e)
  \/
  (exists A B,
     similarities FLAGS a b = Ok (A, gram A B) /\
     similarities FLAGS b a = Ok (B, gram B A) /\
     length A = batch_size FLAGS /\ length B = batch_size FLAGS /\
     (0 < batch_size FLAGS)%nat).
Proof.
  unfold similarities, tf.matmul_transpose_b.
  destruct (tf.reshape a (batch_size FLAGS)) as [A|ea] eqn:Ha;
    destruct (tf.reshape b (batch_size FLAGS)) as [B|eb] eqn:Hb; simpl.
  - rewrite (Nat.eqb_sym (tf.n_cols B)).
    destruct (tf.n_cols A =? tf.n_cols B)%nat; simpl.
    + right. exists A, B. destruct (reshape_ok _ _ _ Ha) as (Hn & HA & _).
      destruct (reshape_ok _ _ _ Hb) as (_ & HB & _). auto.
    + left. eauto.
  - left. eauto.
  - left. eauto.
  - left. rewrite (reshape_raises _ _ _ Ha), (reshape_raises _ _ _ Hb). eauto.
Qed.

Lemma forward_backward_swap (n : nat) (S S' : nat -> nat -> R) :
  (forall i j, (i < n)%nat -> (j < n)%nat -> S' i j = S j i) ->
  forward_loss n S = backward_loss n S'.
Proof.
  intros H. unfold forward_loss, backward_loss. f_equal. f_equal.
  apply sum_below_ext. intros i Hi.
  unfold row_log_softmax_diag, column_log_softmax_diag.
  rewrite (H i i Hi Hi). f_equal. f_equal.
  apply sum_below_ext. intros k Hk. now rewrite H.
Qed.

Lemma sharpened_gram_swap (A B : matrix) (c : R) (n : nat) (i j : nat) :
  length A = n -> length B = n -> (i < n)%nat -> (j < n)%nat ->
  entry (tf.divide (gram B A) c) i j = entry (tf.divide (gram A B) c) j i.
Proof.
  intros HA HB Hi Hj.
  rewrite (divide_entry n), (divide_entry n) by (auto using gram_square).
  rewrite !gram_entry by lia. now rewrite dot_comm.
Qed.

(** C3: the forward term of [_contrastive_loss] on [(a, b)] is the
    backward term on [(b, a)], and the total loss is the same for both
    orders (an input that makes one order raise makes the other raise the
    same exception). *)
Theorem contrastive_loss_symmetric (FLAGS : Flags) (a b : tensor4)
    (show_summaries : bool) :
  result_map nce_loss_forward (sharpened_similarities FLAGS a b)
  = result_map nce_loss_backward (sharpened_similarities FLAGS b a) /\
  result_map loss_of (_contrastive_loss FLAGS a b show_summaries)
  = result_map loss_of (_contrastive_loss FLAGS b a show_summaries).
Proof.
  unfold sharpened_similarities, _contrastive_loss.
  destruct (similarities_swap FLAGS a b)
    as [(e & -> & ->)|(A & B & -> & -> & HA & HB & Hn)]; simpl;
    [split; reflexivity|].
  set (c := softmax_temperature FLAGS).
  assert (Hab : square (batch_size FLAGS) (tf.divide (gram A B) c))
    by (apply divide_square, gram_square; assumption).
  assert (Hba : square (batch_size FLAGS) (tf.divide (gram B A) c))
    by (apply divide_square, gram_square; assumption).
  assert (Hfb : nce_loss_forward (tf.divide (gram A B) c)
                = nce_loss_backward (tf.divide (gram B A) c)).
  { rewrite (forward_of_square _ _ Hab), (backward_of_square _ _ Hba).
    apply forward_backward_swap. intros i j Hi Hj.
    now apply (sharpened_gram_swap A B c (batch_size FLAGS)). }
  assert (Hbf : nce_loss_backward (tf.divide (gram A B) c)
                = nce_loss_forward (tf.divide (gram B A) c)).
  { rewrite (forward_of_square _ _ Hba), (backward_of_square _ _ Hab).
    symmetry. apply forward_backward_swap. intros i j Hi Hj.
    now apply (sharpened_gram_swap B A c (batch_size FLAGS)). }
  split; [now rewrite Hfb|].
  rewrite (batch_accuracy_square FLAGS _ Hn Hab),
          (batch_accuracy_square FLAGS _ Hn Hba). simpl.
  unfold loss_of. simpl. f_equal. rewrite Hfb, Hbf. apply Rplus_comm.
Qed.

(** C4 (amended): the accuracy is computed column-wise.  For each column
    [j] of the temperature-scaled similarity matrix the sample counts as
    correct exactly when the row index of that column's largest entry
    (the first one on ties) is [j]; the accuracy is the mean of these 0/1
    values over the batch. *)
Theorem accuracy_is_column_wise (FLAGS : Flags) (d : nat) (r1 r2 : tensor4)
    (show_summaries : bool) :
  let n := batch_size FLAGS in
  (0 < n)%nat -> batch_of n d r1 -> batch_of n d r2 ->
  exists correct : nat -> bool,
    result_map accuracy_of (_contrastive_loss FLAGS r1 r2 show_summaries)
    = Ok (tf.reduce_mean (map (fun j => bool_to_float (correct j)) (seq 0 n))) /\
    forall j, (j < n)%nat ->
      correct j = true <->
      first_maximum_of_column n (scaled_similarity FLAGS r1 r2) j.
Proof.
  intros n Hn H1 H2.
  destruct (contrastive_loss_value FLAGS d r1 r2 show_summaries Hn H1 H2)
    as (plotted & Hv & Hsq & Hentry).
  eexists (fun j => (tf.argmax_list (tf.column j _) =? j)%nat).
  split; [rewrite Hv; reflexivity|].
  intros j Hj. rewrite (column_correct n _ j Hsq Hj).
  unfold first_maximum_of_column.
  split; intros (Hmax & Hfirst); split; intros i Hi.
  - rewrite <- !Hentry by (fold n; lia). now apply Hmax.
  - rewrite <- !Hentry by (fold n; lia). now apply Hfirst.
  - rewrite !Hentry by (fold n; lia). now apply Hmax.
  - rewrite !Hentry by (fold n; lia). now apply Hfirst.
Qed.

(** ** Views *)

Lemma Forall_mapi_from {A B : Type} (P : A -> Prop) (Q : B -> Prop)
    (f : nat -> A -> B) (l : list A) :
  (forall i a, P a -> Q (f i a)) ->
  Forall P l -> forall k, Forall Q (mapi_from k f l).
Proof.
  intros Hf H. induction H as [|a l Ha _ IH]; intros k; simpl; constructor.
  - now apply Hf.
  - apply IH.
Qed.

Lemma mapi_from_id {A : Type} (f : nat -> A -> A) (l : list A) :
  (forall i a, In a l -> f i a = a) -> forall k, mapi_from k f l = l.
Proof.
  induction l as [|a l IH]; intros Hf k; simpl; [reflexivity|].
  rewrite Hf by now left. f_equal. apply IH. intros i b Hb. apply Hf. now right.
Qed.

Lemma map_id_in {A : Type} (f : A -> A) (l : list A) :
  (forall a, In a l -> f a = a) -> map f l = l.
Proof.
  intros Hf. rewrite <- (map_id l) at 2. now apply map_ext_in.
Qed.

Lemma has_shape_image (s0 s1 s2 s3 : nat) (x : tensor4) (b : nat) :
  has_shape (s0, s1, s2, s3) x -> (b < s0)%nat ->
  length (nth b x []) = s1 /\
  forall h, (h < s1)%nat ->
    length (nth h (nth b x []) []) = s2 /\
    forall w, (w < s2)%nat ->
      length (nth w (nth h (nth b x []) []) []) = s3.
Proof.
  intros (H0 & Himg) Hb.
  rewrite Forall_nth in Himg.
  destruct (Himg b [] ltac:(lia)) as (H1 & Hrow).
  split; [exact H1|]. intros h Hh.
  rewrite Forall_nth in Hrow.
  destruct (Hrow h [] ltac:(lia)) as (H2 & Hpx).
  split; [exact H2|]. intros w Hw.
  rewrite Forall_nth in Hpx. apply Hpx. lia.
Qed.

Lemma dropout_check (s0 s1 s2 s3 : nat) (x : tensor4) :
  has_shape (s0, s1, s2, s3) x ->
  ((length x =? s0)%nat
   && forallb (forallb (forallb (fun px => (length px =? s3)%nat))) x) = true.
Proof.
  intros (H0 & Himg). rewrite H0, Nat.eqb_refl. simpl.
  apply forallb_forall. intros img Hin.
  rewrite Forall_forall in Himg. destruct (Himg img Hin) as (_ & Hrow).
  apply forallb_forall. intros row Hin'.
  rewrite Forall_forall in Hrow. destruct (Hrow row Hin') as (_ & Hpx).
  apply forallb_forall. intros px Hin''.
  rewrite Forall_forall in Hpx. rewrite (Hpx px Hin''). apply Nat.eqb_refl.
Qed.

Lemma per_band_shape (s0 s1 s2 s3 : nat) (g : nat -> nat -> R -> R)
    (x : tensor4) :
  has_shape (s0, s1, s2, s3) x ->
  has_shape (s0, s1, s2, s3)
    (mapi (fun b img => map (map (mapi (g b))) img) x).
Proof.
  intros (H0 & Himg). split.
  - unfold mapi. now rewrite mapi_from_length.
  - unfold mapi. eapply Forall_mapi_from; [|exact Himg].
    intros b img (H1 & Hrow). split; [now rewrite length_map|].
    rewrite Forall_map. eapply Forall_impl; [|exact Hrow].
    intros row (H2 & Hpx). split; [now rewrite length_map|].
    rewrite Forall_map. eapply Forall_impl; [|exact Hpx].
    intros px H3. simpl. unfold mapi. now rewrite mapi_from_length.
Qed.




Lemma dropout_rate_zero (s0 s1 s2 s3 : nat) (u : nat -> nat -> R)
    (x : tensor4) :
  has_shape (s0, s1, s2, s3) x -> (forall b c, 0 <= u b c) ->
  tf.nn_dropout x 0 s0 s3 u = Ok x.
Proof.
  intros Hx Hu. unfold tf.nn_dropout. rewrite (dropout_check _ _ _ _ x Hx).
  f_equal. unfold mapi. apply mapi_from_id. intros b img _.
  apply map_id_in. intros row _. apply map_id_in. intros px _.
  apply mapi_from_id. intros c v _.
  destruct (Rge_dec (u b c) 0) as [|Hn]; simpl.
  - field.
  - exfalso. apply Hn. apply Rle_ge. apply Hu.
Qed.

Lemma slice_length {A : Type} (o n : nat) (l : list A) :
  (o + n <= length l)%nat -> length (tf.slice o n l) = n.
Proof.
  intros H. unfold tf.slice. rewrite length_firstn, length_skipn. lia.
Qed.

Lemma slice_nth {A : Type} (d : A) (o n i : nat) (l : list A) :
  (i < n)%nat -> nth i (tf.slice o n l) d = nth (o + i) l d.
Proof.
  intros Hi. unfold tf.slice. rewrite nth_firstn.
  destruct (Nat.ltb_spec i n); [apply nth_skipn|lia].
Qed.

Lemma slice_whole {A : Type} (n : nat) (l : list A) :
  length l = n -> tf.slice 0 n l = l.
Proof. intros <-. unfold tf.slice. simpl. apply firstn_all. Qed.

Lemma slice_incl {A : Type} (o n : nat) (l : list A) (a : A) :
  In a (tf.slice o n l) -> In a l.
Proof.
  unfold tf.slice. intros H.
  rewrite <- (firstn_skipn o l). apply in_or_app. right.
  rewrite <- (firstn_skipn n (skipn o l)). apply in_or_app. now left.
Qed.

Lemma Forall_slice {A : Type} (P : A -> Prop) (o n : nat) (l : list A) :
  Forall P l -> Forall P (tf.slice o n l).
Proof.
  rewrite !Forall_forall. intros H a Ha. apply H. eapply slice_incl, Ha.
Qed.

Lemma shape4_of_has_shape (s0 s1 s2 s3 : nat) (x : tensor4) :
  (0 < s0)%nat -> (0 < s1)%nat -> (0 < s2)%nat ->
  has_shape (s0, s1, s2, s3) x -> tf.shape4 x = (s0, s1, s2, s3).
Proof.
  intros H0 H1 H2 (Hl & Himg). unfold tf.shape4.
  destruct x as [|img x]; simpl in *; [lia|].
  inversion Himg as [|? ? (Hl1 & Hrow) _]; subst.
  destruct img as [|row img]; simpl in *; [lia|].
  inversion Hrow as [|? ? (Hl2 & Hpx) _]; subst.
  destruct row as [|px row]; simpl in *; [lia|].
  inversion Hpx; subst. reflexivity.
Qed.

(** The window of height and width [n] at offset [(oh, ow)] of every
    image. *)
Lemma crop_of_batch (B Td Tm C : nat) (scene : tensor4) (u0 u1 u2 u3 : nat) :
  (0 < B)%nat -> (0 < Td)%nat -> (Tm <= Td)%nat ->
  has_shape (B, Td, Td, C) scene ->
  tf.image_random_crop scene (B, Tm, Tm, C) (u0, u1, u2, u3)
  = Ok (map (fun img =>
          map (fun row => tf.slice (u2 mod (Td - Tm + 1)) Tm row)
            (tf.slice (u1 mod (Td - Tm + 1)) Tm img))
        scene).
Proof.
  intros HB HTd HT Hx. unfold tf.image_random_crop.
  rewrite (shape4_of_has_shape _ _ _ _ scene HB HTd HTd Hx).
  rewrite !Nat.leb_refl. replace (Tm <=? Td)%nat with true
    by (symmetry; now apply Nat.leb_le).
  cbv [andb]. rewrite !Nat.sub_diag. simpl (0 + 1)%nat.
  rewrite !Nat.mod_1_r. f_equal.
  destruct Hx as (Hl & Himg). rewrite (slice_whole B scene Hl).
  apply map_ext_in. intros img Hin.
  rewrite Forall_forall in Himg. destruct (Himg img Hin) as (_ & Hrow).
  apply map_ext_in. intros row Hin'. apply slice_incl in Hin'.
  rewrite Forall_forall in Hrow. destruct (Hrow row Hin') as (_ & Hpx).
  apply map_id_in. intros px Hin''. apply slice_incl in Hin''.
  rewrite Forall_forall in Hpx. now apply slice_whole, Hpx.
Qed.

Lemma crop_shape (B Td Tm C oh ow : nat) (scene : tensor4) :
  (oh + Tm <= Td)%nat -> (ow + Tm <= Td)%nat ->
  has_shape (B, Td, Td, C) scene ->
  has_shape (B, Tm, Tm, C)
    (map (fun img => map (fun row => tf.slice ow Tm row) (tf.slice oh Tm img))
       scene).
Proof.
  intros Hoh How (Hl & Himg). split; [now rewrite length_map|].
  rewrite Forall_map. eapply Forall_impl; [|exact Himg].
  intros img (H1 & Hrow). split.
  - rewrite length_map. apply slice_length. lia.
  - rewrite Forall_map. apply Forall_slice.
    eapply Forall_impl; [|exact Hrow].
    intros row (H2 & Hpx). split.
    + apply slice_length. lia.
    + now apply Forall_slice.
Qed.

Lemma crop_pixel (B Td Tm C oh ow : nat) (scene : tensor4) (b h w c : nat) :
  has_shape (B, Td, Td, C) scene ->
  (b < B)%nat -> (h < Tm)%nat -> (w < Tm)%nat ->
  (oh + Tm <= Td)%nat ->
  pixel (map (fun img => map (fun row => tf.slice ow Tm row) (tf.slice oh Tm img))
           scene) b h w c
  = pixel scene b (oh + h) (ow + w) c.
Proof.
  intros Hx Hb Hh Hw Hoh. unfold pixel.
  destruct (has_shape_image _ _ _ _ scene b Hx Hb) as (H1 & _).
  rewrite (map_nth_in _ [] [] scene b) by (destruct Hx; lia).
  rewrite (map_nth_in _ [] [] _ h) by (rewrite slice_length; lia).
  now rewrite !slice_nth by lia.
Qed.

(** C9: with dropout rate 0 and neither brightness nor contrast jitter
    configured, the view of a batch of data tiles is its crop at the
    offset that the draws for the view's seed determine (rows [oh ..] and
    columns [ow ..] of every image, all batch elements and bands kept);
    when the model tile size equals the data tile size the view is the
    batch itself. *)
Theorem view_is_crop_without_augmentation (FLAGS : Flags)
    (rng : Z -> ViewNoise) (scene : tensor4) (step : Z) (seed : option Z) :
  let B := batch_size FLAGS in
  let C := n_bands FLAGS in
  let Td := data_tilesize FLAGS in
  let Tm := model_tilesize FLAGS in
  let draws := crop_uniform (rng (effective_seed FLAGS seed)) in
  let oh := (snd (fst (fst draws)) mod (Td - Tm + 1))%nat in
  let ow := (snd (fst draws) mod (Td - Tm + 1))%nat in
  truthy_float (random_brightness_delta FLAGS) = false ->
  truthy_float (random_contrast_delta FLAGS) = false ->
  (forall s b c, 0 <= dropout_uniform (rng s) b c) ->
  (0 < B)%nat -> (0 < Td)%nat -> (Tm <= Td)%nat ->
  has_shape (B, Td, Td, C) scene ->
  exists view,
    _create_view FLAGS rng scene step 0 seed = Ok view /\
    has_shape (B, Tm, Tm, C) view /\
    (oh + Tm <= Td)%nat /\ (ow + Tm <= Td)%nat /\
    (forall b h w c, (b < B)%nat -> (h < Tm)%nat -> (w < Tm)%nat ->
       pixel view b h w c = pixel scene b (oh + h) (ow + w) c) /\
    (Tm <> Td ->
     tf.image_random_crop scene (input_shape FLAGS) draws = Ok view) /\
    (Tm = Td -> view = scene).
Proof.
  intros B C Td Tm draws oh ow Hbr Hco Hu HB HTd HT Hx.
  assert (Hoh : (oh + Tm <= Td)%nat).
  { unfold oh. assert (H := Nat.mod_upper_bound (snd (fst (fst draws)))
      (Td - Tm + 1)). lia. }
  assert (How : (ow + Tm <= Td)%nat).
  { unfold ow. assert (H := Nat.mod_upper_bound (snd (fst draws))
      (Td - Tm + 1)). lia. }
  unfold _create_view. rewrite Hbr, Hco. fold Tm Td B C.
  destruct (Nat.eqb_spec Tm Td) as [Heq|Hne]; simpl.
  - exists scene. rewrite Heq in *.
    split; [now apply (dropout_rate_zero B Td Td C)|].
    split; [exact Hx|]. split; [exact Hoh|]. split; [exact How|].
    split; [|split; [contradiction|reflexivity]].
    intros b h w c _ _ _.
    replace oh with 0%nat by lia. now replace ow with 0%nat by lia.
  - unfold input_shape. fold B Tm C draws.
    assert (Hcrop := crop_of_batch B Td Tm C scene (fst (fst (fst draws)))
      (snd (fst (fst draws))) (snd (fst draws)) (snd draws) HB HTd HT Hx).
    replace (fst (fst (fst draws)), snd (fst (fst draws)), snd (fst draws),
             snd draws) with draws in Hcrop
      by now destruct draws as [[[? ?] ?] ?].
    rewrite Hcrop. simpl.
    assert (Hshape := crop_shape B Td Tm C oh ow scene Hoh How Hx).
    eexists. split; [now apply (dropout_rate_zero B Tm Tm C)|].
    split; [exact Hshape|]. split; [exact Hoh|]. split; [exact How|].
    split; [|split; [reflexivity|contradiction]].
    intros b h w c Hb Hh Hw. now apply (crop_pixel B Td Tm C).
Qed.

(** ** The training step *)

Lemma not_ok_raises {A : Type} (r : result A) :
  is_ok r = false -> exists e, r = Raise e.
Proof. destruct r; [discriminate|eauto]. Qed.

Lemma contrastive_loss_ignores_summaries (FLAGS : Flags) (r1 r2 : tensor4) :
  result_map fst (_contrastive_loss FLAGS r1 r2 true)
  = result_map fst (_contrastive_loss FLAGS r1 r2 false).
Proof.
  unfold _contrastive_loss.
  destruct (similarities FLAGS r1 r2) as [[flat_1 sims]|]; simpl; [|reflexivity].
  destruct (batch_accuracy FLAGS _); reflexivity.
Qed.

Lemma layer_losses_ignore_summaries (FLAGS : Flags)
    (reps1 reps2 : dict tensor4) (pairs : list ((Mean * Mean) * (string * R))) :
  result_map fst (layer_losses FLAGS true reps1 reps2 pairs)
  = result_map fst (layer_losses FLAGS false reps1 reps2 pairs).
Proof.
  induction pairs as [|[[lm am] [layer weight]] rest IH]; simpl; [reflexivity|].
  destruct (getitem reps1 layer) as [r1|]; simpl; [|reflexivity].
  destruct (getitem reps2 layer) as [r2|]; simpl; [|reflexivity].
  assert (H := contrastive_loss_ignores_summaries FLAGS r1 r2).
  destruct (_contrastive_loss FLAGS r1 r2 true) as [[[l1 a1] p1]|e1];
    destruct (_contrastive_loss FLAGS r1 r2 false) as [[[l2 a2] p2]|e2];
    simpl in H |- *; try discriminate; [|congruence].
  injection H as -> ->. simpl.
  destruct (layer_losses FLAGS true reps1 reps2 rest) as [[[ls1 ms1] ps1]|e1];
    destruct (layer_losses FLAGS false reps1 reps2 rest) as [[[ls2 ms2] ps2]|e2];
    simpl in IH |- *; try discriminate; [|congruence].
  injection IH as -> ->. reflexivity.
Qed.

(** With or without summaries the training step returns the same loss and
    leaves the same weights, optimizer state and metrics. *)
Lemma train_step_ignores_summaries (FLAGS : Flags) (lw : dict R)
    (st : TrainingState) (batch : tensor4) (dropout_rate : R)
    (recording recording' : bool) :
  result_map numeric_result
    (train_step FLAGS lw st batch dropout_rate true recording)
  = result_map numeric_result
      (train_step FLAGS lw st batch dropout_rate false recording').
Proof.
  unfold train_step.
  destruct (_create_view FLAGS _ batch _ _ (Some 1%Z)) as [v1|]; simpl;
    [|reflexivity].
  destruct (_visualize_batch FLAGS v1) as [s1|]; simpl; [|reflexivity].
  destruct (_create_view FLAGS _ batch _ _ (Some 2%Z)) as [v2|]; simpl;
    [|reflexivity].
  destruct (_visualize_batch FLAGS v2) as [s2|]; simpl; [|reflexivity].
  destruct (encoder (weights st) v1) as [reps1|]; simpl; [|reflexivity].
  destruct (encoder (weights st) v2) as [reps2|]; simpl; [|reflexivity].
  destruct (read_name (layer_metrics st)) as [metrics|]; simpl; [|reflexivity].
  assert (H := layer_losses_ignore_summaries FLAGS reps1 reps2
                 (combine metrics lw)).
  destruct (layer_losses FLAGS true reps1 reps2 _) as [[[ls1 ms1] ps1]|e1];
    destruct (layer_losses FLAGS false reps1 reps2 _) as [[[ls2 ms2] ps2]|e2];
    simpl in H |- *; try discriminate; [|congruence].
  injection H as -> ->. simpl.
  destruct (if negb (summary_frequency FLAGS =? 0)%Z then _ else _)
    as [tm|]; simpl; [|reflexivity].
  destruct (apply_gradients _ _ _ _ _). reflexivity.
Qed.

Lemma train_step_keeps_step (FLAGS : Flags) (lw : dict R)
    (st st' : TrainingState) (batch : tensor4) (dropout_rate loss : R)
    (show_summaries recording : bool) (written : list summary) :
  train_step FLAGS lw st batch dropout_rate show_summaries recording
  = Ok (loss, st', written) ->
  step st' = step st.
Proof.
  unfold train_step.
  destruct (_create_view FLAGS _ batch _ _ (Some 1%Z)) as [v1|]; simpl;
    [|discriminate].
  destruct (_visualize_batch FLAGS v1) as [s1|]; simpl; [|discriminate].
  destruct (_create_view FLAGS _ batch _ _ (Some 2%Z)) as [v2|]; simpl;
    [|discriminate].
  destruct (_visualize_batch FLAGS v2) as [s2|]; simpl; [|discriminate].
  destruct (encoder (weights st) v1) as [reps1|]; simpl; [|discriminate].
  destruct (encoder (weights st) v2) as [reps2|]; simpl; [|discriminate].
  destruct (read_name (layer_metrics st)) as [metrics|]; simpl; [|discriminate].
  destruct (layer_losses FLAGS _ reps1 reps2 _) as [[[ls ms] ps]|]; simpl;
    [|discriminate].
  destruct (if negb (summary_frequency FLAGS =? 0)%Z then _ else _)
    as [tm|]; simpl; [|discriminate].
  destruct (apply_gradients _ _ _ _ _). intros H. injection H as _ <- _.
  reflexivity.
Qed.

(** Without the metric names bound the training step cannot complete:
    once both views are made and encoded, reading [layer_metrics] raises
    [NameError]; an earlier failure raises earlier. *)
Lemma train_step_unbound_metrics (FLAGS : Flags) (lw : dict R)
    (st : TrainingState) (batch : tensor4) (dropout_rate : R)
    (show_summaries recording : bool) :
  layer_metrics st = None ->
  (exists e,
     train_step FLAGS lw st batch dropout_rate show_summaries recording
     = Raise e) /\
  (forall v1 v2 s1 s2 reps1 reps2,
     _create_view FLAGS (random_ops (step st)) batch (step st) dropout_rate
       (Some 1%Z) = Ok v1 ->
     _visualize_batch FLAGS v1 = Ok s1 ->
     _create_view FLAGS (random_ops (step st)) batch (step st) dropout_rate
       (Some 2%Z) = Ok v2 ->
     _visualize_batch FLAGS v2 = Ok s2 ->
     encoder (weights st) v1 = Ok reps1 ->
     encoder (weights st) v2 = Ok reps2 ->
     train_step FLAGS lw st batch dropout_rate show_summaries recording
     = Raise NameError).
Proof.
  intros Hm. unfold train_step. rewrite Hm. split.
  - apply not_ok_raises.
    destruct (_create_view FLAGS _ batch _ _ (Some 1%Z)) as [v1|]; simpl;
      [|reflexivity].
    destruct (_visualize_batch FLAGS v1) as [s1|]; simpl; [|reflexivity].
    destruct (_create_view FLAGS _ batch _ _ (Some 2%Z)) as [v2|]; simpl;
      [|reflexivity].
    destruct (_visualize_batch FLAGS v2) as [s2|]; simpl; [|reflexivity].
    destruct (encoder (weights st) v1) as [reps1|]; simpl; [|reflexivity].
    destruct (encoder (weights st) v2) as [reps2|]; reflexivity.
  - intros v1 v2 s1 s2 reps1 reps2 H1 H2 H3 H4 H5 H6.
    rewrite H1. simpl. rewrite H2. simpl. rewrite H3. simpl.
    rewrite H4. simpl. rewrite H5. simpl. rewrite H6. reflexivity.
Qed.

(** ** The training loop *)

Lemma step_events_app (l1 l2 : list event) :
  step_events (l1 ++ l2) = step_events l1 ++ step_events l2.
Proof. apply filter_app. Qed.

Lemma step_events_summaries (l : list summary) :
  step_events (map EvSummary l) = [].
Proof. induction l; simpl; [reflexivity|assumption]. Qed.

Lemma bindM_ok {A B : Type} (m : M A) (k : A -> M B) (a : A) :
  snd m = Ok a -> bindM m k = (fst m ++ fst (k a), snd (k a)).
Proof. intros H. unfold bindM. now rewrite H. Qed.

Lemma bindM_raise {A B : Type} (m : M A) (k : A -> M B) (e : exception) :
  snd m = Raise e -> bindM m k = (fst m, Raise e).
Proof. intros H. unfold bindM. now rewrite H. Qed.

Lemma iteration_post_bind {A : Type} (FLAGS : Flags) (i : Z)
    (seen es : list event) (m : M A) (k : A -> M (TrainingState * bool)) :
  step_events (fst m) = es ->
  (forall a, snd m = Ok a -> iteration_post FLAGS i (seen ++ es) (k a)) ->
  (forall e, snd m = Raise e ->
     seen ++ es = [EvAssignAdd i] \/ seen ++ es = iteration_trace FLAGS i) ->
  iteration_post FLAGS i seen (bindM m k).
Proof.
  intros Hes Hok Hraise. unfold iteration_post.
  destruct (snd m) as [a|e] eqn:Hm.
  - rewrite (bindM_ok m k a Hm). simpl.
    specialize (Hok a eq_refl). unfold iteration_post in Hok.
    rewrite step_events_app, Hes, app_assoc. exact Hok.
  - rewrite (bindM_raise m k e Hm). simpl. rewrite Hes.
    exact (Hraise e eq_refl).
Qed.

Lemma iteration_post_quiet {A : Type} (FLAGS : Flags) (i : Z)
    (seen : list event) (m : M A) (k : A -> M (TrainingState * bool)) :
  step_events (fst m) = [] ->
  (forall a, snd m = Ok a -> iteration_post FLAGS i seen (k a)) ->
  seen = [EvAssignAdd i] \/ seen = iteration_trace FLAGS i ->
  iteration_post FLAGS i seen (bindM m k).
Proof.
  intros Hes Hok Hseen. apply (iteration_post_bind FLAGS i seen []).
  - exact Hes.
  - intros a Ha. rewrite app_nil_r. now apply Hok.
  - intros e _. now rewrite app_nil_r.
Qed.

Lemma write_metrics_quiet (lw : dict R) (recording : bool)
    (st : TrainingState) :
  step_events (fst (write_metrics lw recording st)) = [] /\
  forall st', snd (write_metrics lw recording st) = Ok st' ->
    step st' = step st.
Proof.
  unfold write_metrics, bindM, lift, emit_all, ret.
  destruct (total_loss_metric st) as [t|]; simpl; [|split; [reflexivity|discriminate]].
  destruct (layer_metrics st) as [ms|]; simpl.
  - rewrite !app_nil_r, step_events_app, !step_events_summaries.
    split; [reflexivity|]. intros st' H. injection H as <-. reflexivity.
  - rewrite !app_nil_r, step_events_summaries.
    split; [reflexivity|discriminate].
Qed.

Lemma iteration_steps (FLAGS : Flags) (lw : dict R) (st : TrainingState)
    (batch : tensor4) :
  iteration_post FLAGS (wrap_int64 (step st + 1)) []
    (iteration FLAGS lw st batch).
Proof.
  unfold iteration. cbv zeta.
  set (i := wrap_int64 (step st + 1)).
  change (step (with_step st i)) with i.
  set (show := (negb (summary_frequency FLAGS =? 0)%Z
                && (i mod summary_frequency FLAGS =? 0)%Z)%bool).
  assert (Htrace : iteration_trace FLAGS i = [EvAssignAdd i; EvTrainStep i show])
    by reflexivity.
  apply (iteration_post_bind FLAGS i [] [EvAssignAdd i]);
    [reflexivity| |discriminate].
  intros _ _. simpl app.
  apply iteration_post_quiet; [reflexivity| |now left].
  intros shown _.
  apply iteration_post_quiet; [apply step_events_summaries| |now left].
  intros _ _.
  apply (iteration_post_quiet FLAGS i _
           (if truthy_int (learning_rate_warmup_batches FLAGS) then _ else _)).
  { destruct (truthy_int _); [|reflexivity].
    unfold bindM, emit_all, ret. simpl.
    now rewrite app_nil_r, step_events_summaries. }
  2: now left.
  intros st1 Hst1.
  assert (H1 : step st1 = i).
  { destruct (truthy_int _); unfold bindM, emit_all, ret in Hst1; simpl in Hst1;
      injection Hst1 as <-; reflexivity. }
  clear Hst1.
  apply (iteration_post_quiet FLAGS i _
           (if truthy_int (band_dropout_rate_warmup_batches FLAGS) then _ else _)).
  { destruct (truthy_int _); [|reflexivity].
    unfold bindM, emit_all, ret. simpl.
    now rewrite app_nil_r, step_events_summaries. }
  2: now left.
  intros st2 Hst2.
  assert (H2 : step st2 = i).
  { destruct (truthy_int _); unfold bindM, emit_all, ret in Hst2; simpl in Hst2;
      injection Hst2 as <-; simpl; exact H1. }
  clear Hst2.
  apply iteration_post_quiet; [destruct (i =? 0)%Z; reflexivity| |now left].
  intros _ _.
  apply (iteration_post_bind FLAGS i _ [EvTrainStep i show]);
    [rewrite H2; reflexivity| |discriminate].
  intros _ _. simpl app.
  apply iteration_post_quiet; [reflexivity| |now right].
  intros [[loss st3] written] Hts. simpl in Hts.
  assert (H3 : step st3 = i).
  { rewrite <- H2. eapply train_step_keeps_step, Hts. }
  apply iteration_post_quiet; [apply step_events_summaries| |now right].
  intros _ _.
  apply iteration_post_quiet; [destruct (i =? 0)%Z; reflexivity| |now right].
  intros _ _.
  apply iteration_post_quiet; [reflexivity| |now right].
  intros save _.
  apply iteration_post_quiet; [destruct save; reflexivity| |now right].
  intros _ _.
  apply (iteration_post_quiet FLAGS i _
           (if show then write_metrics lw show st3 else ret st3)).
  { destruct show; [apply write_metrics_quiet|reflexivity]. }
  2: now right.
  intros st4 Hst4.
  assert (H4 : step st4 = i).
  { destruct show.
    - rewrite <- H3. now apply (write_metrics_quiet lw true st3).
    - injection Hst4 as <-. exact H3. }
  unfold iteration_post.
  destruct (train_batches FLAGS <=? i)%Z; simpl; auto.
Qed.

Lemma logs_finish_bind {A : Type} (i : Z) (m : M A)
    (k : A -> M (TrainingState * bool)) :
  (forall a, logs_finish i (k a)) -> logs_finish i (bindM m k).
Proof.
  intros Hk st' H. unfold bindM in *.
  destruct (snd m) as [a|e]; simpl in *; [|discriminate].
  destruct (Hk a st' H) as (l & Hl). exists (fst m ++ l).
  now rewrite Hl, app_assoc.
Qed.

Lemma iteration_logs_finish (FLAGS : Flags) (lw : dict R)
    (st : TrainingState) (batch : tensor4) :
  logs_finish (wrap_int64 (step st + 1)) (iteration FLAGS lw st batch).
Proof.
  unfold iteration. cbv zeta.
  change (step (with_step st (wrap_int64 (step st + 1))))
    with (wrap_int64 (step st + 1)).
  do 7 (apply logs_finish_bind; intros ?).
  apply logs_finish_bind. intros [[loss st3] written].
  do 5 (apply logs_finish_bind; intros ?).
  destruct (train_batches FLAGS <=? _)%Z.
  - intros st' _. unfold bindM, emit, ret. simpl. now exists [].
  - intros st' H. discriminate.
Qed.

Lemma wrap_int64_small (z : Z) :
  (- 2 ^ 63 <= z < 2 ^ 63)%Z -> wrap_int64 z = z.
Proof.
  intros H. unfold wrap_int64.
  rewrite Z.mod_small by lia. lia.
Qed.

Lemma steps_trace_succ (FLAGS : Flags) (from : Z) (k : nat) :
  steps_trace FLAGS from (S k)
  = iteration_trace FLAGS from ++ steps_trace FLAGS (from + 1) k.
Proof.
  unfold steps_trace. rewrite <- cons_seq, <- seq_shift. simpl.
  rewrite Z.add_0_r. f_equal. f_equal. f_equal.
  rewrite map_map. apply map_ext. intros j. f_equal. lia.
Qed.

Lemma count_from_succ (from : Z) (k : nat) :
  count_from from (S k) = from :: count_from (from + 1) k.
Proof.
  unfold count_from. rewrite <- cons_seq, <- seq_shift. simpl.
  rewrite Z.add_0_r. f_equal. rewrite map_map. apply map_ext. intros j. lia.
Qed.

Lemma count_from_last (from : Z) (k : nat) :
  count_from from (S k) = count_from from k ++ [(from + Z.of_nat k)%Z].
Proof.
  unfold count_from. now rewrite seq_S, map_app.
Qed.

Lemma iteration_result (FLAGS : Flags) (lw : dict R) (st : TrainingState)
    (batch : tensor4) :
  let i := wrap_int64 (step st + 1) in
  let r := iteration FLAGS lw st batch in
  match snd r with
  | Ok (st', stop) =>
      step_events (fst r) = iteration_trace FLAGS i /\
      step st' = i /\ stop = (train_batches FLAGS <=? i)%Z
  | Raise _ =>
      step_events (fst r) = [EvAssignAdd i] \/
      step_events (fst r) = iteration_trace FLAGS i
  end.
Proof. exact (iteration_steps FLAGS lw st batch). Qed.

Opaque iteration.

Lemma train_loop_steps (FLAGS : Flags) (lw : dict R) :
  (train_batches FLAGS < 2 ^ 63)%Z ->
  forall ds st,
    (-1 <= step st < 2 ^ 63 - 1)%Z ->
    exists k, (k <= length ds)%nat /\
      loop_post FLAGS (step st) (length ds) k (train_loop FLAGS lw ds st).
Proof.
  intros HT. induction ds as [|batch rest IH]; intros st Hs.
  - exists O. split; [lia|]. unfold loop_post. simpl.
    repeat split; [lia|]. left. auto.
  - simpl train_loop.
    assert (Hit := iteration_result FLAGS lw st batch).
    assert (Hfin := iteration_logs_finish FLAGS lw st batch).
    cbv zeta in Hit. rewrite wrap_int64_small in Hit, Hfin by lia.
    destruct (snd (iteration FLAGS lw st batch)) as [[st1 stop]|e] eqn:Hsnd.
    + destruct Hit as (Hev & Hst1 & Hstop).
      rewrite (bindM_ok _ _ _ Hsnd).
      destruct stop.
      * exists 1%nat. split; [simpl; lia|]. unfold loop_post. simpl.
        rewrite !app_nil_r, Hev, Hst1.
        symmetry in Hstop. apply Z.leb_le in Hstop.
        split; [now rewrite steps_trace_succ, app_nil_r|].
        split; [lia|]. right. split; [lia|]. split; [lia|]. split; [now left|].
        apply (Hfin st1 Hsnd).
      * symmetry in Hstop. apply Z.leb_gt in Hstop.
        destruct (IH st1 ltac:(lia)) as (k & Hk & Hpost).
        exists (S k). split; [simpl; lia|].
        unfold loop_post in *. simpl fst. simpl snd.
        rewrite step_events_app, Hev, steps_trace_succ, Hst1 in *.
        destruct (snd (train_loop FLAGS lw rest st1)) as [st'|e'].
        -- destruct Hpost as (Hev' & Hst' & Hend).
           split; [now rewrite Hev'|]. split; [lia|].
           destruct Hend as [(Hkn & Hlt)|(Hk0 & Hge & Hprev & l & Hl)].
           ++ left. split; [simpl; lia|]. right.
              destruct Hlt as [Hk0|Hlt]; [|exact Hlt]. subst k. lia.
           ++ right. split; [lia|]. split; [exact Hge|]. split.
              ** right. destruct Hprev as [Hk1|Hprev]; [|exact Hprev].
                 subst k. rewrite Hst'. simpl Z.of_nat. lia.
              ** exists (fst (iteration FLAGS lw st batch) ++ l).
                 now rewrite Hl, app_assoc.
        -- destruct Hpost as [Hev'|Hev']; rewrite Hev'; [now left|right].
           replace (step st + 1 + Z.of_nat (S k))%Z
             with (step st + 1 + 1 + Z.of_nat k)%Z by lia.
           now rewrite app_assoc.
    + rewrite (bindM_raise _ _ _ Hsnd). unfold loop_post. simpl fst. simpl snd.
      destruct Hit as [Hev|Hev]; rewrite Hev.
      * exists O. split; [lia|]. right. simpl. do 2 f_equal. lia.
      * exists 1%nat. split; [simpl; lia|]. left.
        now rewrite steps_trace_succ, app_nil_r.
Qed.

Transparent iteration.

Lemma trained_steps_filter (log : list event) :
  trained_steps (step_events log) = trained_steps log.
Proof.
  induction log as [|e log IH]; [reflexivity|].
  destruct e; simpl; rewrite ?IH; reflexivity.
Qed.

Lemma assigned_steps_filter (log : list event) :
  assigned_steps (step_events log) = assigned_steps log.
Proof.
  induction log as [|e log IH]; [reflexivity|].
  destruct e; simpl; rewrite ?IH; reflexivity.
Qed.

Lemma trained_steps_trace (FLAGS : Flags) (k : nat) :
  forall from, trained_steps (steps_trace FLAGS from k) = count_from from k.
Proof.
  induction k as [|k IH]; intros from; [reflexivity|].
  rewrite steps_trace_succ, count_from_succ. simpl. now rewrite IH.
Qed.

Lemma assigned_steps_trace (FLAGS : Flags) (k : nat) :
  forall from, assigned_steps (steps_trace FLAGS from k) = count_from from k.
Proof.
  induction k as [|k IH]; intros from; [reflexivity|].
  rewrite steps_trace_succ, count_from_succ. simpl. now rewrite IH.
Qed.

Lemma count_from_increasing (k : nat) :
  forall from, StronglySorted Z.lt ((from - 1)%Z :: count_from from k).
Proof.
  induction k as [|k IH]; intros from.
  - repeat constructor.
  - rewrite count_from_succ.
    specialize (IH (from + 1)%Z). replace (from + 1 - 1)%Z with from in IH by lia.
    constructor; [exact IH|].
    constructor; [lia|].
    apply StronglySorted_inv in IH. destruct IH as (_ & Hall).
    eapply Forall_impl; [|exact Hall]. simpl. intros; lia.
Qed.

Lemma train_unsupervised_cases (FLAGS : Flags) (ds : list tensor4) :
  (exists e,
     layer_loss_weights FLAGS = Raise e /\
     train_unsupervised FLAGS ds = ([], Raise e)) \/
  (exists lw,
     layer_loss_weights FLAGS = Ok lw /\
     let r := train_loop FLAGS lw ds (initial_state FLAGS lw) in
     (exists e, snd r = Raise e /\ train_unsupervised FLAGS ds = (fst r, Raise e))
     \/
     (exists st,
        snd r = Ok st /\
        train_unsupervised FLAGS ds
        = (fst r ++ [EvCheckpoint (step st)], Ok st))).
Proof.
  unfold train_unsupervised.
  destruct (layer_loss_weights FLAGS) as [lw|e]; [right|left].
  - exists lw. split; [reflexivity|]. cbv zeta.
    rewrite (bindM_ok (lift (Ok lw)) _ lw eq_refl). simpl fst. simpl snd.
    destruct (snd (train_loop FLAGS lw ds (initial_state FLAGS lw)))
      as [st|e] eqn:Hr; [right|left].
    + exists st. split; [reflexivity|].
      rewrite (bindM_ok _ _ st Hr). reflexivity.
    + exists e. split; [reflexivity|].
      now rewrite (bindM_raise _ _ e Hr).
  - exists e. split; reflexivity.
Qed.

Lemma trained_steps_app (l1 l2 : list event) :
  trained_steps (l1 ++ l2) = trained_steps l1 ++ trained_steps l2.
Proof. apply flat_map_app. Qed.

Lemma assigned_steps_app (l1 l2 : list event) :
  assigned_steps (l1 ++ l2) = assigned_steps l1 ++ assigned_steps l2.
Proof. apply flat_map_app. Qed.

(** The step events of a whole run. *)
Lemma run_steps (FLAGS : Flags) (ds : list tensor4) :
  (train_batches FLAGS < 2 ^ 63)%Z ->
  let run := train_unsupervised FLAGS ds in
  exists k, (k <= length ds)%nat /\
    (step_events (fst run) = steps_trace FLAGS 0 k \/
     (step_events (fst run) = steps_trace FLAGS 0 k ++ [EvAssignAdd (Z.of_nat k)]
      /\ fails run)) /\
    forall st, snd run = Ok st ->
      step st = (-1 + Z.of_nat k)%Z /\
      step_events (fst run) = steps_trace FLAGS 0 k /\
      ((k = length ds /\ (k = O \/ (step st < train_batches FLAGS)%Z)) \/
       ((0 < k)%nat /\ (train_batches FLAGS <= step st)%Z /\
        (k = 1%nat \/ (step st - 1 < train_batches FLAGS)%Z) /\
        exists l, fst run = l ++ [EvLogFinished (step st); EvCheckpoint (step st)]
                  /\ trained_steps l = trained_steps (fst run))).
Proof.
  intros HT run. unfold run.
  destruct (train_unsupervised_cases FLAGS ds)
    as [(e & _ & ->)|(lw & _ & [(e & Hr & ->)|(st & Hr & ->)])].
  - exists O. split; [lia|]. split; [now left|]. intros st H. discriminate.
  - destruct (train_loop_steps FLAGS lw HT ds (initial_state FLAGS lw))
      as (k & Hk & Hpost); [simpl; lia|].
    unfold loop_post in Hpost. rewrite Hr in Hpost. simpl in Hpost.
    exists k. split; [exact Hk|]. simpl fst. simpl snd.
    split; [|intros st H; discriminate].
    destruct Hpost as [-> | ->]; [now left|right]. split; reflexivity.
  - destruct (train_loop_steps FLAGS lw HT ds (initial_state FLAGS lw))
      as (k & Hk & Hpost); [simpl; lia|].
    unfold loop_post in Hpost. rewrite Hr in Hpost. simpl in Hpost.
    destruct Hpost as (Hev & Hst & Hend).
    exists k. split; [exact Hk|]. simpl fst. simpl snd.
    rewrite step_events_app, Hev. simpl. rewrite app_nil_r.
    split; [now left|].
    intros st' H. injection H as <-. split; [exact Hst|].
    split; [reflexivity|].
    destruct Hend as [Hend|(Hk0 & Hge & Hprev & l & Hl)]; [now left|right].
    split; [exact Hk0|]. split; [exact Hge|]. split; [exact Hprev|].
    exists l. rewrite Hl, <- app_assoc. split; [reflexivity|].
    rewrite !trained_steps_app. simpl. now rewrite !app_nil_r.
Qed.

(** C7: the step counter starts at -1; every iteration increments it
    exactly once, before the training step for that batch runs, so the
    increments and the training steps alternate with the steps
    0, 1, 2, ...; the counter never decreases, and the first training
    step run has step index 0.  One pass through the loop body assigns
    the counter exactly once, to its successor, and starts the training
    step only after that and at that index.  The number [k] of
    iterations that reached their training step is the number of batches
    the loop took: all of them, unless the run raised or the loop broke
    at [train_batches]. *)
Theorem step_counter_counts_iterations (FLAGS : Flags) (ds : list tensor4) :
  (train_batches FLAGS < 2 ^ 63)%Z ->
  let log := fst (train_unsupervised FLAGS ds) in
  (forall lw, step (initial_state FLAGS lw) = (-1)%Z) /\
  (forall lw st batch,
     let i := wrap_int64 (step st + 1) in
     let r := iteration FLAGS lw st batch in
     assigned_steps (fst r) = [i] /\
     ((step_events (fst r) = [EvAssignAdd i] /\ fails r) \/
      step_events (fst r) = iteration_trace FLAGS i) /\
     (forall st' stop, snd r = Ok (st', stop) ->
        step st' = i /\ step_events (fst r) = iteration_trace FLAGS i) /\
     ((-1 <= step st < 2 ^ 63 - 1)%Z -> i = (step st + 1)%Z)) /\
  exists k, (k <= length ds)%nat /\
    (step_events log = steps_trace FLAGS 0 k \/
     step_events log = steps_trace FLAGS 0 k ++ [EvAssignAdd (Z.of_nat k)]) /\
    trained_steps log = count_from 0 k /\
    (assigned_steps log = count_from 0 k \/
     assigned_steps log = count_from 0 (S k)) /\
    StronglySorted Z.lt ((-1)%Z :: assigned_steps log) /\
    (forall s rest, trained_steps log = s :: rest -> s = 0%Z) /\
    (forall st, snd (train_unsupervised FLAGS ds) = Ok st ->
       step st = (-1 + Z.of_nat k)%Z) /\
    (forall st, snd (train_unsupervised FLAGS ds) = Ok st ->
       k = Nat.min (length ds) (S (Z.to_nat (train_batches FLAGS))) /\
       assigned_steps log = count_from 0 k) /\
    ((k < length ds)%nat ->
     fails (train_unsupervised FLAGS ds) \/
     (train_batches FLAGS < Z.of_nat k)%Z).
Proof.
  intros HT log. split; [reflexivity|]. split.
  { intros lw st batch. cbv zeta.
    assert (Hit := iteration_result FLAGS lw st batch). cbv zeta in Hit.
    assert (Hev : (step_events (fst (iteration FLAGS lw st batch))
                   = [EvAssignAdd (wrap_int64 (step st + 1))]
                   /\ fails (iteration FLAGS lw st batch)) \/
                  step_events (fst (iteration FLAGS lw st batch))
                  = iteration_trace FLAGS (wrap_int64 (step st + 1))).
    { unfold fails.
      destruct (snd (iteration FLAGS lw st batch)) as [[st' stop]|e].
      - right. exact (proj1 Hit).
      - destruct Hit as [Hit|Hit]; [left; split; [exact Hit|reflexivity]|].
        right. exact Hit. }
    split; [|split; [exact Hev|split]].
    - rewrite <- assigned_steps_filter.
      destruct Hev as [(-> & _)| ->]; reflexivity.
    - intros st' stop Hr. rewrite Hr in Hit.
      destruct Hit as (Htrace & Hstep & _). split; assumption.
    - intros Hs. apply wrap_int64_small. lia. }
  destruct (run_steps FLAGS ds HT) as (k & Hk & Hev & Hok).
  fold log in Hev.
  assert (Htr : trained_steps log = count_from 0 k).
  { rewrite <- trained_steps_filter.
    destruct Hev as [-> | (-> & _)]; rewrite ?trained_steps_app,
      trained_steps_trace; simpl; now rewrite ?app_nil_r. }
  assert (Has : assigned_steps log = count_from 0 k \/
                assigned_steps log = count_from 0 (S k)).
  { rewrite <- assigned_steps_filter.
    destruct Hev as [-> | (-> & _)]; [left|right].
    - apply assigned_steps_trace.
    - now rewrite assigned_steps_app, assigned_steps_trace, count_from_last. }
  exists k. split; [exact Hk|]. split; [tauto|]. split; [exact Htr|].
  split; [exact Has|]. split; [|split; [|split; [|split]]].
  - destruct Has as [->| ->]; apply (count_from_increasing _ 0%Z).
  - intros s rest Hs. rewrite Htr in Hs.
    destruct k as [|k]; [discriminate|].
    rewrite count_from_succ in Hs. now injection Hs as <- _.
  - intros st Hst. now apply Hok.
  - intros st Hst. destruct (Hok st Hst) as (Hstep & Htrace & Hend). split.
    + destruct Hend as [(Hkn & Hlt)|(Hk0 & Hge & Hprev & _)]; lia.
    + rewrite <- assigned_steps_filter. fold log in Htrace. rewrite Htrace.
      apply assigned_steps_trace.
  - intros Hlt.
    destruct (snd (train_unsupervised FLAGS ds)) as [st|e] eqn:Hrun.
    + right. destruct (Hok st eq_refl) as (Hstep & _ & Hend).
      destruct Hend as [(Hkn & _)|(Hk0 & Hge & _)]; lia.
    + left. unfold fails. now rewrite Hrun.
Qed.


Lemma train_loop_cons (FLAGS : Flags) (lw : dict R) (batch : tensor4)
    (rest : list tensor4) (st : TrainingState) :
  train_loop FLAGS lw (batch :: rest) st
  = bindM (iteration FLAGS lw st batch)
      (fun '(st, stop) => if stop then ret st
                          else train_loop FLAGS lw rest st).
Proof. reflexivity. Qed.

Lemma fails_bind {A B : Type} (m : M A) (k : A -> M B) :
  (forall a, snd m = Ok a -> fails (k a)) -> fails (bindM m k).
Proof.
  intros H. unfold fails, bindM in *.
  destruct (snd m) as [a|e]; simpl; [now apply H|reflexivity].
Qed.

Lemma iteration_fails_unbound (FLAGS : Flags) (lw : dict R)
    (st : TrainingState) (batch : tensor4) :
  layer_metrics st = None -> fails (iteration FLAGS lw st batch).
Proof.
  intros Hm. unfold iteration. cbv zeta.
  do 3 (apply fails_bind; intros ? _).
  apply fails_bind. intros st1 Hst1.
  assert (H1 : layer_metrics st1 = None).
  { destruct (truthy_int (learning_rate_warmup_batches FLAGS));
      unfold bindM, emit_all, ret in Hst1;
      simpl in Hst1; injection Hst1 as <-; exact Hm. }
  apply fails_bind. intros st2 Hst2.
  assert (H2 : layer_metrics st2 = None).
  { destruct (truthy_int (band_dropout_rate_warmup_batches FLAGS));
      unfold bindM, emit_all, ret in Hst2;
      simpl in Hst2; injection Hst2 as <-; exact H1. }
  do 2 (apply fails_bind; intros ? _).
  apply fails_bind. intros r Hr. exfalso.
  match type of Hr with
  | snd (lift (train_step ?F ?l ?s ?b ?d ?sh ?rec)) = _ =>
      destruct (train_step_unbound_metrics F l s b d sh rec H2) as ((e & He) & _);
      change (train_step F l s b d sh rec = Ok r) in Hr
  end.
  rewrite He in Hr. discriminate.
Qed.

(** C1, the failing configuration: with [summary_frequency = 0] the two
    metric names are never bound, so no training step can complete and a
    run over a non-empty stream raises during its first iteration,
    without having saved a checkpoint. *)
Theorem training_fails_without_summaries (FLAGS : Flags) :
  summary_frequency FLAGS = 0%Z ->
  (forall lw,
     layer_metrics (initial_state FLAGS lw) = None /\
     total_loss_metric (initial_state FLAGS lw) = None) /\
  (forall lw st batch dropout_rate show_summaries recording,
     layer_metrics st = None ->
     exists e,
       train_step FLAGS lw st batch dropout_rate show_summaries recording
       = Raise e) /\
  (forall batch rest,
     fails (train_unsupervised FLAGS (batch :: rest)) /\
     (trained_steps (fst (train_unsupervised FLAGS (batch :: rest))) = [] \/
      trained_steps (fst (train_unsupervised FLAGS (batch :: rest))) = [0%Z])).
Proof.
  intros Hsf. split; [|split].
  - intros lw. unfold initial_state. rewrite Hsf. simpl. auto.
  - intros lw st batch dropout_rate show_summaries recording Hm.
    now apply train_step_unbound_metrics.
  - intros batch rest.
    assert (Hfail : fails (train_unsupervised FLAGS (batch :: rest))).
    { unfold train_unsupervised. apply fails_bind. intros lw _.
      apply fails_bind. intros st Hst. exfalso.
      rewrite train_loop_cons in Hst.
      assert (Hit : fails (iteration FLAGS lw (initial_state FLAGS lw) batch)).
      { apply iteration_fails_unbound. unfold initial_state.
        rewrite Hsf. reflexivity. }
      unfold fails in Hit. unfold bindM in Hst.
      destruct (snd (iteration FLAGS lw (initial_state FLAGS lw) batch));
        simpl in *; discriminate. }
    split; [exact Hfail|].
    destruct (train_unsupervised_cases FLAGS (batch :: rest))
      as [(e & _ & ->)|(lw & _ & [(e & Hr & ->)|(st & Hr & Hrun)])].
    + now left.
    + cbn [fst]. rewrite train_loop_cons.
      assert (Hit := iteration_result FLAGS lw (initial_state FLAGS lw) batch).
      assert (Hf := iteration_fails_unbound FLAGS lw (initial_state FLAGS lw)
                      batch).
      unfold fails in Hf. unfold initial_state at 1 in Hf. rewrite Hsf in Hf.
      specialize (Hf eq_refl). cbv zeta in Hit.
      destruct (snd (iteration FLAGS lw (initial_state FLAGS lw) batch))
        as [a|e'] eqn:Hsnd; [discriminate|].
      rewrite (bindM_raise _ _ _ Hsnd). cbn [fst].
      rewrite <- trained_steps_filter.
      destruct Hit as [-> | ->]; [now left|right]. reflexivity.
    + exfalso. unfold fails in Hfail. rewrite Hrun in Hfail. discriminate.
Qed.

(** ** More on the contrastive loss *)

Lemma Rsum_bounds (l : list R) :
  Forall (fun x => 0 <= x <= 1) l -> 0 <= Rsum l <= INR (length l).
Proof.
  induction 1 as [|x l Hx _ IH].
  - simpl. lra.
  - change (Rsum (x :: l)) with (x + Rsum l).
    change (length (x :: l)) with (S (length l)). rewrite S_INR. lra.
Qed.

Lemma reduce_mean_bounds (l : list R) :
  Forall (fun x => 0 <= x <= 1) l -> 0 <= tf.reduce_mean l <= 1.
Proof.
  intros H. unfold tf.reduce_mean. destruct l as [|x l].
  - simpl. unfold Rdiv. rewrite Rmult_0_l. lra.
  - assert (Hb := Rsum_bounds _ H).
    assert (Hn : 0 < INR (length (x :: l))) by (apply lt_0_INR; simpl; lia).
    split.
    + apply Rmult_le_pos; [lra|]. left. now apply Rinv_0_lt_compat.
    + apply Rmult_le_reg_r with (INR (length (x :: l))); [exact Hn|].
      unfold Rdiv. rewrite Rmult_assoc, Rinv_l by lra. lra.
Qed.

Lemma bool_to_float_bounds (b : bool) : 0 <= bool_to_float b <= 1.
Proof. destruct b; simpl; lra. Qed.

Lemma batch_accuracy_bounds (FLAGS : Flags) (m : matrix) (acc : R) :
  batch_accuracy FLAGS m = Ok acc -> 0 <= acc <= 1.
Proof.
  unfold batch_accuracy, tf.equal_as_float.
  destruct (_ =? _)%nat; simpl; [|discriminate].
  intros H. injection H as <-. apply reduce_mean_bounds.
  rewrite Forall_map. apply Forall_forall. intros p _.
  apply bool_to_float_bounds.
Qed.

(** X1: The accuracy [_contrastive_loss] returns is a fraction: it lies
    between 0 and 1 whenever the call returns. *)
Theorem contrastive_accuracy_is_a_fraction (FLAGS : Flags) (r1 r2 : tensor4)
    (show_summaries : bool) (loss acc : R) (plotted : list summary) :
  _contrastive_loss FLAGS r1 r2 show_summaries = Ok (loss, acc, plotted) ->
  0 <= acc <= 1.
Proof.
  unfold _contrastive_loss.
  destruct (similarities FLAGS r1 r2) as [[flat_1 sims]|]; simpl; [|discriminate].
  destruct (batch_accuracy FLAGS _) as [a|] eqn:Ha; simpl; [|discriminate].
  intros H. injection H as _ <- _. exact (batch_accuracy_bounds _ _ _ Ha).
Qed.

Lemma sum_below_term (n : nat) (f : nat -> R) (i : nat) :
  (forall k, 0 <= f k) -> (i < n)%nat -> f i <= sum_below n f.
Proof.
  intros Hf. unfold sum_below. revert i.
  induction n as [|n IH]; intros i Hi; [lia|].
  rewrite seq_S, map_app. simpl.
  assert (Hsum : forall l, Rsum (l ++ [f n]) = Rsum l + f n).
  { induction l as [|x l IHl]; simpl; [lra|]. rewrite IHl. lra. }
  rewrite Hsum.
  assert (Hpos : 0 <= Rsum (map f (seq 0 n))).
  { clear IH Hi. induction (seq 0 n) as [|x l IHl]; simpl; [lra|].
    specialize (Hf x). lra. }
  destruct (Nat.eq_dec i n) as [->|Hne].
  - lra.
  - specialize (IH i ltac:(lia)). specialize (Hf n). lra.
Qed.

Lemma sum_below_nonpositive (n : nat) (f : nat -> R) :
  (forall i, (i < n)%nat -> f i <= 0) -> sum_below n f <= 0.
Proof.
  unfold sum_below. induction n as [|n IH]; intros H; simpl; [lra|].
  rewrite <- seq_shift, map_map. simpl.
  assert (H0 := H 0%nat ltac:(lia)).
  assert (Hrest : Rsum (map (fun x => f (S x)) (seq 0 n)) <= 0).
  { clear IH H0. revert H. generalize f. clear f.
    induction n as [|n IHn]; intros f H; simpl; [lra|].
    rewrite <- seq_shift, map_map.
    assert (H1 := H 1%nat ltac:(lia)).
    assert (Hr := IHn (fun x => f (S x)) ltac:(intros i Hi; apply H; lia)).
    simpl in *. lra. }
  lra.
Qed.

Lemma log_softmax_diag_nonpositive (n : nat) (x : R) (f : nat -> R) (i : nat) :
  (i < n)%nat -> f i = x -> x - ln (sum_below n (fun k => exp (f k))) <= 0.
Proof.
  intros Hi Hx.
  assert (Hle : exp x <= sum_below n (fun k => exp (f k))).
  { rewrite <- Hx. apply (sum_below_term n (fun k => exp (f k)) i); [|exact Hi].
    intros k. left. apply exp_pos. }
  assert (Hpos := exp_pos x).
  destruct Hle as [Hlt|Heq].
  - assert (H := ln_increasing _ _ Hpos Hlt). rewrite ln_exp in H. lra.
  - rewrite <- Heq, ln_exp. lra.
Qed.

Lemma forward_loss_nonnegative (n : nat) (S : nat -> nat -> R) :
  (0 < n)%nat -> 0 <= forward_loss n S.
Proof.
  intros Hn. unfold forward_loss.
  assert (Hs : sum_below n (row_log_softmax_diag n S) <= 0).
  { apply sum_below_nonpositive. intros i Hi. unfold row_log_softmax_diag.
    now apply (log_softmax_diag_nonpositive n (S i i) (fun k => S i k) i). }
  assert (Hi : 0 < / INR n) by (apply Rinv_0_lt_compat, lt_0_INR; lia).
  unfold Rdiv. nra.
Qed.

Lemma backward_loss_nonnegative (n : nat) (S : nat -> nat -> R) :
  (0 < n)%nat -> 0 <= backward_loss n S.
Proof.
  intros Hn. unfold backward_loss.
  assert (Hs : sum_below n (column_log_softmax_diag n S) <= 0).
  { apply sum_below_nonpositive. intros i Hi. unfold column_log_softmax_diag.
    now apply (log_softmax_diag_nonpositive n (S i i) (fun k => S k i) i). }
  assert (Hi : 0 < / INR n) by (apply Rinv_0_lt_compat, lt_0_INR; lia).
  unfold Rdiv. nra.
Qed.

(** X2: For a non-zero softmax temperature the total loss
    [_contrastive_loss] returns is never negative: both the forward and
    the backward term are negated means of log-softmax values. *)
Theorem contrastive_loss_nonnegative (FLAGS : Flags) (r1 r2 : tensor4)
    (show_summaries : bool) (loss acc : R) (plotted : list summary) :
  softmax_temperature FLAGS <> 0 ->
  _contrastive_loss FLAGS r1 r2 show_summaries = Ok (loss, acc, plotted) ->
  0 <= loss.
Proof.
  intros _. unfold _contrastive_loss.
  destruct (similarities_swap FLAGS r1 r2)
    as [(e & -> & _)|(A & B & -> & _ & HA & HB & Hn)]; simpl; [discriminate|].
  destruct (batch_accuracy FLAGS _) as [a|]; simpl; [|discriminate].
  intros H. injection H as <- _ _.
  assert (Hsq : square (batch_size FLAGS)
                  (tf.divide (gram A B) (softmax_temperature FLAGS)))
    by (apply divide_square, gram_square; assumption).
  rewrite (forward_of_square _ _ Hsq), (backward_of_square _ _ Hsq).
  assert (H1 := forward_loss_nonnegative (batch_size FLAGS)
                  (entry (tf.divide (gram A B) (softmax_temperature FLAGS))) Hn).
  assert (H2 := backward_loss_nonnegative (batch_size FLAGS)
                  (entry (tf.divide (gram A B) (softmax_temperature FLAGS))) Hn).
  lra.
Qed.

Lemma Rsum_ones (l : list nat) :
  Rsum (map (fun _ => 1) l) = INR (length l).
Proof.
  induction l as [|x l IH]; [reflexivity|].
  change (Rsum (map (fun _ => 1) (x :: l))) with (1 + Rsum (map (fun _ => 1) l)).
  change (length (x :: l)) with (S (length l)). rewrite S_INR, IH. lra.
Qed.

(** X3: When, in every column of the scaled similarity matrix, the diagonal
    entry is strictly larger than every other entry, the accuracy is 1. *)
Theorem dominant_diagonal_gives_full_accuracy (FLAGS : Flags) (d : nat)
    (r1 r2 : tensor4) (show_summaries : bool) :
  let n := batch_size FLAGS in
  (0 < n)%nat -> batch_of n d r1 -> batch_of n d r2 ->
  (forall i j, (i < n)%nat -> (j < n)%nat -> i <> j ->
     scaled_similarity FLAGS r1 r2 i j < scaled_similarity FLAGS r1 r2 j j) ->
  result_map accuracy_of (_contrastive_loss FLAGS r1 r2 show_summaries) = Ok 1.
Proof.
  intros n Hn H1 H2 Hdom.
  destruct (contrastive_loss_value FLAGS d r1 r2 show_summaries Hn H1 H2)
    as (plotted & Hv & Hsq & Hentry).
  rewrite Hv. unfold result_map, accuracy_of. simpl. f_equal.
  rewrite (map_ext_in _ (fun _ => 1)).
  - unfold tf.reduce_mean. rewrite Rsum_ones, length_map, length_seq.
    apply Rinv_r. apply not_0_INR. fold n. lia.
  - intros j Hj. apply in_seq in Hj.
    assert (Hc : (tf.argmax_list
                    (tf.column j
                       (tf.divide (gram (map tf.flatten3 r1) (map tf.flatten3 r2))
                          (softmax_temperature FLAGS))) =? j)%nat = true).
    { apply (column_correct n _ j Hsq); [fold n in Hj; lia|].
      split.
      - intros i Hi. rewrite !Hentry by (fold n; lia).
        destruct (Nat.eq_dec i j) as [->|Hne]; [lra|].
        left. apply Hdom; fold n; lia.
      - intros i Hi. rewrite !Hentry by (fold n; lia).
        apply Hdom; fold n; lia. }
    rewrite Hc. reflexivity.
Qed.

Lemma flatten4_length (n d : nat) (r : tensor4) :
  batch_of n d r -> length (tf.flatten4 r) = (n * d)%nat.
Proof.
  intros (Hl & Hd). unfold tf.flatten4.
  rewrite (concat_length_uniform d) by now rewrite Forall_map.
  now rewrite length_map, Hl.
Qed.

(** X4: [_contrastive_loss] rejects representations it cannot pair up: a
    representation whose element count is not a multiple of the batch
    size, and two representations with different numbers of values per
    batch element, raise [InvalidArgumentError]. *)
Theorem contrastive_loss_rejects_bad_shapes (FLAGS : Flags) (r1 r2 : tensor4)
    (show_summaries : bool) :
  let n := batch_size FLAGS in
  ((length (tf.flatten4 r1) mod n <> 0)%nat \/
   (length (tf.flatten4 r2) mod n <> 0)%nat ->
   _contrastive_loss FLAGS r1 r2 show_summaries = Raise InvalidArgumentError) /\
  (forall d1 d2,
     (0 < n)%nat -> batch_of n d1 r1 -> batch_of n d2 r2 -> d1 <> d2 ->
     _contrastive_loss FLAGS r1 r2 show_summaries = Raise InvalidArgumentError).
Proof.
  intros n. split.
  - intros Hbad. unfold _contrastive_loss, similarities, tf.reshape. fold n.
    destruct n as [|n']; [reflexivity|].
    destruct (Nat.eqb_spec (length (tf.flatten4 r1) mod S n') 0) as [H1|H1];
      [|reflexivity].
    destruct (Nat.eqb_spec (length (tf.flatten4 r2) mod S n') 0) as [H2|H2];
      [|reflexivity].
    destruct Hbad; contradiction.
  - intros d1 d2 Hn H1 H2 Hd. subst n.
    unfold _contrastive_loss, similarities.
    rewrite (reshape_batch _ d1 r1 H1 Hn), (reshape_batch _ d2 r2 H2 Hn). simpl.
    unfold tf.matmul_transpose_b.
    destruct H1 as (Hl1 & Hd1), H2 as (Hl2 & Hd2).
    rewrite (n_cols_uniform d1 (map tf.flatten3 r1)),
            (n_cols_uniform d2 (map tf.flatten3 r2));
      try (rewrite length_map; lia); try now rewrite Forall_map.
    destruct (Nat.eqb_spec d1 d2); [contradiction|reflexivity].
Qed.

(** ** More on the layer loss weights *)

Lemma dict_set_keys {V : Type} (d : dict V) (k : string) (v : V) :
  forall k', In k' (map fst (dict_set d k v)) <-> k' = k \/ In k' (map fst d).
Proof.
  clear - d k v.
  induction d as [|[k0 v0] rest IH]; intros k'; simpl.
  - intuition congruence.
  - destruct (String.eqb_spec k0 k) as [->|Hne]; simpl.
    + intuition congruence.
    + rewrite IH. intuition congruence.
Qed.

Lemma dict_set_NoDup {V : Type} (d : dict V) (k : string) (v : V) :
  NoDup (map fst d) -> NoDup (map fst (dict_set d k v)).
Proof.
  clear - d k v.
  induction d as [|[k0 v0] rest IH]; intros H; simpl.
  - repeat constructor. intros [].
  - destruct (String.eqb_spec k0 k) as [->|Hne]; simpl; [exact H|].
    inversion H as [|? ? Hnotin Hrest]; subst. constructor.
    + rewrite dict_set_keys. intros [Heq|Hin]; [congruence|contradiction].
    + now apply IH.
Qed.

Lemma dict_set_length {V : Type} (d : dict V) (k : string) (v : V) :
  (length (dict_set d k v) <= S (length d))%nat.
Proof.
  induction d as [|[k0 v0] rest IH]; simpl; [lia|].
  destruct (String.eqb k0 k); simpl; lia.
Qed.

Lemma parse_from_keys (values : list string) :
  forall acc d,
    _parse_layer_loss_weights_from acc values = Ok d ->
    NoDup (map fst acc) ->
    (forall k, In k (map fst acc) -> In k RESNET_REPRESENTATION_LAYERS) ->
    NoDup (map fst d) /\
    (forall k, In k (map fst d) -> In k RESNET_REPRESENTATION_LAYERS) /\
    (length d <= length acc + length values)%nat.
Proof.
  clear - values.
  induction values as [|value rest IH]; intros acc d H Hnd Hsub; simpl in H.
  - injection H as <-. repeat split; [assumption|assumption|lia].
  - destruct (split ":" value) as [|name [|weight [|]]]; try discriminate.
    destruct (existsb _ _) eqn:Hk; [|discriminate].
    destruct (float weight) as [x|]; [|discriminate].
    apply known_layer in Hk.
    destruct (IH _ _ H (dict_set_NoDup acc name x Hnd)) as (H1 & H2 & H3).
    + intros k Hin. apply dict_set_keys in Hin.
      destruct Hin as [->|Hin]; [exact Hk|now apply Hsub].
    + repeat split; [assumption|assumption|].
      assert (Hl := dict_set_length acc name x). simpl. lia.
Qed.

(** X5: The parsed layer loss weights form a dictionary over the encoder's
    representation layers: no layer appears twice, every key is a
    representation layer, and there are at most as many keys as flag
    entries. *)
Theorem parsed_weights_are_a_dictionary (values : list string) (d : dict R) :
  _parse_layer_loss_weights values = Ok d ->
  NoDup (map fst d) /\
  (forall k, In k (map fst d) -> In k RESNET_REPRESENTATION_LAYERS) /\
  (length d <= length values)%nat.
Proof.
  intros H. apply (parse_from_keys values [] d H).
  - constructor.
  - intros k [].
Qed.

(** ** More on views *)

Lemma map4_shape (s : nat * nat * nat * nat) (f : R -> R) (x : tensor4) :
  has_shape s x -> has_shape s (tf.map4 f x).
Proof.
  destruct s as [[[s0 s1] s2] s3]. intros (H0 & Himg). split; unfold tf.map4.
  - now rewrite length_map.
  - rewrite Forall_map. eapply Forall_impl; [|exact Himg].
    intros img (H1 & Hrow). split; [now rewrite length_map|].
    rewrite Forall_map. eapply Forall_impl; [|exact Hrow].
    intros row (H2 & Hpx). split; [now rewrite length_map|].
    rewrite Forall_map. eapply Forall_impl; [|exact Hpx].
    intros px H3. simpl. now rewrite length_map.
Qed.

Lemma contrast_shape (s : nat * nat * nat * nat) (lower upper u : R)
    (x y : tensor4) :
  has_shape s x -> tf.image_random_contrast x lower upper u = Ok y ->
  has_shape s y.
Proof.
  destruct s as [[[s0 s1] s2] s3]. intros (H0 & Himg).
  unfold tf.image_random_contrast.
  destruct (Rle_dec upper lower); [discriminate|].
  destruct (Rlt_dec lower 0); [discriminate|].
  intros H. injection H as <-. split.
  - now rewrite length_map.
  - rewrite Forall_map. eapply Forall_impl; [|exact Himg].
    intros img (H1 & Hrow). split; [now rewrite length_map|].
    rewrite Forall_map. eapply Forall_impl; [|exact Hrow].
    intros row (H2 & Hpx). split; [now rewrite length_map|].
    rewrite Forall_map. eapply Forall_impl; [|exact Hpx].
    intros px H3. simpl. unfold mapi. now rewrite mapi_from_length.
Qed.

Lemma brightness_shape (s : nat * nat * nat * nat) (delta u : R)
    (x y : tensor4) :
  has_shape s x -> tf.image_random_brightness x delta u = Ok y ->
  has_shape s y.
Proof.
  intros Hx. unfold tf.image_random_brightness.
  destruct (Rlt_dec delta 0); [discriminate|].
  intros H. injection H as <-. now apply map4_shape.
Qed.

Lemma dropout_shape (s0 s1 s2 s3 : nat) (p : R) (u : nat -> nat -> R)
    (nb nc : nat) (x y : tensor4) :
  has_shape (s0, s1, s2, s3) x -> tf.nn_dropout x p nb nc u = Ok y ->
  has_shape (s0, s1, s2, s3) y.
Proof.
  intros Hx. unfold tf.nn_dropout.
  destruct (_ && _)%bool; [|discriminate].
  intros H. injection H as <-. now apply per_band_shape.
Qed.

Lemma crop_too_large (B Td Tm C : nat) (scene : tensor4)
    (u : nat * nat * nat * nat) :
  (0 < B)%nat -> (0 < Td)%nat -> (Td < Tm)%nat ->
  has_shape (B, Td, Td, C) scene ->
  tf.image_random_crop scene (B, Tm, Tm, C) u = Raise InvalidArgumentError.
Proof.
  intros HB HTd HT Hx. unfold tf.image_random_crop.
  rewrite (shape4_of_has_shape _ _ _ _ scene HB HTd HTd Hx).
  destruct u as [[[u0 u1] u2] u3].
  replace (Tm <=? Td)%nat with false by (symmetry; apply Nat.leb_gt; lia).
  rewrite Nat.leb_refl. reflexivity.
Qed.

(** X6: Every view has the shape the model takes: on a batch of data tiles,
    whatever augmentation is configured, a view that [_create_view]
    returns has shape [input_shape()]. *)
Theorem view_has_input_shape (FLAGS : Flags) (rng : Z -> ViewNoise)
    (scene : tensor4) (step : Z) (p : R) (seed : option Z) (view : tensor4) :
  (0 < batch_size FLAGS)%nat -> (0 < data_tilesize FLAGS)%nat ->
  has_shape (batch_size FLAGS, data_tilesize FLAGS, data_tilesize FLAGS,
             n_bands FLAGS) scene ->
  _create_view FLAGS rng scene step p seed = Ok view ->
  has_shape (input_shape FLAGS) view.
Proof.
  intros HB HTd Hx. unfold _create_view, input_shape.
  set (noise := rng (effective_seed FLAGS seed)).
  set (B := batch_size FLAGS) in *. set (C := n_bands FLAGS) in *.
  set (Td := data_tilesize FLAGS) in *. set (Tm := model_tilesize FLAGS) in *.
  assert (H1 : forall s1,
            (if (Tm =? Td)%nat then Ok scene
             else tf.image_random_crop scene (B, Tm, Tm, C) (crop_uniform noise))
            = Ok s1 -> has_shape (B, Tm, Tm, C) s1).
  { intros s1. destruct (Nat.eqb_spec Tm Td) as [Heq|Hne].
    - intros H. injection H as <-. now rewrite Heq.
    - destruct (Nat.le_gt_cases Tm Td) as [Hle|Hgt].
      + destruct (crop_uniform noise) as [[[u0 u1] u2] u3].
        rewrite (crop_of_batch B Td Tm C scene u0 u1 u2 u3 HB HTd Hle Hx).
        intros H. injection H as <-.
        apply (crop_shape B Td Tm C); [| |exact Hx].
        * assert (Hm := Nat.mod_upper_bound u1 (Td - Tm + 1)). lia.
        * assert (Hm := Nat.mod_upper_bound u2 (Td - Tm + 1)). lia.
      + rewrite (crop_too_large B Td Tm C scene _ HB HTd Hgt Hx). discriminate. }
  destruct (if (Tm =? Td)%nat then _ else _) as [s1|]; simpl; [|discriminate].
  specialize (H1 s1 eq_refl).
  assert (H2 : forall s2,
            (if truthy_float (random_brightness_delta FLAGS)
             then match random_brightness_delta FLAGS with
                  | Some delta =>
                      tf.image_random_brightness s1 delta
                        (brightness_uniform noise)
                  | None => Ok s1
                  end
             else Ok s1) = Ok s2 -> has_shape (B, Tm, Tm, C) s2).
  { intros s2. destruct (truthy_float _).
    - destruct (random_brightness_delta FLAGS).
      + now apply brightness_shape.
      + intros H. injection H as <-. exact H1.
    - intros H. injection H as <-. exact H1. }
  destruct (if truthy_float (random_brightness_delta FLAGS) then _ else _)
    as [s2|]; simpl; [|discriminate].
  specialize (H2 s2 eq_refl).
  assert (H3 : forall s3,
            (if truthy_float (random_contrast_delta FLAGS)
             then match random_contrast_delta FLAGS with
                  | Some delta =>
                      tf.image_random_contrast s2 (1 - delta) (1 + delta)
                        (contrast_uniform noise)
                  | None => Ok s2
                  end
             else Ok s2) = Ok s3 -> has_shape (B, Tm, Tm, C) s3).
  { intros s3. destruct (truthy_float _).
    - destruct (random_contrast_delta FLAGS).
      + now apply contrast_shape.
      + intros H. injection H as <-. exact H2.
    - intros H. injection H as <-. exact H2. }
  destruct (if truthy_float (random_contrast_delta FLAGS) then _ else _)
    as [s3|]; simpl; [|discriminate].
  specialize (H3 s3 eq_refl).
  now apply dropout_shape.
Qed.

(** X7: A model tile larger than the data tile cannot be cropped: every view
    of a batch of data tiles raises [InvalidArgumentError]. *)
Theorem view_larger_than_data_is_rejected (FLAGS : Flags)
    (rng : Z -> ViewNoise) (scene : tensor4) (step : Z) (p : R)
    (seed : option Z) :
  (0 < batch_size FLAGS)%nat -> (0 < data_tilesize FLAGS)%nat ->
  (data_tilesize FLAGS < model_tilesize FLAGS)%nat ->
  has_shape (batch_size FLAGS, data_tilesize FLAGS, data_tilesize FLAGS,
             n_bands FLAGS) scene ->
  _create_view FLAGS rng scene step p seed = Raise InvalidArgumentError.
Proof.
  intros HB HTd HT Hx. unfold _create_view, input_shape.
  destruct (Nat.eqb_spec (model_tilesize FLAGS) (data_tilesize FLAGS)); [lia|].
  now rewrite (crop_too_large _ _ _ _ scene _ HB HTd HT Hx).
Qed.

(** ** More on the training step *)

Lemma contrastive_loss_any_summaries (FLAGS : Flags) (r1 r2 : tensor4)
    (show_summaries : bool) :
  result_map fst (_contrastive_loss FLAGS r1 r2 show_summaries)
  = result_map fst (_contrastive_loss FLAGS r1 r2 false).
Proof.
  destruct show_summaries; [apply contrastive_loss_ignores_summaries|reflexivity].
Qed.

Lemma layer_losses_inversion (FLAGS : Flags) (show_summaries : bool)
    (reps1 reps2 : dict tensor4) (pairs : list ((Mean * Mean) * (string * R))) :
  forall losses metrics' plotted,
    layer_losses FLAGS show_summaries reps1 reps2 pairs
    = Ok (losses, metrics', plotted) ->
    exists results,
      Forall2 (fun p r => layer_result FLAGS reps1 reps2 (fst (snd p)) = Ok r)
        pairs results /\
      losses = map (fun pr => weighted_loss (fst pr) (snd pr))
                 (combine pairs results) /\
      metrics' = map (fun pr =>
                        if negb (summary_frequency FLAGS =? 0)%Z
                        then updated_metrics (fst pr) (snd pr)
                        else fst (fst pr))
                   (combine pairs results).
Proof.
  induction pairs as [|[[lm am] [layer weight]] rest IH];
    intros losses metrics' plotted H; simpl in H.
  - injection H as <- <- _. exists []. repeat split; constructor.
  - unfold layer_result in *.
    destruct (getitem reps1 layer) as [r1|] eqn:H1; simpl in H; [|discriminate].
    destruct (getitem reps2 layer) as [r2|] eqn:H2; simpl in H; [|discriminate].
    assert (Hc := contrastive_loss_any_summaries FLAGS r1 r2 show_summaries).
    destruct (_contrastive_loss FLAGS r1 r2 show_summaries)
      as [[[l a] p]|] eqn:Hl; simpl in H; [|discriminate].
    destruct (layer_losses FLAGS show_summaries reps1 reps2 rest)
      as [[[ls ms] ps]|] eqn:Hrest; simpl in H; [|discriminate].
    injection H as <- <- _.
    destruct (IH _ _ _ eq_refl) as (results & HF & -> & ->).
    exists ((l, a) :: results). split; [|split].
    + constructor; [|exact HF]. simpl. rewrite H1. simpl. rewrite H2. simpl.
      rewrite <- Hc. reflexivity.
    + reflexivity.
    + reflexivity.
Qed.

Lemma train_step_inversion (FLAGS : Flags) (lw : dict R) (st st' : TrainingState)
    (batch : tensor4) (dropout_rate loss : R) (show_summaries recording : bool)
    (written : list summary) :
  train_step FLAGS lw st batch dropout_rate show_summaries recording
  = Ok (loss, st', written) ->
  exists v1 v2 reps1 reps2 metrics results,
    _create_view FLAGS (random_ops (step st)) batch (step st) dropout_rate
      (Some 1%Z) = Ok v1 /\
    _create_view FLAGS (random_ops (step st)) batch (step st) dropout_rate
      (Some 2%Z) = Ok v2 /\
    encoder (weights st) v1 = Ok reps1 /\
    encoder (weights st) v2 = Ok reps2 /\
    layer_metrics st = Some metrics /\
    Forall2 (fun p r => layer_result FLAGS reps1 reps2 (fst (snd p)) = Ok r)
      (combine metrics lw) results /\
    loss = Rsum (map (fun pr => weighted_loss (fst pr) (snd pr))
                   (combine (combine metrics lw) results)) /\
    layer_metrics st'
    = Some (merge_metrics
              (map (fun pr =>
                      if negb (summary_frequency FLAGS =? 0)%Z
                      then updated_metrics (fst pr) (snd pr)
                      else fst (fst pr))
                 (combine (combine metrics lw) results))
              metrics) /\
    total_loss_metric st'
    = (if negb (summary_frequency FLAGS =? 0)%Z
       then option_map (fun m => update_state m [loss]) (total_loss_metric st)
       else total_loss_metric st) /\
    (opt_state st', weights st')
    = apply_gradients (gradient_clipnorm FLAGS) (opt_state st)
        (learning_rate_var st)
        (tape_gradient (taped_loss FLAGS (combine metrics lw) v1 v2) (weights st))
        (weights st) /\
    step st' = step st /\
    learning_rate_var st' = learning_rate_var st /\
    dropout_rate_var st' = dropout_rate_var st /\
    written = record recording written.
Proof.
  unfold train_step.
  destruct (_create_view FLAGS _ batch _ _ (Some 1%Z)) as [v1|] eqn:Hv1; simpl;
    [|discriminate].
  destruct (_visualize_batch FLAGS v1) as [s1|]; simpl; [|discriminate].
  destruct (_create_view FLAGS _ batch _ _ (Some 2%Z)) as [v2|] eqn:Hv2; simpl;
    [|discriminate].
  destruct (_visualize_batch FLAGS v2) as [s2|]; simpl; [|discriminate].
  destruct (encoder (weights st) v1) as [reps1|] eqn:He1; simpl; [|discriminate].
  destruct (encoder (weights st) v2) as [reps2|] eqn:He2; simpl; [|discriminate].
  destruct (layer_metrics st) as [metrics|] eqn:Hm; simpl; [|discriminate].
  destruct (layer_losses FLAGS _ reps1 reps2 _) as [[[ls ms] ps]|] eqn:Hl;
    simpl; [|discriminate].
  destruct (layer_losses_inversion _ _ _ _ _ _ _ _ Hl) as (results & HF & -> & ->).
  intros H.
  exists v1, v2, reps1, reps2, metrics, results.
  destruct (negb (summary_frequency FLAGS =? 0)%Z) eqn:Hsf.
  - destruct (total_loss_metric st) as [t|]; simpl in H; [|discriminate].
    destruct (apply_gradients _ _ _ _ _) as [opt' w'] eqn:Hg.
    injection H as <- <- <-. simpl.
    repeat split; try reflexivity; try assumption;
      destruct recording; reflexivity.
  - simpl in H. destruct (apply_gradients _ _ _ _ _) as [opt' w'] eqn:Hg.
    injection H as <- <- <-. simpl.
    repeat split; try reflexivity; try assumption;
      destruct recording; reflexivity.
Qed.

Lemma combine_snd {A B : Type} (a : list A) (b : list B) :
  map snd (combine a b) = firstn (length a) b.
Proof.
  revert b. induction a as [|x a IH]; intros [|y b]; simpl; try reflexivity.
  now rewrite IH.
Qed.

Lemma Forall2_map_snd {A B C : Type} (P : B -> C -> Prop)
    (l : list (A * B)) (rs : list C) :
  Forall2 (fun p r => P (snd p) r) l rs -> Forall2 P (map snd l) rs.
Proof. induction 1; simpl; constructor; assumption. Qed.

Lemma weighted_sum_of_pairs (l : list ((Mean * Mean) * (string * R)))
    (rs : list (R * R)) :
  map (fun pr => weighted_loss (fst pr) (snd pr)) (combine l rs)
  = map (fun lr => snd (fst lr) * fst (snd lr)) (combine (map snd l) rs).
Proof.
  revert rs. induction l as [|p l IH]; intros [|r rs]; simpl; try reflexivity.
  now rewrite IH.
Qed.

(** X8: The loss a training step returns is the weighted sum, over the
    configured layers, of the contrastive losses between the two views'
    representations at that layer (the layers that have a metric pair,
    which are all of them in a run). *)
Theorem train_step_returns_weighted_sum (FLAGS : Flags) (lw : dict R)
    (st st' : TrainingState) (batch : tensor4) (dropout_rate loss : R)
    (show_summaries recording : bool) (written : list summary) :
  train_step FLAGS lw st batch dropout_rate show_summaries recording
  = Ok (loss, st', written) ->
  exists v1 v2 reps1 reps2 metrics results,
    _create_view FLAGS (random_ops (step st)) batch (step st) dropout_rate
      (Some 1%Z) = Ok v1 /\
    _create_view FLAGS (random_ops (step st)) batch (step st) dropout_rate
      (Some 2%Z) = Ok v2 /\
    encoder (weights st) v1 = Ok reps1 /\
    encoder (weights st) v2 = Ok reps2 /\
    layer_metrics st = Some metrics /\
    Forall2 (fun layer r => layer_result FLAGS reps1 reps2 (fst layer) = Ok r)
      (firstn (length metrics) lw) results /\
    loss = Rsum (map (fun lr => snd (fst lr) * fst (snd lr))
                   (combine (firstn (length metrics) lw) results)).
Proof.
  intros H.
  destruct (train_step_inversion _ _ _ _ _ _ _ _ _ _ H)
    as (v1 & v2 & reps1 & reps2 & metrics & results
        & Hv1 & Hv2 & He1 & He2 & Hm & HF & Hloss & _).
  exists v1, v2, reps1, reps2, metrics, results.
  repeat split; try assumption.
  - rewrite <- combine_snd.
    apply (Forall2_map_snd
             (fun layer r => layer_result FLAGS reps1 reps2 (fst layer) = Ok r)).
    exact HF.
  - rewrite Hloss, <- combine_snd. now rewrite weighted_sum_of_pairs.
Qed.

Lemma layer_losses_without_summaries (FLAGS : Flags) (show_summaries : bool)
    (reps1 reps2 : dict tensor4) (pairs : list ((Mean * Mean) * (string * R))) :
  result_map fst (layer_losses FLAGS show_summaries reps1 reps2 pairs)
  = result_map fst (layer_losses FLAGS false reps1 reps2 pairs).
Proof.
  destruct show_summaries; [apply layer_losses_ignore_summaries|reflexivity].
Qed.

(** X9: A training step that returns has applied exactly one optimizer
    update to the weights it started from: the gradient is that of the
    taped loss, whose value at those weights is the loss returned, and
    the update uses the current learning-rate variable and the configured
    clip norm.  The step counter and both schedule variables are left
    alone. *)
Theorem train_step_applies_one_update (FLAGS : Flags) (lw : dict R)
    (st st' : TrainingState) (batch : tensor4) (dropout_rate loss : R)
    (show_summaries recording : bool) (written : list summary) :
  train_step FLAGS lw st batch dropout_rate show_summaries recording
  = Ok (loss, st', written) ->
  exists v1 v2 metrics,
    layer_metrics st = Some metrics /\
    taped_loss FLAGS (combine metrics lw) v1 v2 (weights st) = Ok loss /\
    (opt_state st', weights st')
    = apply_gradients (gradient_clipnorm FLAGS) (opt_state st)
        (learning_rate_var st)
        (tape_gradient (taped_loss FLAGS (combine metrics lw) v1 v2) (weights st))
        (weights st) /\
    step st' = step st /\
    learning_rate_var st' = learning_rate_var st /\
    dropout_rate_var st' = dropout_rate_var st.
Proof.
  intros H.
  destruct (train_step_inversion _ _ _ _ _ _ _ _ _ _ H)
    as (v1 & v2 & reps1 & reps2 & metrics & results
        & Hv1 & Hv2 & He1 & He2 & Hm & HF & Hloss & _ & _ & Hg & Hs & Hlr & Hdr & _).
  exists v1, v2, metrics. repeat split; try assumption.
  unfold taped_loss. rewrite He1, He2. simpl.
  revert H. unfold train_step. rewrite Hv1. simpl.
  destruct (_visualize_batch FLAGS v1) as [s1|]; simpl; [|discriminate].
  rewrite Hv2. simpl.
  destruct (_visualize_batch FLAGS v2) as [s2|]; simpl; [|discriminate].
  rewrite He1, He2, Hm. simpl.
  assert (Hl := layer_losses_without_summaries FLAGS show_summaries reps1 reps2
                  (combine metrics lw)).
  destruct (layer_losses FLAGS show_summaries reps1 reps2 _)
    as [[[ls ms] ps]|]; simpl; [|discriminate].
  destruct (layer_losses FLAGS false reps1 reps2 _) as [[[ls' ms'] ps']|];
    simpl in Hl |- *; [|discriminate].
  injection Hl as -> ->.
  destruct (if negb (summary_frequency FLAGS =? 0)%Z then _ else _);
    simpl; [|discriminate].
  destruct (apply_gradients _ _ _ _ _). intros H. now injection H as <- _ _.
Qed.

Lemma merge_metrics_length (updated old : list (Mean * Mean)) :
  (length updated <= length old)%nat ->
  length (merge_metrics updated old) = length old.
Proof.
  intros H. unfold merge_metrics. rewrite length_app, length_skipn. lia.
Qed.

Lemma merge_metrics_nth (updated old : list (Mean * Mean)) (i : nat)
    (d : Mean * Mean) :
  (i < length updated)%nat ->
  nth i (merge_metrics updated old) d = nth i updated d.
Proof. intros H. unfold merge_metrics. now apply app_nth1. Qed.

(** X10: With summaries enabled, a training step that returns feeds every
    metric exactly one sample: the total-loss metric receives the loss
    returned, and every layer's loss and accuracy metric counts one more
    value; the number of metric pairs does not change. *)
Theorem train_step_feeds_every_metric (FLAGS : Flags) (lw : dict R)
    (st st' : TrainingState) (batch : tensor4) (dropout_rate loss : R)
    (show_summaries recording : bool) (written : list summary)
    (t : Mean) (ms : list (Mean * Mean)) :
  summary_frequency FLAGS <> 0%Z ->
  total_loss_metric st = Some t -> layer_metrics st = Some ms ->
  length ms = length lw ->
  train_step FLAGS lw st batch dropout_rate show_summaries recording
  = Ok (loss, st', written) ->
  total_loss_metric st'
  = Some {| total := total t + (loss + 0); count := count t + 1 |} /\
  exists ms',
    layer_metrics st' = Some ms' /\ length ms' = length ms /\
    forall i, (i < length ms)%nat ->
      count (fst (nth i ms' (new_mean, new_mean)))
      = count (fst (nth i ms (new_mean, new_mean))) + 1 /\
      count (snd (nth i ms' (new_mean, new_mean)))
      = count (snd (nth i ms (new_mean, new_mean))) + 1.
Proof.
  intros Hsf Ht Hms Hlen H.
  destruct (train_step_inversion _ _ _ _ _ _ _ _ _ _ H)
    as (v1 & v2 & reps1 & reps2 & metrics & results
        & _ & _ & _ & _ & Hm & HF & _ & Hlm & Htm & _).
  rewrite Hms in Hm. injection Hm as <-.
  assert (Hb : negb (summary_frequency FLAGS =? 0)%Z = true).
  { destruct (Z.eqb_spec (summary_frequency FLAGS) 0); [contradiction|reflexivity]. }
  rewrite Hb in Hlm, Htm. rewrite Ht in Htm. simpl in Htm.
  split; [exact Htm|].
  assert (Hres : length results = length ms).
  { apply Forall2_length in HF. rewrite length_combine in HF. lia. }
  assert (Hcomb : length (combine (combine ms lw) results) = length ms).
  { rewrite !length_combine. lia. }
  eexists. split; [exact Hlm|]. split.
  - apply merge_metrics_length. rewrite length_map, Hcomb. lia.
  - intros i Hi.
    rewrite merge_metrics_nth by (rewrite length_map, Hcomb; exact Hi).
    rewrite (map_nth_in _ ((new_mean, new_mean), (EmptyString, 0), (0, 0)))
      by (rewrite Hcomb; exact Hi).
    rewrite (combine_nth (combine ms lw) results i
               ((new_mean, new_mean), (EmptyString, 0)) (0, 0))
      by (rewrite length_combine; lia).
    rewrite (combine_nth ms lw i (new_mean, new_mean) (EmptyString, 0) Hlen).
    simpl. split; lra.
Qed.

(** ** More on the training loop *)

Lemma control_events_app (l1 l2 : list event) :
  control_events (l1 ++ l2) = control_events l1 ++ control_events l2.
Proof. apply filter_app. Qed.

Lemma control_events_summaries (l : list summary) :
  control_events (map EvSummary l) = [].
Proof. induction l; simpl; [reflexivity|assumption]. Qed.

Lemma control_post_bind {A : Type} (FLAGS : Flags) (i : Z)
    (seen es : list event) (m : M A) (k : A -> M (TrainingState * bool)) :
  control_events (fst m) = es ->
  (forall a, snd m = Ok a -> control_post FLAGS i (seen ++ es) (k a)) ->
  control_post FLAGS i seen (bindM m k).
Proof.
  intros Hes Hk st' stop H. unfold bindM in H.
  destruct (snd m) as [a|e] eqn:Hm; simpl in H; [|discriminate].
  rewrite (bindM_ok m k a Hm). simpl.
  rewrite control_events_app, Hes, app_assoc.
  exact (Hk a eq_refl st' stop H).
Qed.

Lemma control_post_quiet {A : Type} (FLAGS : Flags) (i : Z)
    (seen : list event) (m : M A) (k : A -> M (TrainingState * bool)) :
  control_events (fst m) = [] ->
  (forall a, snd m = Ok a -> control_post FLAGS i seen (k a)) ->
  control_post FLAGS i seen (bindM m k).
Proof.
  intros Hes Hk. apply (control_post_bind FLAGS i seen []); [exact Hes|].
  intros a Ha. rewrite app_nil_r. now apply Hk.
Qed.

Lemma write_metrics_control (lw : dict R) (recording : bool)
    (st : TrainingState) :
  control_events (fst (write_metrics lw recording st)) = [].
Proof.
  unfold write_metrics, bindM, lift, emit_all, ret.
  destruct (total_loss_metric st) as [t|]; simpl; [|reflexivity].
  destruct (layer_metrics st) as [ms|]; simpl.
  - now rewrite !app_nil_r, control_events_app, !control_events_summaries.
  - now rewrite !app_nil_r, control_events_summaries.
Qed.

Lemma iteration_control_events (FLAGS : Flags) (lw : dict R)
    (st : TrainingState) (batch : tensor4) :
  control_post FLAGS (wrap_int64 (step st + 1)) []
    (iteration FLAGS lw st batch).
Proof.
  unfold iteration. cbv zeta.
  set (i := wrap_int64 (step st + 1)).
  change (step (with_step st i)) with i.
  change (negb (summary_frequency FLAGS =? 0)%Z
          && (i mod summary_frequency FLAGS =? 0)%Z)%bool
    with (summary_step FLAGS i).
  set (show := summary_step FLAGS i).
  apply (control_post_bind FLAGS i [] [EvAssignAdd i]); [reflexivity|].
  intros _ _. simpl app.
  apply control_post_quiet; [reflexivity|]. intros shown _.
  apply control_post_quiet; [apply control_events_summaries|]. intros _ _.
  apply (control_post_quiet FLAGS i _
           (if truthy_int (learning_rate_warmup_batches FLAGS) then _ else _)).
  { destruct (truthy_int _); [|reflexivity].
    unfold bindM, emit_all, ret. simpl.
    now rewrite app_nil_r, control_events_summaries. }
  intros st1 Hst1.
  assert (H1 : step st1 = i).
  { destruct (truthy_int (learning_rate_warmup_batches FLAGS));
      unfold bindM, emit_all, ret in Hst1; simpl in Hst1;
      injection Hst1 as <-; reflexivity. }
  clear Hst1.
  apply (control_post_quiet FLAGS i _
           (if truthy_int (band_dropout_rate_warmup_batches FLAGS) then _ else _)).
  { destruct (truthy_int _); [|reflexivity].
    unfold bindM, emit_all, ret. simpl.
    now rewrite app_nil_r, control_events_summaries. }
  intros st2 Hst2.
  assert (H2 : step st2 = i).
  { destruct (truthy_int (band_dropout_rate_warmup_batches FLAGS));
      unfold bindM, emit_all, ret in Hst2; simpl in Hst2;
      injection Hst2 as <-; simpl; exact H1. }
  clear Hst2.
  apply (control_post_bind FLAGS i _ (if (i =? 0)%Z then [EvTraceOn] else []));
    [destruct (i =? 0)%Z; reflexivity|].
  intros _ _.
  apply (control_post_bind FLAGS i _ [EvTrainStep i show]);
    [rewrite H2; reflexivity|].
  intros _ _.
  apply control_post_quiet; [reflexivity|].
  intros [[loss st3] written] Hts. simpl in Hts.
  assert (H3 : step st3 = i).
  { rewrite <- H2. eapply train_step_keeps_step, Hts. }
  apply control_post_quiet; [apply control_events_summaries|]. intros _ _.
  apply (control_post_bind FLAGS i _
           (if (i =? 0)%Z then [EvTraceExport] else []));
    [destruct (i =? 0)%Z; reflexivity|].
  intros _ _.
  apply control_post_quiet; [reflexivity|].
  intros save Hsave. simpl in Hsave.
  destruct (checkpoint_frequency FLAGS =? 0)%Z; [discriminate|].
  injection Hsave as <-.
  apply (control_post_bind FLAGS i _
           (if (i mod checkpoint_frequency FLAGS =? 0)%Z
            then [EvCheckpoint i] else []));
    [destruct (_ =? 0)%Z; [rewrite H3|]; reflexivity|].
  intros _ _.
  apply (control_post_quiet FLAGS i _
           (if show then write_metrics lw show st3 else ret st3)).
  { destruct show; [apply write_metrics_control|reflexivity]. }
  intros st4 _ st' stop Hret.
  unfold iteration_control. fold show.
  rewrite <- !app_assoc. simpl. do 4 f_equal.
  destruct (train_batches FLAGS <=? i)%Z; simpl; now rewrite ?app_nil_r.
Qed.

Lemma iteration_control_result (FLAGS : Flags) (lw : dict R)
    (st : TrainingState) (batch : tensor4) (st' : TrainingState) (stop : bool) :
  snd (iteration FLAGS lw st batch) = Ok (st', stop) ->
  control_events (fst (iteration FLAGS lw st batch))
  = iteration_control FLAGS (wrap_int64 (step st + 1)).
Proof. exact (iteration_control_events FLAGS lw st batch st' stop). Qed.

Opaque iteration.

Lemma train_loop_control (FLAGS : Flags) (lw : dict R) :
  (train_batches FLAGS < 2 ^ 63)%Z ->
  forall ds st st',
    (-1 <= step st < 2 ^ 63 - 1)%Z ->
    snd (train_loop FLAGS lw ds st) = Ok st' ->
    exists k,
      step st' = (step st + Z.of_nat k)%Z /\
      control_events (fst (train_loop FLAGS lw ds st))
      = concat (map (iteration_control FLAGS) (count_from (step st + 1) k)).
Proof.
  intros HT. induction ds as [|batch rest IH]; intros st st' Hs Hrun.
  - injection Hrun as <-. exists O. split; [lia|reflexivity].
  - rewrite train_loop_cons in *.
    assert (Hit := iteration_result FLAGS lw st batch).
    assert (Hc := iteration_control_result FLAGS lw st batch).
    cbv zeta in Hit. rewrite wrap_int64_small in Hit, Hc by lia.
    destruct (snd (iteration FLAGS lw st batch)) as [[st1 stop]|e] eqn:Hsnd.
    + destruct Hit as (_ & Hst1 & Hstop).
      specialize (Hc st1 stop eq_refl).
      rewrite (bindM_ok _ _ _ Hsnd) in *. cbn [fst snd] in *.
      rewrite control_events_app, Hc.
      destruct stop.
      * injection Hrun as <-. exists 1%nat. split; [lia|].
        rewrite count_from_succ. simpl. now rewrite !app_nil_r.
      * symmetry in Hstop. apply Z.leb_gt in Hstop.
        destruct (IH st1 st' ltac:(lia) Hrun) as (k & Hk & Hev).
        exists (S k). split; [lia|].
        rewrite count_from_succ. simpl. rewrite Hev, Hst1. reflexivity.
    + rewrite (bindM_raise _ _ _ Hsnd) in Hrun. discriminate.
Qed.

Transparent iteration.

Lemma run_control (FLAGS : Flags) (ds : list tensor4) (st : TrainingState) :
  (train_batches FLAGS < 2 ^ 63)%Z ->
  snd (train_unsupervised FLAGS ds) = Ok st ->
  (-1 <= step st)%Z /\
  control_events (fst (train_unsupervised FLAGS ds))
  = concat (map (iteration_control FLAGS)
              (count_from 0 (Z.to_nat (step st + 1))))
    ++ [EvCheckpoint (step st)].
Proof.
  intros HT Hrun.
  destruct (train_unsupervised_cases FLAGS ds)
    as [(e & _ & Heq)|(lw & _ & [(e & Hr & Heq)|(st0 & Hr & Heq)])];
    rewrite Heq in *; simpl in Hrun; try discriminate.
  injection Hrun as ->.
  destruct (train_loop_control FLAGS lw HT ds (initial_state FLAGS lw) st)
    as (k & Hk & Hev); [simpl; lia|exact Hr|].
  change (step (initial_state FLAGS lw)) with (-1)%Z in Hk, Hev.
  change (-1 + 1)%Z with 0%Z in Hev.
  split; [lia|]. cbn [fst].
  rewrite control_events_app, Hev.
  replace (Z.to_nat (step st + 1)) with k by lia. reflexivity.
Qed.

(** X11: The control events of a run that returns: for every step from 0 to
    the final one, in order, the increment, the training step, a
    checkpoint when the step is a multiple of [checkpoint_frequency], and
    the finishing line once [train_batches] is reached; the trace is
    switched on before and exported after the training step of step 0
    only; one last checkpoint closes the run. *)
Theorem returning_run_control_events (FLAGS : Flags) (ds : list tensor4)
    (st : TrainingState) :
  (train_batches FLAGS < 2 ^ 63)%Z ->
  snd (train_unsupervised FLAGS ds) = Ok st ->
  control_events (fst (train_unsupervised FLAGS ds))
  = concat (map (iteration_control FLAGS)
              (count_from 0 (Z.to_nat (step st + 1))))
    ++ [EvCheckpoint (step st)].
Proof. intros HT Hrun. now apply run_control. Qed.

Lemma checkpoint_steps_app (l1 l2 : list event) :
  checkpoint_steps (l1 ++ l2) = checkpoint_steps l1 ++ checkpoint_steps l2.
Proof. apply flat_map_app. Qed.

Lemma checkpoint_steps_control (log : list event) :
  checkpoint_steps (control_events log) = checkpoint_steps log.
Proof.
  induction log as [|e log IH]; [reflexivity|].
  destruct e; simpl; rewrite ?IH; reflexivity.
Qed.

Lemma checkpoint_steps_iterations (FLAGS : Flags) (steps : list Z) :
  checkpoint_steps (concat (map (iteration_control FLAGS) steps))
  = filter (fun i => (i mod checkpoint_frequency FLAGS =? 0)%Z) steps.
Proof.
  induction steps as [|i steps IH]; [reflexivity|].
  cbn [map concat]. rewrite checkpoint_steps_app, IH. cbn [filter].
  unfold iteration_control.
  destruct (i =? 0)%Z, (i mod checkpoint_frequency FLAGS =? 0)%Z,
    (train_batches FLAGS <=? i)%Z; reflexivity.
Qed.

(** X12: In a run that returns, a checkpoint is saved at exactly the steps
    that are multiples of [checkpoint_frequency], in order, and once more
    at the final step after the loop: the final step is saved twice when
    it is itself a multiple. *)
Theorem checkpoints_follow_the_cadence (FLAGS : Flags) (ds : list tensor4)
    (st : TrainingState) :
  (train_batches FLAGS < 2 ^ 63)%Z ->
  snd (train_unsupervised FLAGS ds) = Ok st ->
  checkpoint_steps (fst (train_unsupervised FLAGS ds))
  = filter (fun i => (i mod checkpoint_frequency FLAGS =? 0)%Z)
      (count_from 0 (Z.to_nat (step st + 1)))
    ++ [step st].
Proof.
  intros HT Hrun. destruct (run_control FLAGS ds st HT Hrun) as (_ & Hev).
  rewrite <- checkpoint_steps_control, Hev, checkpoint_steps_app.
  now rewrite checkpoint_steps_iterations.
Qed.



Lemma returns_in_bind {A : Type} (Q : TrainingState -> Prop) (m : M A)
    (k : A -> M (TrainingState * bool)) :
  (forall a, snd m = Ok a -> returns_in Q (k a)) -> returns_in Q (bindM m k).
Proof.
  intros Hk st' stop H. unfold bindM in H.
  destruct (snd m) as [a|e] eqn:Hm; simpl in H; [|discriminate].
  exact (Hk a eq_refl st' stop H).
Qed.

Lemma write_metrics_keeps_schedules (lw : dict R) (recording : bool)
    (st st' : TrainingState) :
  snd (write_metrics lw recording st) = Ok st' ->
  step st' = step st /\ learning_rate_var st' = learning_rate_var st /\
  dropout_rate_var st' = dropout_rate_var st.
Proof.
  unfold write_metrics, bindM, lift, emit_all, ret.
  destruct (total_loss_metric st) as [t|]; simpl; [|discriminate].
  destruct (layer_metrics st) as [ms|]; simpl; [|discriminate].
  intros H. injection H as <-. auto.
Qed.

Lemma iteration_keeps_schedules_in_step (FLAGS : Flags) (lw : dict R)
    (st : TrainingState) (batch : tensor4) :
  schedules_in_step FLAGS st ->
  returns_in (schedules_in_step FLAGS) (iteration FLAGS lw st batch).
Proof.
  intros (Hlr & Hdr). unfold iteration. cbv zeta.
  set (i := wrap_int64 (step st + 1)).
  change (step (with_step st i)) with i.
  do 3 (apply returns_in_bind; intros ? _).
  apply returns_in_bind. intros st1 Hst1.
  assert (H1 : step st1 = i /\
               learning_rate_var st1
               = _learning_rate FLAGS
                   (if truthy_int (learning_rate_warmup_batches FLAGS)
                    then i else (-1)%Z) /\
               dropout_rate_var st1 = dropout_rate_var st).
  { destruct (truthy_int (learning_rate_warmup_batches FLAGS));
      unfold bindM, emit_all, ret in Hst1; simpl in Hst1;
      injection Hst1 as <-; simpl; auto. }
  clear Hst1. destruct H1 as (Hs1 & Hlr1 & Hdr1).
  apply returns_in_bind. intros st2 Hst2.
  assert (H2 : step st2 = i /\
               learning_rate_var st2 = learning_rate_var st1 /\
               dropout_rate_var st2
               = _dropout_rate FLAGS
                   (if truthy_int (band_dropout_rate_warmup_batches FLAGS)
                    then i else (-1)%Z)).
  { destruct (truthy_int (band_dropout_rate_warmup_batches FLAGS));
      unfold bindM, emit_all, ret in Hst2; simpl in Hst2;
      injection Hst2 as <-; simpl;
      (split; [exact Hs1|]); (split; [reflexivity|]).
    - now rewrite Hs1.
    - now rewrite Hdr1. }
  clear Hst2. destruct H2 as (Hs2 & Hlr2 & Hdr2).
  do 2 (apply returns_in_bind; intros ? _).
  apply returns_in_bind. intros [[loss st3] written] Hts.
  change (train_step FLAGS lw st2 batch (dropout_rate_var st2)
            (negb (summary_frequency FLAGS =? 0)%Z
             && (i mod summary_frequency FLAGS =? 0)%Z)
            (negb (summary_frequency FLAGS =? 0)%Z
             && (i mod summary_frequency FLAGS =? 0)%Z)
          = Ok (loss, st3, written)) in Hts.
  destruct (train_step_inversion _ _ _ _ _ _ _ _ _ _ Hts)
    as (_ & _ & _ & _ & _ & _ & _ & _ & _ & _ & _ & _ & _ & _ & _ & _
        & Hs3 & Hlr3 & Hdr3 & _).
  do 4 (apply returns_in_bind; intros ? _).
  apply returns_in_bind. intros st4 Hst4.
  assert (H4 : step st4 = step st3 /\
               learning_rate_var st4 = learning_rate_var st3 /\
               dropout_rate_var st4 = dropout_rate_var st3).
  { destruct (negb (summary_frequency FLAGS =? 0)%Z
              && (i mod summary_frequency FLAGS =? 0)%Z)%bool.
    - now apply (write_metrics_keeps_schedules lw true).
    - injection Hst4 as <-. auto. }
  destruct H4 as (Hs4 & Hlr4 & Hdr4).
  assert (Hfinal : schedules_in_step FLAGS st4).
  { unfold schedules_in_step.
    rewrite Hlr4, Hlr3, Hlr2, Hlr1, Hdr4, Hdr3, Hdr2, Hs4, Hs3, Hs2. auto. }
  intros st' stop Hret.
  destruct (train_batches FLAGS <=? i)%Z.
  - unfold bindM, emit, ret in Hret. simpl in Hret.
    injection Hret as <- _. exact Hfinal.
  - injection Hret as <- _. exact Hfinal.
Qed.

Lemma train_loop_keeps (Q : TrainingState -> Prop) (FLAGS : Flags)
    (lw : dict R) :
  (forall st batch, Q st -> returns_in Q (iteration FLAGS lw st batch)) ->
  forall ds st st',
    Q st -> snd (train_loop FLAGS lw ds st) = Ok st' -> Q st'.
Proof.
  intros Hit. induction ds as [|batch rest IH]; intros st st' HQ Hrun.
  - injection Hrun as <-. exact HQ.
  - rewrite train_loop_cons in Hrun. unfold bindM in Hrun.
    destruct (snd (iteration FLAGS lw st batch)) as [[st1 stop]|e] eqn:Hsnd;
      simpl in Hrun; [|discriminate].
    assert (HQ1 := Hit st batch HQ st1 stop Hsnd).
    destruct stop.
    + injection Hrun as <-. exact HQ1.
    + exact (IH st1 st' HQ1 Hrun).
Qed.

(** X15: The schedule variables a run returns agree with the step
    counter: a variable with a warmup holds its schedule's value at the
    final step, one without still holds the value it was created with. *)
Theorem returned_schedules_match_the_step (FLAGS : Flags) (ds : list tensor4)
    (st : TrainingState) :
  snd (train_unsupervised FLAGS ds) = Ok st ->
  learning_rate_var st
  = _learning_rate FLAGS
      (if truthy_int (learning_rate_warmup_batches FLAGS) then step st
       else (-1)%Z) /\
  dropout_rate_var st
  = _dropout_rate FLAGS
      (if truthy_int (band_dropout_rate_warmup_batches FLAGS) then step st
       else (-1)%Z).
Proof.
  intros Hrun.
  destruct (train_unsupervised_cases FLAGS ds)
    as [(e & _ & Heq)|(lw & _ & [(e & Hr & Heq)|(st0 & Hr & Heq)])];
    rewrite Heq in *; simpl in Hrun; try discriminate.
  injection Hrun as ->.
  apply (train_loop_keeps (schedules_in_step FLAGS) FLAGS lw
           (iteration_keeps_schedules_in_step FLAGS lw)
           ds (initial_state FLAGS lw) st); [|exact Hr].
  unfold schedules_in_step, initial_state. simpl.
  split; destruct (truthy_int _); reflexivity.
Qed.

Lemma summary_events_app (l1 l2 : list event) :
  summary_events (l1 ++ l2) = summary_events l1 ++ summary_events l2.
Proof. apply filter_app. Qed.

Lemma silent_bind {A B : Type} (m : M A) (k : A -> M B) :
  silent m -> (forall a, snd m = Ok a -> silent (k a)) -> silent (bindM m k).
Proof.
  unfold silent. intros Hm Hk. unfold bindM.
  destruct (snd m) as [a|e] eqn:Hs; simpl; [|exact Hm].
  now rewrite summary_events_app, Hm, (Hk a eq_refl).
Qed.

(** X16: An iteration whose step is not a summary step (not a multiple of
    [summary_frequency], or any step when that is 0) writes nothing to
    the summary writer, whether it returns or raises. *)
Theorem no_summaries_off_the_cadence (FLAGS : Flags) (lw : dict R)
    (st : TrainingState) (batch : tensor4) :
  summary_step FLAGS (wrap_int64 (step st + 1)) = false ->
  summary_events (fst (iteration FLAGS lw st batch)) = [].
Proof.
  intros Hshow. change (silent (iteration FLAGS lw st batch)).
  unfold iteration. cbv zeta.
  set (i := wrap_int64 (step st + 1)) in *.
  change (step (with_step st i)) with i.
  change (negb (summary_frequency FLAGS =? 0)%Z
          && (i mod summary_frequency FLAGS =? 0)%Z)%bool
    with (summary_step FLAGS i).
  rewrite Hshow.
  apply silent_bind; [reflexivity|]. intros _ _.
  apply silent_bind; [reflexivity|]. intros shown _.
  apply silent_bind; [reflexivity|]. intros _ _.
  apply silent_bind; [destruct (truthy_int _); reflexivity|]. intros st1 _.
  apply silent_bind; [destruct (truthy_int _); reflexivity|]. intros st2 _.
  apply silent_bind; [destruct (i =? 0)%Z; reflexivity|]. intros _ _.
  apply silent_bind; [reflexivity|]. intros _ _.
  apply silent_bind; [reflexivity|]. intros [[loss st3] written] Hts.
  change (train_step FLAGS lw st2 batch (dropout_rate_var st2) false false
          = Ok (loss, st3, written)) in Hts.
  destruct (train_step_inversion _ _ _ _ _ _ _ _ _ _ Hts)
    as (_ & _ & _ & _ & _ & _ & _ & _ & _ & _ & _ & _ & _ & _ & _ & _
        & _ & _ & _ & Hw).
  simpl in Hw. subst written.
  apply silent_bind; [reflexivity|]. intros _ _.
  apply silent_bind; [destruct (i =? 0)%Z; reflexivity|]. intros _ _.
  apply silent_bind; [reflexivity|]. intros save _.
  apply silent_bind; [destruct save; reflexivity|]. intros _ _.
  apply silent_bind; [reflexivity|]. intros st4 _.
  destruct (train_batches FLAGS <=? i)%Z; reflexivity.
Qed.

Lemma dies_unsaved_bind {A B : Type} (m : M A) (k : A -> M B) :
  checkpoint_steps (fst m) = [] ->
  (forall a, snd m = Ok a -> dies_unsaved (k a)) ->
  dies_unsaved (bindM m k).
Proof.
  unfold dies_unsaved, fails. intros Hm Hk. unfold bindM.
  destruct (snd m) as [a|e] eqn:Hs; simpl; [|auto].
  destruct (Hk a eq_refl) as (Hc & Hf).
  now rewrite checkpoint_steps_app, Hm, Hc.
Qed.

Lemma checkpoint_steps_summaries (l : list summary) :
  checkpoint_steps (map EvSummary l) = [].
Proof. induction l; simpl; [reflexivity|assumption]. Qed.

Lemma iteration_dies_unsaved (FLAGS : Flags) (lw : dict R)
    (st : TrainingState) (batch : tensor4) :
  checkpoint_frequency FLAGS = 0%Z ->
  dies_unsaved (iteration FLAGS lw st batch).
Proof.
  intros Hcf. unfold iteration. cbv zeta. rewrite Hcf.
  apply dies_unsaved_bind; [reflexivity|]. intros _ _.
  apply dies_unsaved_bind; [reflexivity|]. intros shown _.
  apply dies_unsaved_bind; [apply checkpoint_steps_summaries|]. intros _ _.
  apply dies_unsaved_bind.
  { destruct (truthy_int _); [|reflexivity].
    unfold bindM, emit_all, ret. simpl.
    now rewrite app_nil_r, checkpoint_steps_summaries. }
  intros st1 _.
  apply dies_unsaved_bind.
  { destruct (truthy_int _); [|reflexivity].
    unfold bindM, emit_all, ret. simpl.
    now rewrite app_nil_r, checkpoint_steps_summaries. }
  intros st2 _.
  apply dies_unsaved_bind; [destruct (_ =? 0)%Z; reflexivity|]. intros _ _.
  apply dies_unsaved_bind; [reflexivity|]. intros _ _.
  apply dies_unsaved_bind; [reflexivity|]. intros [[loss st3] written] _.
  apply dies_unsaved_bind; [apply checkpoint_steps_summaries|]. intros _ _.
  apply dies_unsaved_bind; [destruct (_ =? 0)%Z; reflexivity|]. intros _ _.
  apply dies_unsaved_bind; [reflexivity|]. intros save Hsave.
  discriminate.
Qed.

(** X17: With [checkpoint_frequency = 0] the cadence test divides by zero: a
    run over a non-empty stream never returns and never saves a
    checkpoint, not even the final one, and it starts no training step
    after the first. *)
Theorem zero_checkpoint_frequency_aborts (FLAGS : Flags) (batch : tensor4)
    (rest : list tensor4) :
  checkpoint_frequency FLAGS = 0%Z ->
  let run := train_unsupervised FLAGS (batch :: rest) in
  fails run /\ checkpoint_steps (fst run) = [] /\
  (trained_steps (fst run) = [] \/ trained_steps (fst run) = [0%Z]).
Proof.
  intros Hcf run. unfold run.
  destruct (train_unsupervised_cases FLAGS (batch :: rest))
    as [(e & _ & Heq)|(lw & _ & Hcases)].
  - rewrite Heq. repeat split. now left.
  - cbv zeta in Hcases. rewrite train_loop_cons in Hcases.
    destruct (iteration_dies_unsaved FLAGS lw (initial_state FLAGS lw) batch Hcf)
      as (Hc & Hf).
    assert (Hit := iteration_result FLAGS lw (initial_state FLAGS lw) batch).
    cbv zeta in Hit. unfold fails in Hf.
    destruct (snd (iteration FLAGS lw (initial_state FLAGS lw) batch))
      as [a|e'] eqn:Hsnd; [discriminate|].
    rewrite (bindM_raise _ _ _ Hsnd) in Hcases. cbn [fst snd] in Hcases.
    destruct Hcases as [(e & _ & Heq)|(st & Hr & _)]; [|discriminate].
    rewrite Heq. cbn [fst snd]. split; [reflexivity|]. split; [exact Hc|].
    rewrite <- trained_steps_filter.
    destruct Hit as [-> | ->]; [now left|now right].
Qed.

(** X18: A flush writes the averaged total loss and, for every layer, its
    averaged loss and accuracy (one plus two scalars per layer), and
    leaves every metric reset; without the metrics bound it raises
    [NameError]. *)
Theorem write_metrics_flushes_and_resets (lw : dict R) (st : TrainingState) :
  (forall t ms,
     total_loss_metric st = Some t -> layer_metrics st = Some ms ->
     length ms = length lw ->
     write_metrics lw true st
     = (map EvSummary
          (SummaryScalar "loss" (mean_result t)
           :: concat (map layer_scalars (combine ms lw))),
        Ok (with_metrics st (Some new_mean)
              (Some (map (fun _ => (new_mean, new_mean)) ms)))) /\
     length (fst (write_metrics lw true st)) = (1 + 2 * length lw)%nat) /\
  (total_loss_metric st = None \/ layer_metrics st = None ->
   exists log, write_metrics lw true st = (log, Raise NameError)).
Proof.
  split.
  - intros t ms Ht Hms Hlen.
    assert (Heq : write_metrics lw true st
                  = (map EvSummary
                       (SummaryScalar "loss" (mean_result t)
                        :: concat (map layer_scalars (combine ms lw))),
                     Ok (with_metrics st (Some new_mean)
                           (Some (map (fun _ => (new_mean, new_mean)) ms))))).
    { unfold write_metrics, bindM, lift, emit_all, ret. rewrite Ht. simpl.
      rewrite Hms. simpl. rewrite !app_nil_r. f_equal. do 3 f_equal.
      unfold merge_metrics.
      rewrite skipn_all2 by (rewrite length_map, length_combine; lia).
      rewrite app_nil_r.
      clear Ht Hms. revert lw Hlen.
      induction ms as [|m ms IH]; intros [|l lw] Hlen; simpl in *;
        try discriminate; [reflexivity|].
      f_equal. apply IH. lia. }
    split; [exact Heq|]. rewrite Heq. cbn [fst].
    rewrite length_map. simpl. f_equal.
    clear Heq Ht Hms. revert lw Hlen.
    induction ms as [|[lm am] ms IH]; intros [|[name w] lw] Hlen; simpl in *;
      try discriminate; [reflexivity|].
    rewrite (IH lw) by lia. lia.
  - unfold write_metrics, bindM, lift, emit_all, ret.
    intros [Ht|Hms].
    + rewrite Ht. simpl. eauto.
    + destruct (total_loss_metric st) as [t|]; simpl; [|eauto].
      rewrite Hms. simpl. eauto.
Qed.

End Train.

(* ================================================================== *)
(** * The properties at concrete inputs *)

Lemma schedule_value_witness :
  (0 <= 3)%Z /\
  optional_warmup 3 (1/2) (Some 10%Z) = 1/2 * IZR 3 / IZR 10 /\
  optional_warmup 3 (1/2) (Some 10%Z) <= optional_warmup 12 (1/2) (Some 10%Z).
Proof.
  assert (H3 : (0 <= 3)%Z) by lia.
  destruct (schedule_value 3 (1/2) (Some 10%Z) H3) as (_ & Hw & Hm & _).
  split; [exact H3|]. split.
  - destruct (Hw 10%Z eq_refl ltac:(lia)) as (Hr & _ & _). apply Hr. lia.
  - apply Hm; [lra|lia].
Defined.

Lemma layer_loss_weights_validated_witness :
  _parse_layer_loss_weights Sample.layers Sample.float
    ["conv4_block5_out:0.5"; "conv5_block3_out:1.0"]%string
  = Ok [("conv4_block5_out"%string, 0 + 5 / 10);
        ("conv5_block3_out"%string, 1 + 0 / 10)] /\
  main Sample.layers Sample.float R nat R Sample.encoder Sample.tape_gradient
    Sample.apply_gradients Sample.partition_imagery Sample.random_ops 1 O
    (Sample.flags 100 3 ["conv4_block5_out"]%string) [Sample.batch]
  = ([], Raise IllegalFlagValueError).
Proof.
  pose proof (layer_loss_weights_validated Sample.layers Sample.float R nat R
    Sample.encoder Sample.tape_gradient Sample.apply_gradients
    Sample.partition_imagery Sample.random_ops 1 O
    (Sample.flags 100 3 ["conv4_block5_out"]%string) [Sample.batch])
    as (_ & Hex & Hbad & Hcolon & _).
  split.
  - apply Hex; simpl; auto; reflexivity.
  - apply (Hbad "conv4_block5_out"%string); [simpl; auto|].
    apply Hcolon. reflexivity.
Defined.

Lemma sample_batches_of_two :
  batch_of 2 2 Sample.repr_a /\ batch_of 2 2 Sample.repr_b.
Proof. split; (split; [reflexivity|repeat constructor]). Defined.

Lemma contrastive_loss_as_specified_witness :
  let FLAGS := Sample.flags_of 2 100 3 [] in
  result_map loss_of (_contrastive_loss FLAGS Sample.repr_a Sample.repr_b false)
  = Ok (specified_loss FLAGS Sample.repr_a Sample.repr_b).
Proof.
  intros FLAGS.
  apply (contrastive_loss_as_specified FLAGS 2 Sample.repr_a Sample.repr_b false).
  - simpl. lia.
  - apply sample_batches_of_two.
  - apply sample_batches_of_two.
Defined.

Lemma accuracy_is_column_wise_witness :
  let FLAGS := Sample.flags_of 2 100 3 [] in
  exists correct : nat -> bool,
    result_map accuracy_of
      (_contrastive_loss FLAGS Sample.repr_a Sample.repr_b false)
    = Ok (tf.reduce_mean (map (fun j => bool_to_float (correct j)) (seq 0 2))) /\
    forall j, (j < 2)%nat ->
      correct j = true <->
      first_maximum_of_column 2
        (scaled_similarity FLAGS Sample.repr_a Sample.repr_b) j.
Proof.
  intros FLAGS.
  apply (accuracy_is_column_wise FLAGS 2 Sample.repr_a Sample.repr_b false).
  - simpl. lia.
  - apply sample_batches_of_two.
  - apply sample_batches_of_two.
Defined.

(** C4 as stated fails: on similarities [[1, 0], [2, 3]] (scaled by the
    temperature) every row has its largest entry on the diagonal, so the
    row-wise rule gives accuracy 1, while the code, which takes the
    largest entry of every column, returns 1/2. *)
Lemma accuracy_is_not_row_wise :
  let FLAGS := Sample.flags_of 2 100 3 [] in
  batch_of (batch_size FLAGS) 2 Sample.repr_a /\
  batch_of (batch_size FLAGS) 2 Sample.repr_b /\
  result_map accuracy_of
    (_contrastive_loss FLAGS Sample.repr_a Sample.repr_b false) = Ok (1 / 2) /\
  row_wise_accuracy FLAGS Sample.repr_a Sample.repr_b = 1 /\
  result_map accuracy_of
    (_contrastive_loss FLAGS Sample.repr_a Sample.repr_b false)
  <> Ok (row_wise_accuracy FLAGS Sample.repr_a Sample.repr_b).
Proof.
  intros FLAGS.
  assert (Hn : (0 < batch_size FLAGS)%nat) by (simpl; lia).
  destruct sample_batches_of_two as (Ha & Hb).
  destruct (contrastive_loss_value FLAGS 2 _ _ false Hn Ha Hb)
    as (plotted & Hv & _ & _).
  assert (Hcode : result_map accuracy_of
            (_contrastive_loss FLAGS Sample.repr_a Sample.repr_b false)
          = Ok (1 / 2)).
  { rewrite Hv. unfold result_map, accuracy_of. simpl fst. simpl snd.
    f_equal. unfold tf.reduce_mean, tf.column, gram, tf.divide, dot, Rsum.
    simpl.
    repeat match goal with
           | |- context [Rlt_dec ?x ?y] => destruct (Rlt_dec x y); try lra
           end.
    simpl. lra. }
  assert (Hrow : row_wise_accuracy FLAGS Sample.repr_a Sample.repr_b = 1).
  { unfold row_wise_accuracy, scaled_similarity, flat, tf.reduce_mean, dot, Rsum.
    simpl.
    repeat match goal with
           | |- context [Rlt_dec ?x ?y] => destruct (Rlt_dec x y); try lra
           end.
    simpl. lra. }
  split; [exact Ha|]. split; [exact Hb|].
  split; [exact Hcode|]. split; [exact Hrow|].
  rewrite Hcode, Hrow. intros H. injection H as H. lra.
Qed.


Lemma view_is_crop_without_augmentation_witness :
  exists view,
    _create_view Sample.crop_flags (Sample.random_ops 0) Sample.tile 0 0
      (Some 1%Z) = Ok view /\
    pixel view 0 0 0 0 = pixel Sample.tile 0 1 0 0.
Proof.
  assert (Hx : has_shape (1, 2, 2, 1)%nat Sample.tile)
    by (split; [reflexivity|repeat constructor]).
  destruct (view_is_crop_without_augmentation Sample.crop_flags
              (Sample.random_ops 0) Sample.tile 0 (Some 1%Z))
    as (view & Hv & _ & _ & _ & Hpx & _).
  - reflexivity.
  - simpl. destruct (Req_dec_T 0 0); [reflexivity|lra].
  - intros s b c. simpl. lra.
  - simpl. lia.
  - simpl. lia.
  - simpl. lia.
  - exact Hx.
  - exists view. split; [exact Hv|]. apply (Hpx 0 0 0 0)%nat; simpl; lia.
Defined.

Lemma sample_run_returns :
  is_ok (snd (train_unsupervised Sample.layers Sample.float R nat R
          Sample.encoder Sample.tape_gradient Sample.apply_gradients
          Sample.partition_imagery Sample.random_ops 1 O
          (Sample.flags 100 1 Sample.weights_flag)
                [Sample.batch; Sample.batch; Sample.batch])) = true.
Proof. lazy. reflexivity. Qed.

Lemma step_counter_counts_iterations_witness :
  let FLAGS := Sample.flags 100 1 Sample.weights_flag in
  let run := train_unsupervised Sample.layers Sample.float R nat R
          Sample.encoder Sample.tape_gradient Sample.apply_gradients
          Sample.partition_imagery Sample.random_ops 1 O
          FLAGS [Sample.batch; Sample.batch; Sample.batch] in
  StronglySorted Z.lt ((-1)%Z :: assigned_steps (fst run)) /\
  (forall s rest, trained_steps (fst run) = s :: rest -> s = 0%Z) /\
  exists st,
    snd run = Ok st /\ step R nat st = 1%Z /\
    assigned_steps (fst run) = [0%Z; 1%Z] /\
    trained_steps (fst run) = [0%Z; 1%Z].
Proof.
  intros FLAGS run.
  assert (HT : (train_batches FLAGS < 2 ^ 63)%Z) by (simpl; lia).
  destruct (step_counter_counts_iterations Sample.layers Sample.float R nat R
              Sample.encoder Sample.tape_gradient Sample.apply_gradients
              Sample.partition_imagery Sample.random_ops 1 O FLAGS
              [Sample.batch; Sample.batch; Sample.batch] HT)
    as (_ & _ & k & _ & _ & Htrained & _ & Hsorted & Hfirst & Hstep & Hk & _).
  split; [exact Hsorted|]. split; [exact Hfirst|].
  assert (Hok := sample_run_returns). fold FLAGS in Hok. fold run in Hok.
  fold run in Hstep, Hk, Htrained.
  destruct (snd run) as [st|e] eqn:Hrun; [|discriminate].
  exists st. split; [reflexivity|].
  destruct (Hk st eq_refl) as (Hkv & Hassigned).
  change (Nat.min (length [Sample.batch; Sample.batch; Sample.batch])
            (S (Z.to_nat (train_batches FLAGS)))) with 2%nat in Hkv.
  subst k. split; [exact (Hstep st eq_refl)|].
  split; [exact Hassigned|exact Htrained].
Defined.


(** The failing input of C1: the sample configuration with
    [summary_frequency = 0] raises [NameError] in its first training
    step, after the counter was incremented to 0 and before any
    checkpoint. *)
Lemma sample_run_without_summaries :
  main Sample.layers Sample.float R nat R Sample.encoder Sample.tape_gradient
    Sample.apply_gradients Sample.partition_imagery Sample.random_ops 1 O
    (Sample.flags 0 1 Sample.weights_flag) [Sample.batch; Sample.batch]
  = ([EvAssignAdd 0; EvTraceOn; EvTrainStep 0 false], Raise NameError).
Proof. lazy. reflexivity. Qed.

Lemma training_fails_without_summaries_witness :
  fails (train_unsupervised Sample.layers Sample.float R nat R
          Sample.encoder Sample.tape_gradient Sample.apply_gradients
          Sample.partition_imagery Sample.random_ops 1 O
          (Sample.flags 0 1 Sample.weights_flag)
           [Sample.batch; Sample.batch]).
Proof.
  assert (Hsf : summary_frequency (Sample.flags 0 1 Sample.weights_flag) = 0%Z)
    by reflexivity.
  destruct (training_fails_without_summaries Sample.layers Sample.float R nat R
              Sample.encoder Sample.tape_gradient Sample.apply_gradients
              Sample.partition_imagery Sample.random_ops 1 O
              (Sample.flags 0 1 Sample.weights_flag) Hsf)
    as (_ & _ & Hrun).
  apply (Hrun Sample.batch [Sample.batch]).
Defined.

(* ------------------------------------------------------------------ *)
(** ** Further properties at concrete inputs *)

Lemma contrastive_accuracy_is_a_fraction_witness :
  exists loss acc plotted,
    _contrastive_loss (Sample.flags_of 2 100 3 []) Sample.repr_a Sample.repr_b
      false = Ok (loss, acc, plotted) /\
    0 <= acc <= 1.
Proof.
  assert (Hn : (0 < batch_size (Sample.flags_of 2 100 3 []))%nat)
    by (simpl; lia).
  destruct sample_batches_of_two as (Ha & Hb).
  destruct (contrastive_loss_value (Sample.flags_of 2 100 3 []) 2 _ _ false
              Hn Ha Hb) as (plotted & Hv & _).
  do 3 eexists. split; [exact Hv|].
  exact (contrastive_accuracy_is_a_fraction _ _ _ _ _ _ _ Hv).
Defined.

Lemma contrastive_loss_nonnegative_witness :
  exists loss acc plotted,
    _contrastive_loss (Sample.flags_of 2 100 3 []) Sample.repr_a Sample.repr_b
      false = Ok (loss, acc, plotted) /\
    0 <= loss.
Proof.
  assert (Hn : (0 < batch_size (Sample.flags_of 2 100 3 []))%nat)
    by (simpl; lia).
  destruct sample_batches_of_two as (Ha & Hb).
  destruct (contrastive_loss_value (Sample.flags_of 2 100 3 []) 2 _ _ false
              Hn Ha Hb) as (plotted & Hv & _).
  do 3 eexists. split; [exact Hv|].
  assert (HT : softmax_temperature (Sample.flags_of 2 100 3 []) <> 0)
    by (simpl; lra).
  exact (contrastive_loss_nonnegative _ _ _ _ _ _ _ HT Hv).
Defined.

Lemma dominant_diagonal_gives_full_accuracy_witness :
  result_map accuracy_of
    (_contrastive_loss (Sample.flags_of 2 100 3 []) Sample.repr_a Sample.repr_a
       false) = Ok 1.
Proof.
  destruct sample_batches_of_two as (Ha & _).
  apply (dominant_diagonal_gives_full_accuracy (Sample.flags_of 2 100 3 []) 2
           Sample.repr_a Sample.repr_a false); [simpl; lia|exact Ha|exact Ha|].
  intros i j Hi Hj Hne. simpl in Hi, Hj.
  destruct i as [|[|i]], j as [|[|j]]; try lia;
    unfold scaled_similarity, flat, dot, Rsum; simpl; lra.
Defined.

Lemma contrastive_loss_rejects_bad_shapes_witness :
  _contrastive_loss (Sample.flags_of 2 100 3 []) Sample.batch Sample.batch false
  = Raise InvalidArgumentError.
Proof.
  destruct (contrastive_loss_rejects_bad_shapes (Sample.flags_of 2 100 3 [])
              Sample.batch Sample.batch false) as (Hbad & _).
  apply Hbad. left. simpl. lia.
Defined.

Lemma parsed_weights_are_a_dictionary_witness :
  exists d,
    _parse_layer_loss_weights Sample.layers Sample.float Sample.weights_flag
    = Ok d /\
    NoDup (map fst d) /\ (length d <= 2)%nat.
Proof.
  assert (Hok : is_ok (_parse_layer_loss_weights Sample.layers Sample.float
                         Sample.weights_flag) = true) by reflexivity.
  destruct (_parse_layer_loss_weights Sample.layers Sample.float
              Sample.weights_flag) as [d|e] eqn:H; [|discriminate].
  exists d. split; [reflexivity|].
  destruct (parsed_weights_are_a_dictionary Sample.layers Sample.float Sample.weights_flag d H) as (Hnd & _ & Hlen).
  split; [exact Hnd|exact Hlen].
Defined.

Lemma view_has_input_shape_witness :
  exists view,
    _create_view Sample.augmented_flags (Sample.random_ops 0) Sample.tile 0
      (1 / 4) (Some 1%Z) = Ok view /\
    has_shape (1, 1, 1, 1)%nat view.
Proof.
  assert (Hok : is_ok (_create_view Sample.augmented_flags (Sample.random_ops 0)
                         Sample.tile 0 (1 / 4) (Some 1%Z)) = true).
  { unfold _create_view, truthy_float, tf.image_random_brightness,
      tf.image_random_contrast. simpl.
    repeat (match goal with
            | |- context [Req_dec_T ?a ?b] =>
                destruct (Req_dec_T a b); [exfalso; lra|]
            | |- context [Rlt_dec ?a ?b] =>
                destruct (Rlt_dec a b); [exfalso; lra|]
            | |- context [Rle_dec ?a ?b] =>
                destruct (Rle_dec a b); [exfalso; lra|]
            end; simpl).
    reflexivity. }
  destruct (_create_view Sample.augmented_flags (Sample.random_ops 0)
              Sample.tile 0 (1 / 4) (Some 1%Z)) as [view|e] eqn:H;
    [|discriminate].
  exists view. split; [reflexivity|].
  apply (view_has_input_shape Sample.augmented_flags (Sample.random_ops 0)
           Sample.tile 0 (1 / 4) (Some 1%Z) view);
    [simpl; lia|simpl; lia| |exact H].
  split; [reflexivity|repeat constructor].
Defined.

Lemma view_larger_than_data_is_rejected_witness :
  _create_view Sample.big_model_flags (Sample.random_ops 0) Sample.batch 0 0
    (Some 1%Z) = Raise InvalidArgumentError.
Proof.
  apply view_larger_than_data_is_rejected; [simpl; lia|simpl; lia|simpl; lia|].
  split; [reflexivity|repeat constructor].
Defined.

Lemma sample_train_step_returns :
  is_ok (train_step R nat R Sample.encoder Sample.tape_gradient
       Sample.apply_gradients Sample.partition_imagery Sample.random_ops
       (Sample.flags 100 1 Sample.weights_flag) Sample.weights
       (initial_state R nat 1 O (Sample.flags 100 1 Sample.weights_flag) Sample.weights)
       Sample.batch 0 true true) = true.
Proof. lazy. reflexivity. Qed.

Lemma train_step_returns_weighted_sum_witness :
  exists loss st' written results,
    train_step R nat R Sample.encoder Sample.tape_gradient
       Sample.apply_gradients Sample.partition_imagery Sample.random_ops
       (Sample.flags 100 1 Sample.weights_flag) Sample.weights
       (initial_state R nat 1 O (Sample.flags 100 1 Sample.weights_flag) Sample.weights)
       Sample.batch 0 true true = Ok (loss, st', written) /\
    loss = Rsum (map (fun lr : string * R * (R * R) =>
                        snd (fst lr) * fst (snd lr))
                   (combine Sample.weights results)).
Proof.
  assert (Hok := sample_train_step_returns).
  destruct (train_step R nat R Sample.encoder Sample.tape_gradient
       Sample.apply_gradients Sample.partition_imagery Sample.random_ops
       (Sample.flags 100 1 Sample.weights_flag) Sample.weights
       (initial_state R nat 1 O (Sample.flags 100 1 Sample.weights_flag) Sample.weights)
       Sample.batch 0 true true) as [[[loss st'] written]|e] eqn:H;
    [|discriminate].
  destruct (train_step_returns_weighted_sum _ _ _ _ _ _ _ _ _ _ _ _ _ _ _ _ _ _ H)
    as (v1 & v2 & reps1 & reps2 & metrics & results
        & _ & _ & _ & _ & Hm & _ & Hloss).
  simpl in Hm. injection Hm as <-.
  exists loss, st', written, results. split; [reflexivity|exact Hloss].
Defined.

Lemma train_step_applies_one_update_witness :
  exists loss st' written,
    train_step R nat R Sample.encoder Sample.tape_gradient
       Sample.apply_gradients Sample.partition_imagery Sample.random_ops
       (Sample.flags 100 1 Sample.weights_flag) Sample.weights
       (initial_state R nat 1 O (Sample.flags 100 1 Sample.weights_flag) Sample.weights)
       Sample.batch 0 true true = Ok (loss, st', written) /\
    step R nat st' = (-1)%Z.
Proof.
  assert (Hok := sample_train_step_returns).
  destruct (train_step R nat R Sample.encoder Sample.tape_gradient
       Sample.apply_gradients Sample.partition_imagery Sample.random_ops
       (Sample.flags 100 1 Sample.weights_flag) Sample.weights
       (initial_state R nat 1 O (Sample.flags 100 1 Sample.weights_flag) Sample.weights)
       Sample.batch 0 true true) as [[[loss st'] written]|e] eqn:H;
    [|discriminate].
  destruct (train_step_applies_one_update _ _ _ _ _ _ _ _ _ _ _ _ _ _ _ _ _ _ H)
    as (v1 & v2 & metrics & _ & _ & _ & Hs & _).
  exists loss, st', written. split; [reflexivity|exact Hs].
Defined.

Lemma train_step_feeds_every_metric_witness :
  exists loss st' written,
    train_step R nat R Sample.encoder Sample.tape_gradient
       Sample.apply_gradients Sample.partition_imagery Sample.random_ops
       (Sample.flags 100 1 Sample.weights_flag) Sample.weights
       (initial_state R nat 1 O (Sample.flags 100 1 Sample.weights_flag) Sample.weights)
       Sample.batch 0 true true = Ok (loss, st', written) /\
    total_loss_metric R nat st'
    = Some {| total := total new_mean + (loss + 0);
              count := count new_mean + 1 |}.
Proof.
  assert (Hok := sample_train_step_returns).
  destruct (train_step R nat R Sample.encoder Sample.tape_gradient
       Sample.apply_gradients Sample.partition_imagery Sample.random_ops
       (Sample.flags 100 1 Sample.weights_flag) Sample.weights
       (initial_state R nat 1 O (Sample.flags 100 1 Sample.weights_flag) Sample.weights)
       Sample.batch 0 true true) as [[[loss st'] written]|e] eqn:H;
    [|discriminate].
  exists loss, st', written. split; [reflexivity|].
  apply (train_step_feeds_every_metric _ _ _ _ _ _ _ _ _ _ _ _ _ _ _ _ _ _ new_mean
           [(new_mean, new_mean); (new_mean, new_mean)]) in H;
    [exact (proj1 H)|simpl; lia|reflexivity|reflexivity|reflexivity].
Defined.

Lemma returning_run_control_events_witness :
  let FLAGS := Sample.flags 100 1 Sample.weights_flag in
  let run := train_unsupervised Sample.layers Sample.float R nat R
       Sample.encoder Sample.tape_gradient Sample.apply_gradients
       Sample.partition_imagery Sample.random_ops 1 O
       FLAGS [Sample.batch; Sample.batch; Sample.batch] in
  exists st,
    snd run = Ok st /\
    control_events (fst run)
    = concat (map (iteration_control FLAGS)
                (count_from 0 (Z.to_nat (step R nat st + 1))))
      ++ [EvCheckpoint (step R nat st)].
Proof.
  intros FLAGS run.
  assert (Hok := sample_run_returns). fold FLAGS in Hok. fold run in Hok.
  destruct (snd run) as [st|e] eqn:Hrun; [|discriminate].
  exists st. split; [reflexivity|].
  apply returning_run_control_events; [simpl; lia|exact Hrun].
Defined.

Lemma checkpoints_follow_the_cadence_witness :
  let FLAGS := Sample.flags 100 1 Sample.weights_flag in
  let run := train_unsupervised Sample.layers Sample.float R nat R
       Sample.encoder Sample.tape_gradient Sample.apply_gradients
       Sample.partition_imagery Sample.random_ops 1 O
       FLAGS [Sample.batch; Sample.batch; Sample.batch] in
  exists st,
    snd run = Ok st /\
    checkpoint_steps (fst run)
    = filter (fun i => (i mod checkpoint_frequency FLAGS =? 0)%Z)
        (count_from 0 (Z.to_nat (step R nat st + 1)))
      ++ [step R nat st].
Proof.
  intros FLAGS run.
  assert (Hok := sample_run_returns). fold FLAGS in Hok. fold run in Hok.
  destruct (snd run) as [st|e] eqn:Hrun; [|discriminate].
  exists st. split; [reflexivity|].
  apply checkpoints_follow_the_cadence; [simpl; lia|exact Hrun].
Defined.

Lemma sample_warmup_run_returns :
  is_ok (snd (train_unsupervised Sample.layers Sample.float R nat R
       Sample.encoder Sample.tape_gradient Sample.apply_gradients
       Sample.partition_imagery Sample.random_ops 1 O
       Sample.warmup_flags [Sample.batch; Sample.batch; Sample.batch])) = true.
Proof. lazy. reflexivity. Qed.

Lemma returned_schedules_match_the_step_witness :
  let FLAGS := Sample.warmup_flags in
  let run := train_unsupervised Sample.layers Sample.float R nat R
       Sample.encoder Sample.tape_gradient Sample.apply_gradients
       Sample.partition_imagery Sample.random_ops 1 O
       FLAGS [Sample.batch; Sample.batch; Sample.batch] in
  exists st,
    snd run = Ok st /\
    learning_rate_var R nat st = _learning_rate FLAGS (step R nat st) /\
    dropout_rate_var R nat st = _dropout_rate FLAGS (step R nat st).
Proof.
  intros FLAGS run.
  assert (Hok := sample_warmup_run_returns). fold FLAGS in Hok. fold run in Hok.
  destruct (snd run) as [st|e] eqn:Hrun; [|discriminate].
  exists st. split; [reflexivity|].
  exact (returned_schedules_match_the_step _ _ _ _ _ _ _ _ _ _ _ _ _ _ _ Hrun).
Defined.





Lemma no_summaries_off_the_cadence_witness :
  summary_events
    (fst (iteration R nat R Sample.encoder Sample.tape_gradient
       Sample.apply_gradients Sample.partition_imagery Sample.random_ops
       (Sample.flags 100 1 Sample.weights_flag) Sample.weights
       (with_step R nat
          (initial_state R nat 1 O (Sample.flags 100 1 Sample.weights_flag)
             Sample.weights) 0)
       Sample.batch)) = [].
Proof.
  apply no_summaries_off_the_cadence. reflexivity.
Defined.

Lemma zero_checkpoint_frequency_aborts_witness :
  let run := train_unsupervised Sample.layers Sample.float R nat R
       Sample.encoder Sample.tape_gradient Sample.apply_gradients
       Sample.partition_imagery Sample.random_ops 1 O
       Sample.unsaved_flags [Sample.batch; Sample.batch] in
  fails run /\ checkpoint_steps (fst run) = [].
Proof.
  intros run.
  destruct (zero_checkpoint_frequency_aborts Sample.layers Sample.float R nat R
              Sample.encoder Sample.tape_gradient Sample.apply_gradients
              Sample.partition_imagery Sample.random_ops 1 O
              Sample.unsaved_flags Sample.batch [Sample.batch] eq_refl)
    as (Hf & Hc & _).
  split; [exact Hf|exact Hc].
Defined.

(** With [checkpoint_frequency = 0] the sample run raises
    [ZeroDivisionError] once its first training step is done. *)
Lemma sample_run_without_checkpoints :
  snd (train_unsupervised Sample.layers Sample.float R nat R
       Sample.encoder Sample.tape_gradient Sample.apply_gradients
       Sample.partition_imagery Sample.random_ops 1 O
       Sample.unsaved_flags [Sample.batch; Sample.batch])
  = Raise ZeroDivisionError.
Proof. lazy. reflexivity. Qed.

Lemma write_metrics_flushes_and_resets_witness :
  length (fst (write_metrics R nat Sample.weights true
                 (initial_state R nat 1 O (Sample.flags 100 1 Sample.weights_flag)
                    Sample.weights))) = 5%nat.
Proof.
  destruct (write_metrics_flushes_and_resets R nat Sample.weights
              (initial_state R nat 1 O (Sample.flags 100 1 Sample.weights_flag)
                 Sample.weights)) as (Hflush & _).
  destruct (Hflush new_mean [(new_mean, new_mean); (new_mean, new_mean)]
              eq_refl eq_refl eq_refl) as (_ & Hlen).
  exact Hlen.
Defined.
